(** * Mada: hotel price tracker -- price normalisation, sync scheduler,
      session store, alerting and run telemetry

    A shallow embedding of the TypeScript sources

      - [data-processor.ts]   (calculateActualPrice, the two date formats,
                               getOrCreateHotel, savePriceHistory,
                               getPriceHistory)
      - [scheduler.ts]        (runSync, the callback of startScheduler)
      - [session-manager.ts]  (saveSession, loadSession, deleteSession,
                               createSession, getSessionExpiryDays,
                               isSessionNeedingVerification, uploadSession,
                               exportSession)
      - [db-helpers.ts]       (saveUserPrice, getUserPrice,
                               getCompetitorBasePrice, createPriceAlert,
                               dismissAlert, the rows of
                               getPriceComparisonData)
      - [sync-monitor.ts]     (SyncMonitor)
      - [routers/scraper.ts]  (getSyncStatus, deleteCredentials,
                               getSessionStatus)

    Conventions.
      - A JavaScript [number] is a rational ([Q]), [NaN] or an infinity.
        Whole numbers -- counters, prices as the scraper reads them,
        timestamps ([Date.now()], milliseconds) -- are exact, as they are
        in doubles below 2^53.  Where the code divides, or multiplies by
        a fraction, and the rounding of IEEE-754 doubles shows in the
        result -- the normalised price, the figures that
        [getFormattedStats] prints -- every operation is rounded to the
        nearest double ([Js.fl64]).  The day counts of the session
        manager and the uptime are taken from the exact quotient of two
        clock readings by a whole number of milliseconds.
      - [null] / [undefined] are [None].
      - A relational table is the list of its rows in insertion order; an
        auto-increment key is one more than the largest key present.
      - Code that can throw lives in a state-and-exception monad [M]. *)

From Stdlib Require Import ZArith QArith Qround Qabs Qpower Qreduction.
From Stdlib Require Import Lia Lqa Ascii.
From stdpp Require Import base strings gmap list pretty.

Set Warnings "-register-all".
Open Scope Z_scope.

(** ** JavaScript primitives *)

Module Js.

(** What a [catch (error)] clause can receive: an [Error] object with its
    [message], or any other thrown value. *)
Inductive Exn : Type :=
| Error (message : string)
| Thrown.

(** [error instanceof Error ? error.message : "Unknown error"] *)
Definition message_of (e : Exn) : string :=
  match e with
  | Error m => m
  | Thrown => "Unknown error"
  end.

Inductive Res (A : Type) : Type :=
| Ret (a : A)
| Throw (e : Exn).
Arguments Ret {A} a.
Arguments Throw {A} e.

(** State-and-exception monad: the state survives a throw, as the effects
    of a JavaScript block survive its exception. *)
Definition M (S A : Type) : Type := S -> Res A * S.

Definition ret {S A} (a : A) : M S A := fun s => (Ret a, s).
Definition throw {S A} (e : Exn) : M S A := fun s => (Throw e, s).
Definition bind {S A B} (m : M S A) (k : A -> M S B) : M S B :=
  fun s => match m s with
           | (Ret a, s') => k a s'
           | (Throw e, s') => (Throw e, s')
           end.
(** [try { m } catch (e) { h e }] *)
Definition try_catch {S A} (m : M S A) (h : Exn -> M S A) : M S A :=
  fun s => match m s with
           | (Ret a, s') => (Ret a, s')
           | (Throw e, s') => h e s'
           end.
Definition get {S} : M S S := fun s => (Ret s, s).
Definition modify {S} (f : S -> S) : M S unit := fun s => (Ret tt, f s).

(** [Math.round]: nearest integer, halves towards +infinity. *)
Definition Math_round (x : Q) : Z := Qfloor (x + (1 # 2))%Q.

(** [Math.floor] *)
Definition Math_floor (x : Q) : Z := Qfloor x.

(** *** IEEE-754 doubles

    The value of an arithmetic operation on doubles is the exact value
    rounded to the nearest double, ties to the even significand:
    [fl64].  A finite double is the rational it denotes. *)

(** The binade of a positive number: [2 ^ ilog2 q <= q < 2 ^ (ilog2 q + 1)]. *)
Definition ilog2 (q : Q) : Z :=
  let l := Z.log2 (Qnum q) - Z.log2 (Z.pos (Qden q)) in
  if Qle_bool (2 ^ l) q then l else l - 1.

(** The nearest integer, a tie going to the even one. *)
Definition rne (x : Q) : Z :=
  let f := Qfloor x in
  match (x - inject_Z f ?= 1 # 2)%Q with
  | Lt => f
  | Gt => f + 1
  | Eq => if Z.even f then f else f + 1
  end.

(** 53 bits of significand; below [2 ^ -1022] the spacing stays
    [2 ^ -1074] (subnormals).  Overflow to [Infinity] (from
    [1.8 * 10 ^ 308] on) is not modelled. *)
Definition fl64_pos (q : Q) : Q :=
  let e := Z.max (ilog2 q - 52) (-1074) in
  Qred (inject_Z (rne (q / 2 ^ e)) * 2 ^ e).

Definition fl64 (q : Q) : Q :=
  match Qnum q with
  | Z0 => 0%Q
  | Z.pos _ => fl64_pos q
  | Z.neg _ => (- fl64_pos (- q))%Q
  end.

(** Truthiness of a number that is not [NaN]: everything but zero. *)
Definition truthy (x : Q) : bool := negb (Qeq_bool x 0).

(** Numbers as JavaScript has them at run time: [NaN], a finite number,
    [Infinity] and [-Infinity]. *)
Inductive Number : Type :=
| NaN
| Num (q : Q)
| Inf (negative : bool).

(** [a > b] on numbers: [false] as soon as one side is [NaN]. *)
Definition gt (a b : Number) : bool :=
  match a, b with
  | Num x, Num y => if Qlt_le_dec y x then true else false
  | Inf false, Num _ => true
  | Inf false, Inf true => true
  | Num _, Inf true => true
  | _, _ => false
  end.

(** [a >= b] on numbers. *)
Definition ge (a b : Number) : bool :=
  match a, b with
  | Num x, Num y => if Qlt_le_dec x y then false else true
  | Inf false, Num _ => true
  | Inf false, Inf _ => true
  | Num _, Inf true => true
  | Inf true, Inf true => true
  | _, _ => false
  end.

Definition sub (a b : Number) : Number :=
  match a, b with
  | Num x, Num y => Num (x - y)
  | Inf n, Num _ => Inf n
  | Num _, Inf n => Inf (negb n)
  | Inf n, Inf m => if Bool.eqb n m then NaN else Inf n
  | _, _ => NaN
  end.

(** Division by a non-zero constant. *)
Definition div_const (a : Number) (c : Q) : Number :=
  match a with
  | Num x => Num (x / c)
  | Inf n => if Qlt_le_dec c 0 then Inf (negb n) else Inf n
  | NaN => NaN
  end.

Definition floor (a : Number) : Number :=
  match a with
  | Num x => Num (inject_Z (Math_floor x))
  | Inf n => Inf n
  | NaN => NaN
  end.

(** [String.prototype.split] on a one-character separator. *)
Fixpoint split_go (sep : Ascii.ascii) (s : string) (cur : string) : list string :=
  match s with
  | EmptyString => [String.rev cur]
  | String c s' =>
      if Ascii.eqb c sep then String.rev cur :: split_go sep s' EmptyString
      else split_go sep s' (String c cur)
  end.
Definition split (sep : Ascii.ascii) (s : string) : list string :=
  split_go sep s EmptyString.

(** [s.padStart(2, "0")] *)
Definition padStart2 (s : string) : string :=
  match String.length s with
  | O => "00"
  | S O => String.append "0" s
  | _ => s
  end.

(** [Math.ceil] on a number. *)
Definition ceil (a : Number) : Number :=
  match a with
  | Num x => Num (inject_Z (Qceiling x))
  | Inf n => Inf n
  | NaN => NaN
  end.

(** [Math.max(0, a)]: [NaN] as soon as the argument is. *)
Definition max0 (a : Number) : Number :=
  match a with
  | Num x => if Qlt_le_dec x 0 then Num 0 else Num x
  | Inf true => Num 0
  | Inf false => Inf false
  | NaN => NaN
  end.

End Js.

Notation "'let!' x ':=' m 'in' k" := (Js.bind m (fun x => k))
  (at level 10, x name, m at level 100, k at level 200).
Notation "'run!' m 'in' k" := (Js.bind m (fun _ => k))
  (at level 10, m at level 100, k at level 200).

(** ** The relational store ([drizzle/schema.ts]) *)

Module Schema.

Record HotelRow : Type := mkHotel {
  h_id : Z;
  h_name : string;
  h_hotelId : string;
  h_city : string
}.

Record PriceHistoryRow : Type := mkPrice {
  ph_id : Z;
  ph_hotelId : Z;
  ph_date : string;
  ph_displayPrice : option Q;
  ph_actualPrice : option Z;
  ph_currency : string;
  ph_available : Z
}.

Inductive SyncStatus : Type := idle | syncing | error | success.

Record CredentialRow : Type := mkCred {
  c_id : Z;
  c_userId : Z;
  c_username : string;
  c_password : string;
  c_lastSyncAt : option Z;
  c_syncStatus : SyncStatus;
  c_syncError : option string
}.

Inductive LogStatus : Type := pending | running | completed | failed.

Record SyncLogRow : Type := mkLog {
  sl_id : Z;
  sl_userId : Z;
  sl_status : LogStatus;
  sl_totalHotels : Z;
  sl_totalDates : Z;
  sl_successCount : Z;
  sl_errorCount : Z;
  sl_errorMessage : option string;
  sl_startedAt : Z;
  sl_completedAt : option Z;
  sl_duration : option Z
}.

Inductive AlertType : Type := price_lower | price_higher | price_equal.

Record AlertRow : Type := mkAlert {
  a_id : Z;
  a_userId : Z;
  a_hotelId : Z;
  a_date : string;
  a_userPrice : Q;
  a_competitorPrice : Q;
  a_priceDifference : Q;
  a_alertType : AlertType;
  a_isActive : Z;
  a_createdAt : Z;
  a_dismissedAt : option Z
}.

Record Db : Type := mkDb {
  hotels : list HotelRow;
  priceHistory : list PriceHistoryRow;
  webbedCredentials : list CredentialRow;
  syncLogs : list SyncLogRow;
  priceAlerts : list AlertRow
}.

Definition emptyDb : Db := mkDb [] [] [] [] [].

(** [AUTO_INCREMENT]: one more than the largest key in the table. *)
Definition next_id {R} (key : R -> Z) (rows : list R) : Z :=
  1 + fold_right (fun r m => Z.max (key r) m) 0 rows.

Definition set_hotels (f : list HotelRow -> list HotelRow) (d : Db) : Db :=
  mkDb (f (hotels d)) (priceHistory d) (webbedCredentials d) (syncLogs d)
       (priceAlerts d).
Definition set_priceHistory
    (f : list PriceHistoryRow -> list PriceHistoryRow) (d : Db) : Db :=
  mkDb (hotels d) (f (priceHistory d)) (webbedCredentials d) (syncLogs d)
       (priceAlerts d).
Definition set_webbedCredentials
    (f : list CredentialRow -> list CredentialRow) (d : Db) : Db :=
  mkDb (hotels d) (priceHistory d) (f (webbedCredentials d)) (syncLogs d)
       (priceAlerts d).
Definition set_syncLogs (f : list SyncLogRow -> list SyncLogRow) (d : Db) : Db :=
  mkDb (hotels d) (priceHistory d) (webbedCredentials d) (f (syncLogs d))
       (priceAlerts d).
Definition set_priceAlerts (f : list AlertRow -> list AlertRow) (d : Db) : Db :=
  mkDb (hotels d) (priceHistory d) (webbedCredentials d) (syncLogs d)
       (f (priceAlerts d)).

(** [if (!db) throw new Error("Database not available")], where [up]
    tells whether [getDb()] returned a handle. *)
Definition require_db {S} (up : bool) : Js.M S unit :=
  if up then Js.ret tt else Js.throw (Js.Error "Database not available").

End Schema.

(** ** data-processor.ts *)

Module DataProcessor.
Import Schema.

(** The literal [1.04998] is the double nearest to it. *)
Definition c_1_04998 : Q := Js.fl64 1.04998.

(** [Math.round((displayPrice / 1.04998) * 100) / 100]: a division, a
    multiplication and a division of doubles, each rounded. *)
Definition calculateActualPrice (displayPrice : Q) : Q :=
  Js.fl64
    (inject_Z (Js.Math_round
                 (Js.fl64 (Js.fl64 (displayPrice / c_1_04998) * 100)))
     / 100)%Q.

(** [const [day, month, year] = dateStr.split("/")] followed by the
    template with [month.padStart] and [day.padStart]: a missing [month]
    is [undefined] and its [padStart] a [TypeError]; a missing [year] is
    printed as ["undefined"]. *)
Definition formatDateToISO {S} (dateStr : string) : Js.M S string :=
  match Js.split "/"%char dateStr with
  | day :: month :: rest =>
      let year := match rest with y :: _ => y | [] => "undefined" end in
      Js.ret (String.append year
               (String.append "-"
                 (String.append (Js.padStart2 month)
                   (String.append "-" (Js.padStart2 day)))))
  | _ => Js.throw (Js.Error "Cannot read properties of undefined")
  end.

(** What [getOrCreateHotel] resolves to.  For a row that is found it is
    [existing[0].id], a number.  After an insert it is [result[0]], the
    [ResultSetHeader] of the driver -- an object that carries the new key
    as [insertId] -- which the cast [as unknown as number] does not turn
    into a number. *)
Inductive HotelRef : Type :=
| Key (id : Z)
| Header (insertId : Z).

(** [getOrCreateHotel]: the row with this [hotelId] if there is one,
    otherwise a new row. *)
Definition getOrCreateHotel (up : bool) (hotelName hotelId : string)
  : Js.M Db HotelRef :=
  run! require_db up in
  let! d := Js.get in
  match filter (fun r => bool_decide (h_hotelId r = hotelId)) (hotels d) with
  | r :: _ => Js.ret (Key (h_id r))
  | [] =>
      let k := next_id h_id (hotels d) in
      run! Js.modify (set_hotels
             (fun t => t ++ [mkHotel k hotelName hotelId "Makkah"])) in
      Js.ret (Header k)
  end.

(** The [actualPrice] column written by [savePriceHistory]:
    [displayPrice ? calculateActualPrice(displayPrice) : null], then
    [actualPrice ? Math.round(actualPrice) : null]. *)
Definition persistedActualPrice (displayPrice : option Q) : option Z :=
  let actualPrice :=
    match displayPrice with
    | Some p => if Js.truthy p then Some (calculateActualPrice p) else None
    | None => None
    end in
  match actualPrice with
  | Some a => if Js.truthy a then Some (Js.Math_round a) else None
  | None => None
  end.

Definition savePriceHistory (up : bool) (hotelId : Z) (date : string)
    (displayPrice : option Q) (available : bool) : Js.M Db unit :=
  run! require_db up in
  let priceData (k : Z) :=
    mkPrice k hotelId date displayPrice (persistedActualPrice displayPrice)
            "SAR" (if available then 1 else 0) in
  Js.modify (set_priceHistory
               (fun t => t ++ [priceData (next_id ph_id t)])).

(** [savePriceHistory] called with what [getOrCreateHotel] resolved to, as
    the scheduler does.  A [ResultSetHeader] in the place of the integer
    column [hotelId] is not a value the insert accepts: the query fails
    and the call throws, with nothing written. *)
Definition savePriceHistory_for (up : bool) (hotel : HotelRef) (date : string)
    (displayPrice : option Q) (available : bool) : Js.M Db unit :=
  match hotel with
  | Key hotelId => savePriceHistory up hotelId date displayPrice available
  | Header _ =>
      run! require_db up in
      Js.throw (Js.Error "Failed query: insert into priceHistory")
  end.

(** [const [year, month, day] = dateStr.split("-")] and the template
    [day/month/year]; a part that is missing is printed as ["undefined"]. *)
Definition formatDateToDDMMYYYY (dateStr : string) : string :=
  let parts := Js.split "-"%char dateStr in
  let part (i : nat) := default "undefined" (parts !! i) in
  String.append (part 2%nat)
    (String.append "/" (String.append (part 1%nat)
      (String.append "/" (part 0%nat)))).

(** An element of the array that [getPriceHistory] returns. *)
Record PriceEntry : Type := mkEntry {
  pe_date : string;
  pe_displayPrice : option Q;
  pe_actualPrice : option Z;
  pe_available : bool
}.

(** [getPriceHistory]: the [where] callback returns [conditions[0]], the
    equality on [hotelId]; the two dates are not used. *)
Definition getPriceHistory (up : bool) (hotelId : Z)
    (startDate endDate : string) : Js.M Db (list PriceEntry) :=
  run! require_db up in
  let! d := Js.get in
  let results :=
    filter (fun ph => ph_hotelId ph =? hotelId) (priceHistory d) in
  Js.ret (map (fun r => mkEntry (ph_date r) (ph_displayPrice r)
                                (ph_actualPrice r) (ph_available r =? 1))
              results).

End DataProcessor.

(** ** scheduler.ts *)

Module Scheduler.
Import Schema DataProcessor.

Record Hotel : Type := mkTracked { name : string; id : string }.

Definition HOTELS_TO_TRACK : list Hotel :=
  [ mkTracked "VOCO" "voco";
    mkTracked "ELAF AJYAD" "elaf-ajyad";
    mkTracked "Four Points" "four-points";
    mkTracked "Makkah al Aziziah" "makkah-al-aziziah";
    mkTracked "Novotel Thakher" "novotel-thakher";
    mkTracked "Razanah" "razanah";
    mkTracked "Elaf Bakkah" "elaf-bakkah";
    mkTracked "M Al Danah" "m-al-danah";
    mkTracked "Snaff in" "snaff-in";
    mkTracked "Tapestry Collection by Hilton" "tapestry-collection";
    mkTracked "Wrqan Azizyah" "wrqan-azizyah";
    mkTracked "ibis Makkah" "ibis-makkah";
    mkTracked "Rafahyah Al Azizyah" "rafahyah-al-azizyah";
    mkTracked "Diyar Al Khaledyah" "diyar-al-khaledyah" ].

Definition DATES_TO_TRACK : list string :=
  [ "16/02/2026"; "17/02/2026"; "18/02/2026"; "19/02/2026"; "20/02/2026";
    "21/02/2026"; "22/02/2026"; "23/02/2026"; "24/02/2026"; "25/02/2026";
    "26/02/2026"; "27/02/2026"; "28/02/2026"; "01/03/2026"; "02/03/2026";
    "03/03/2026"; "04/03/2026"; "05/03/2026"; "06/03/2026"; "07/03/2026" ].

Record SyncResult : Type := mkResult {
  success : bool;
  totalHotels : Z;
  totalDates : Z;
  successCount : Z;
  errorCount : Z;
  errorMessage : option string
}.

(** The fields of [HotelSearchResult] that [runSync] reads. *)
Record HotelSearchResult : Type := mkSearch {
  price : option Q;
  available : bool
}.

(** The queries of a run, by the place that sends them. *)
Inductive Query : Type :=
| SelectCredentials
| InsertSyncLog
| UpdateSyncLog
| UpdateCredentials
(* the update in the [catch] block of [runSync] *)
| UpdateCredentialsError
(* the queries of [getOrCreateHotel] / [savePriceHistory] in the cell
   (hotel name, date) *)
| HotelQueries (hotelName dateStr : string)
| InsertPrice (hotelName dateStr : string).

(** Everything [runSync] does not decide itself: the browser
    ([PuppeteerScraper]), the database server, the cipher and the clock.
    Each scraper call either returns or throws.  [getDb()] hands out a
    handle without reaching the server, and the same handle ever after:
    with the handle there, a query is answered ([Ret tt], its effect on
    the tables is that of the model) or fails ([Throw], the tables are
    left as they are).  [decryptData] throws on a stored password that
    does not decipher to text. *)
Record Env : Type := mkEnv {
  getDb : bool;
  query : Query -> Js.Res unit;
  decryptData : string -> Js.Res string;
  initialize : Js.Res unit;
  login : string -> string -> Js.Res bool;
  searchHotelPrice : string -> string -> string
                     -> Js.Res (option HotelSearchResult);
  close : Js.Res unit;
  (* [Date.now()] when the run starts and after the grid. *)
  t_start : Z;
  t_end : Z
}.

(** The locals [successCount] and [errorCount] live in the state: a
    [catch] block sees the values they had when the exception left. *)
Record St : Type := mkSt {
  db : Db;
  okCount : Z;
  errCount : Z
}.

Definition on_db (f : Db -> Db) : Js.M St unit :=
  Js.modify (fun s => mkSt (f (db s)) (okCount s) (errCount s)).

(** Run a database routine of [data-processor.ts] on the [db] component. *)
Definition with_db {A} (m : Js.M Db A) : Js.M St A :=
  fun s => let (r, d') := m (db s) in (r, mkSt d' (okCount s) (errCount s)).

Definition await {A} (r : Js.Res A) : Js.M St A := fun s => (r, s).

(** [successCount++] / [errorCount++] *)
Definition successCount_incr : Js.M St unit :=
  Js.modify (fun s => mkSt (db s) (okCount s + 1) (errCount s)).
Definition errorCount_incr : Js.M St unit :=
  Js.modify (fun s => mkSt (db s) (okCount s) (errCount s + 1)).

(** [parseInt] on a string that starts with decimal digits; [None] is
    [NaN].  (Leading blanks, signs and radix prefixes do not occur in the
    tracked dates and are not handled.) *)
Definition digit (c : ascii) : option Z :=
  let n := Z.of_nat (nat_of_ascii c) in
  if (48 <=? n) && (n <=? 57) then Some (n - 48) else None.
Fixpoint parseInt_go (s : string) (acc : option Z) : option Z :=
  match s with
  | EmptyString => acc
  | String c s' =>
      match digit c with
      | Some v => parseInt_go s' (Some (10 * default 0 acc + v))
      | None => acc
      end
  end.
Definition parseInt (s : string) : option Z := parseInt_go s None.

Definition isLeap (y : Z) : bool :=
  ((y mod 4 =? 0) && negb (y mod 100 =? 0)) || (y mod 400 =? 0).
Definition daysInMonth (m y : Z) : Z :=
  if m =? 2 then (if isLeap y then 29 else 28)
  else if (m =? 4) || (m =? 6) || (m =? 9) || (m =? 11) then 30
  else 31.

(** [n.toString().padStart(2, "0")] *)
Definition pad2 (n : Z) : string := Js.padStart2 (pretty n).

(** The check-out date: [new Date(year, month - 1, day)], [setDate(+1)],
    printed as DD/MM/YYYY.  The calendar step is that of [Date] for a
    check-in that is a date of the calendar; components that do not parse
    make every getter [NaN]. *)
Definition checkOutStr (dateStr : string) : string :=
  match Js.split "/"%char dateStr with
  | day :: month :: year :: _ =>
      match parseInt day, parseInt month, parseInt year with
      | Some d, Some m, Some y =>
          let '(d', m', y') :=
            if d <? daysInMonth m y then (d + 1, m, y)
            else if m <? 12 then (1, m + 1, y)
            else (1, 1, y + 1) in
          String.append (pad2 d')
            (String.append "/" (String.append (pad2 m')
              (String.append "/" (pretty y'))))
      | _, _, _ => "NaN/NaN/NaN"
      end
  | _ => "NaN/NaN/NaN"
  end.

(** The body of the two nested [for] loops, with its own [try]/[catch]. *)
Definition syncCell (env : Env) (hotel : Hotel) (dateStr : string)
  : Js.M St unit :=
  Js.try_catch
    (let! hotelId :=
       (run! await (query env (HotelQueries (name hotel) dateStr)) in
        with_db (getOrCreateHotel true (name hotel) (id hotel))) in
     let! result :=
       await (searchHotelPrice env (name hotel) dateStr
                               (checkOutStr dateStr)) in
     match result with
     | Some r =>
         let! isoDate := formatDateToISO dateStr in
         run! await (query env (InsertPrice (name hotel) dateStr)) in
         run! with_db (savePriceHistory_for true hotelId isoDate
                         (price r) (available r)) in
         successCount_incr
     | None => errorCount_incr
     end)
    (fun _ => errorCount_incr).

Fixpoint forDates (env : Env) (hotel : Hotel) (dates : list string)
  : Js.M St unit :=
  match dates with
  | [] => Js.ret tt
  | dateStr :: rest =>
      run! syncCell env hotel dateStr in forDates env hotel rest
  end.

Fixpoint forHotels (env : Env) (tracked : list Hotel) (dates : list string)
  : Js.M St unit :=
  match tracked with
  | [] => Js.ret tt
  | hotel :: rest =>
      run! forDates env hotel dates in forHotels env rest dates
  end.

Definition len {A} (l : list A) : Z := Z.of_nat (length l).

(** [db.update(webbedCredentials).set(f).where(eq(userId, userId))] *)
Definition update_credentials (userId : Z)
    (f : CredentialRow -> CredentialRow) : Db -> Db :=
  set_webbedCredentials
    (map (fun c => if c_userId c =? userId then f c else c)).

(** [db.update(syncLogs).set(f).where(eq(id, syncLogId))] *)
Definition update_syncLog (syncLogId : Z)
    (f : SyncLogRow -> SyncLogRow) : Db -> Db :=
  set_syncLogs (map (fun l => if sl_id l =? syncLogId then f l else l)).

(** The [try] block of [runSync], for a given tracking grid. *)
Definition runSync_try (env : Env) (tracked : list Hotel)
    (dates : list string) (userId : Z) : Js.M St SyncResult :=
  let startTime := t_start env in
  run! await (query env SelectCredentials) in
  let! s0 := Js.get in
  match filter (fun c => c_userId c =? userId) (webbedCredentials (db s0)) with
  | [] =>
      Js.ret (mkResult false 0 0 0 0 (Some "No credentials found"))
  | cred :: _ =>
      let! password := await (decryptData env (c_password cred)) in
      let insertId := next_id sl_id (syncLogs (db s0)) in
      run! await (query env InsertSyncLog) in
      run! on_db (set_syncLogs (fun t => t ++
             [mkLog insertId userId running (len tracked) (len dates)
                    0 0 None (t_start env) None None])) in
      let syncLogId := if insertId =? 0 then 1 else insertId in
      run! await (initialize env) in
      let! loginSuccess := await (login env (c_username cred) password) in
      run! (if loginSuccess : bool then Js.ret tt
            else Js.throw (Js.Error "Login failed")) in
      run! forHotels env tracked dates in
      run! await (close env) in
      let duration :=
        Js.Math_round (inject_Z (t_end env - startTime) / 1000) in
      let! s1 := Js.get in
      run! await (query env UpdateSyncLog) in
      run! on_db (update_syncLog syncLogId (fun l =>
             mkLog (sl_id l) (sl_userId l) completed (sl_totalHotels l)
                   (sl_totalDates l) (okCount s1) (errCount s1)
                   (sl_errorMessage l) (sl_startedAt l)
                   (Some (t_end env)) (Some duration))) in
      run! await (query env UpdateCredentials) in
      run! on_db (update_credentials userId (fun c =>
             mkCred (c_id c) (c_userId c) (c_username c) (c_password c)
                    (Some (t_end env)) Schema.success None)) in
      Js.ret (mkResult true (len tracked) (len dates)
                       (okCount s1) (errCount s1) None)
  end.

(** The [catch] block of [runSync]; its own query is not guarded: when it
    fails, [runSync] rejects. *)
Definition runSync_catch (env : Env) (tracked : list Hotel)
    (dates : list string) (userId : Z) (e : Js.Exn) : Js.M St SyncResult :=
  let errorMessage := Js.message_of e in
  run! await (query env UpdateCredentialsError) in
  run! on_db (update_credentials userId (fun c =>
         mkCred (c_id c) (c_userId c) (c_username c) (c_password c)
                (c_lastSyncAt c) Schema.error (Some errorMessage))) in
  let! s := Js.get in
  Js.ret (mkResult false (len tracked) (len dates)
                   (okCount s) (errCount s) (Some errorMessage)).

Definition runSync_on (env : Env) (tracked : list Hotel)
    (dates : list string) (userId : Z) (d : Db) : Js.Res SyncResult * Db :=
  if getDb env then
    let (r, s) :=
      Js.try_catch (runSync_try env tracked dates userId)
                   (runSync_catch env tracked dates userId)
                   (mkSt d 0 0) in
    (r, db s)
  else
    (Js.Ret (mkResult false 0 0 0 0 (Some "Database not available")), d).

(** [runSync(userId)] *)
Definition runSync (env : Env) (userId : Z) (d : Db)
  : Js.Res SyncResult * Db :=
  runSync_on env HOTELS_TO_TRACK DATES_TO_TRACK userId d.

(** The callback that [startScheduler] hands to [cron.schedule]: one
    [runSync] after the other for the rows of [webbedCredentials] read at
    the start.  [env_of i] is what the [i]-th run meets; a run that
    rejects ends the loop, and so does a failure of the callback's own
    query ([select]). *)
Fixpoint runAll (env_of : nat -> Env) (i : nat) (allCreds : list CredentialRow)
    (d : Db) : Js.Res unit * Db :=
  match allCreds with
  | [] => (Js.Ret tt, d)
  | cred :: rest =>
      match runSync (env_of i) (c_userId cred) d with
      | (Js.Ret _, d') => runAll env_of (S i) rest d'
      | (Js.Throw e, d') => (Js.Throw e, d')
      end
  end.

Definition scheduledSync (up : bool) (select : Js.Res unit)
    (env_of : nat -> Env) (d : Db) : Js.Res unit * Db :=
  if up then
    match select with
    | Js.Ret _ => runAll env_of 0 (webbedCredentials d) d
    | Js.Throw e => (Js.Throw e, d)
    end
  else (Js.Ret tt, d).

End Scheduler.

(** ** session-manager.ts *)

Module SessionManager.

(** A value as [JSON.parse] returns it.  A number literal beyond the
    range of doubles, such as [1e999], is read as [Infinity] or
    [-Infinity]: [JInf]. *)
Inductive Json : Type :=
| JNull
| JBool (b : bool)
| JNum (q : Q)
| JStr (s : string)
| JArr (items : list Json)
| JObj (fields : list (string * Json))
| JInf (negative : bool).

(** The text of a file or of a payload is represented by what reading and
    [JSON.parse] make of it: an exception (the file cannot be read, the
    text is not JSON), or the value it denotes. *)
Inductive Text : Type :=
| Garbled
| Doc (v : Json).

(** The [.sessions] directory: one file per user id. *)
Abbreviation Store := (gmap string Text).

Definition fifteenDaysMs : Z := 15 * 24 * 60 * 60 * 1000.
Definition dayMs : Z := 24 * 60 * 60 * 1000.

Definition JSON_parse {S} (t : Text) : Js.M S Json :=
  match t with
  | Garbled => Js.throw (Js.Error "Unexpected token in JSON")
  | Doc v => Js.ret v
  end.

(** What the text written by [JSON.stringify] denotes: the value, with
    [null] in the place of every number that is not finite. *)
Fixpoint written (v : Json) : Json :=
  match v with
  | JInf _ => JNull
  | JArr items => JArr (map written items)
  | JObj fields => JObj (map (fun kv => (kv.1, written kv.2)) fields)
  | _ => v
  end.

Definition JSON_stringify (v : Json) : Text := Doc (written v).

Fixpoint assoc (key : string) (fields : list (string * Json)) : option Json :=
  match fields with
  | [] => None
  | (k, v) :: rest => if String.eqb k key then Some v else assoc key rest
  end.

(** [v.key] for one of the keys [cookies], [expiresAt], [timestamp]:
    a [TypeError] on [null], [undefined] on the other primitives and on
    arrays (which carry none of these keys), the field on an object. *)
Definition prop {S} (v : Json) (key : string) : Js.M S (option Json) :=
  match v with
  | JNull => Js.throw (Js.Error "Cannot read properties of null")
  | JObj fields => Js.ret (assoc key fields)
  | _ => Js.ret None
  end.

(** [!!v] *)
Definition truthy (v : option Json) : bool :=
  match v with
  | None => false
  | Some JNull => false
  | Some (JBool b) => b
  | Some (JNum q) => Js.truthy q
  | Some (JStr s) => negb (String.eqb s EmptyString)
  | Some (JArr _) => true
  | Some (JObj _) => true
  | Some (JInf _) => true
  end.

(** [Array.isArray(v)] *)
Definition isArray (v : option Json) : bool :=
  match v with
  | Some (JArr _) => true
  | _ => false
  end.

Section WithToNumber.

(** [ToNumber] on strings, arrays and objects goes through the
    numeric-literal grammar and [ToPrimitive]; it yields a number or
    throws.  The development holds for whatever it does. *)
Variable ToNumber_object : Json -> Js.Res Js.Number.

(** [ToNumber(v)], as the operators [>] and [-] apply it. *)
Definition ToNumber {S} (v : option Json) : Js.M S Js.Number :=
  match v with
  | None => Js.ret Js.NaN
  | Some JNull => Js.ret (Js.Num 0)
  | Some (JBool b) => Js.ret (Js.Num (if b then 1 else 0))
  | Some (JNum q) => Js.ret (Js.Num q)
  | Some (JInf n) => Js.ret (Js.Inf n)
  | Some w => fun s => (ToNumber_object w, s)
  end.

Definition saveSession (userId : string) (sessionData : Json)
  : Js.M Store unit :=
  Js.modify (fun fs => <[userId := JSON_stringify sessionData]> fs).

Definition deleteSession (userId : string) : Js.M Store unit :=
  Js.modify (fun fs =>
    match fs !! userId with
    | Some _ => delete userId fs
    | None => fs
    end).

(** [loadSession(userId)], with [now] the value of [Date.now()]. *)
Definition loadSession (now : Z) (userId : string)
  : Js.M Store (option Json) :=
  let! fs := Js.get in
  match fs !! userId with
  | None => Js.ret None
  | Some data =>
      Js.try_catch
        (let! session := JSON_parse data in
         let! e := prop session "expiresAt" in
         let! expiresAt := ToNumber e in
         if Js.gt (Js.Num (inject_Z now)) expiresAt then
           run! deleteSession userId in Js.ret None
         else Js.ret (Some session))
        (fun _ => Js.ret None)
  end.

(** The object built by [createSession], as [JSON.stringify] sees it:
    a property whose value is [undefined] is left out. *)
Definition createSession (now : Z) (cookies : list Json)
    (localStorage sessionStorage : option Json) : Json :=
  let opt (k : string) (o : option Json) :=
    match o with Some v => [(k, v)] | None => [] end in
  JObj ([("cookies", JArr cookies)]
        ++ opt "localStorage" localStorage
        ++ opt "sessionStorage" sessionStorage
        ++ [("timestamp", JNum (inject_Z now));
            ("expiresAt", JNum (inject_Z (now + fifteenDaysMs)))]).

(** [isSessionNeedingVerification(userId)]: [now] is [Date.now()] as
    [loadSession] reads it, [now'] as the age computation reads it. *)
Definition isSessionNeedingVerification (now now' : Z) (userId : string)
  : Js.M Store bool :=
  let! session := loadSession now userId in
  if negb (truthy session) then Js.ret true
  else
    let! t := match session with
              | Some v => prop v "timestamp"
              | None => Js.ret None
              end in
    let! timestamp := ToNumber t in
    let ageInDays :=
      Js.floor (Js.div_const (Js.sub (Js.Num (inject_Z now')) timestamp)
                             (inject_Z dayMs)) in
    Js.ret (Js.ge ageInDays (Js.Num 15)).

(** [uploadSession(userId, jsonData)] *)
Definition uploadSession (now : Z) (userId : string) (jsonData : Text)
  : Js.M Store bool :=
  Js.try_catch
    (let! sessionData := JSON_parse jsonData in
     let! cookies := prop sessionData "cookies" in
     run! (if negb (truthy cookies) || negb (isArray cookies)
           then Js.throw (Js.Error
                  "Invalid session data: missing or invalid cookies")
           else Js.ret tt) in
     let! e := prop sessionData "expiresAt" in
     let! expiresAt := ToNumber e in
     run! (if Js.gt (Js.Num (inject_Z now)) expiresAt
           then Js.throw (Js.Error "Session has expired")
           else Js.ret tt) in
     run! saveSession userId sessionData in
     Js.ret true)
    (fun _ => Js.ret false).

(** [getSessionExpiryDays(userId)]: [now] is [Date.now()] as
    [loadSession] reads it, [now'] as the subtraction reads it. *)
Definition getSessionExpiryDays (now now' : Z) (userId : string)
  : Js.M Store (option Js.Number) :=
  let! session := loadSession now userId in
  if negb (truthy session) then Js.ret None
  else
    let! e := match session with
              | Some v => prop v "expiresAt"
              | None => Js.ret None
              end in
    let! expiresAt := ToNumber e in
    let daysRemaining :=
      Js.ceil (Js.div_const (Js.sub expiresAt (Js.Num (inject_Z now')))
                            (inject_Z dayMs)) in
    Js.ret (Some (Js.max0 daysRemaining)).

(** [exportSession(userId)] *)
Definition exportSession (now : Z) (userId : string)
  : Js.M Store (option Text) :=
  let! session := loadSession now userId in
  if negb (truthy session) then Js.ret None
  else
    match session with
    | Some v => Js.ret (Some (JSON_stringify v))
    | None => Js.ret None
    end.

End WithToNumber.

End SessionManager.

(** ** db-helpers.ts *)

Module DbHelpers.
Import Schema.

Definition alertTypeOf (priceDifference : Q) : AlertType :=
  if Qlt_le_dec priceDifference 0 then price_lower
  else if Qlt_le_dec 0 priceDifference then price_higher
  else price_equal.

(** The [where] clause of the look-up in [createPriceAlert]. *)
Definition activeFor (userId hotelId : Z) (date : string) (a : AlertRow)
  : bool :=
  (a_userId a =? userId) && (a_hotelId a =? hotelId)
  && bool_decide (a_date a = date) && (a_isActive a =? 1).

(** [createPriceAlert]; [now] is the clock ([new Date()] on update, the
    column default on insert). *)
Definition createPriceAlert (up : bool) (now : Z) (userId hotelId : Z)
    (date : string) (userPrice competitorPrice : Q) : Js.M Db unit :=
  run! require_db up in
  let priceDifference := (competitorPrice - userPrice)%Q in
  let alertType := alertTypeOf priceDifference in
  match alertType with
  | price_lower =>
      let! d := Js.get in
      match filter (fun a => activeFor userId hotelId date a)
                   (priceAlerts d) with
      | existing :: _ =>
          Js.modify (set_priceAlerts (map (fun a =>
            if a_id a =? a_id existing then
              mkAlert (a_id a) (a_userId a) (a_hotelId a) (a_date a)
                      (a_userPrice a) competitorPrice priceDifference
                      alertType (a_isActive a) now (a_dismissedAt a)
            else a)))
      | [] =>
          Js.modify (set_priceAlerts (fun t => t ++
            [mkAlert (next_id a_id t) userId hotelId date userPrice
                     competitorPrice priceDifference alertType 1 now None]))
      end
  | _ => Js.ret tt
  end.

(** [dismissAlert] *)
Definition dismissAlert (up : bool) (now : Z) (alertId : Z) : Js.M Db unit :=
  run! require_db up in
  Js.modify (set_priceAlerts (map (fun a =>
    if a_id a =? alertId then
      mkAlert (a_id a) (a_userId a) (a_hotelId a) (a_date a) (a_userPrice a)
              (a_competitorPrice a) (a_priceDifference a) (a_alertType a)
              0 (a_createdAt a) (Some now)
    else a))).

(** The [userPrices] table. *)
Record UserPriceRow : Type := mkUserPrice {
  up_id : Z;
  up_userId : Z;
  up_hotelId : Z;
  up_date : string;
  up_customPrice : Q;
  up_createdAt : Z;
  up_updatedAt : Z
}.

(** The [where] clause shared by [saveUserPrice] and [getUserPrice]. *)
Definition priceFor (userId hotelId : Z) (date : string) (r : UserPriceRow)
  : bool :=
  (up_userId r =? userId) && (up_hotelId r =? hotelId)
  && bool_decide (up_date r = date).

(** [saveUserPrice], on the [userPrices] table. *)
Definition saveUserPrice (up : bool) (now : Z) (userId hotelId : Z)
    (date : string) (customPrice : Q) : Js.M (list UserPriceRow) unit :=
  run! require_db up in
  let! t := Js.get in
  match filter (fun r => priceFor userId hotelId date r) t with
  | _ :: _ =>
      Js.modify (map (fun r =>
        if priceFor userId hotelId date r then
          mkUserPrice (up_id r) (up_userId r) (up_hotelId r) (up_date r)
                      customPrice (up_createdAt r) now
        else r))
  | [] =>
      Js.modify (fun t => t ++
        [mkUserPrice (next_id up_id t) userId hotelId date customPrice
                     now now])
  end.

(** [getUserPrice] *)
Definition getUserPrice (up : bool) (userId hotelId : Z) (date : string)
  : Js.M (list UserPriceRow) (option Q) :=
  run! require_db up in
  let! t := Js.get in
  match filter (fun r => priceFor userId hotelId date r) t with
  | r :: _ => Js.ret (Some (up_customPrice r))
  | [] => Js.ret None
  end.

(** [getCompetitorBasePrice]: the stored [actualPrice], unless it is null
    or zero. *)
Definition getCompetitorBasePrice (up : bool) (hotelId : Z) (date : string)
  : Js.M Db (option Z) :=
  run! require_db up in
  let! d := Js.get in
  match filter (fun ph => (ph_hotelId ph =? hotelId)
                          && bool_decide (ph_date ph = date))
               (priceHistory d) with
  | r :: _ =>
      match ph_actualPrice r with
      | Some a => if a =? 0 then Js.ret None else Js.ret (Some a)
      | None => Js.ret None
      end
  | [] => Js.ret None
  end.

(** A row of the join in [getPriceComparisonData], and what the [map]
    callback makes of it. *)
Record ComparisonItem : Type := mkItem {
  ci_hotelId : Z;
  ci_hotelName : string;
  ci_date : string;
  ci_competitorBasePrice : option Q;
  ci_userPrice : option Q
}.

Inductive ComparisonStatus : Type := no_price | losing | winning | equal.

Record ComparisonRow : Type := mkComparison {
  cr_item : ComparisonItem;
  cr_priceDifference : option Q;
  cr_status : ComparisonStatus
}.

Definition comparisonRow (item : ComparisonItem) : ComparisonRow :=
  mkComparison item
    (match ci_userPrice item, ci_competitorBasePrice item with
     | Some u, Some c =>
         if Js.truthy u && Js.truthy c then Some (c - u)%Q else None
     | _, _ => None
     end)
    (match ci_userPrice item, ci_competitorBasePrice item with
     | Some u, Some c =>
         if Qlt_le_dec c u then losing
         else if Qlt_le_dec u c then winning
         else equal
     | _, _ => no_price
     end).

End DbHelpers.

(** ** sync-monitor.ts *)

Module SyncMonitor.

Record SyncStats : Type := mkStats {
  totalCycles : Z;
  successfulCycles : Z;
  failedCycles : Z;
  lastSyncTime : option Z;
  lastSyncDuration : option Z;
  startTime : Z;
  averageCycleDuration : Q;
  totalItemsProcessed : Z
}.

(** The two private fields of the class. *)
Record Monitor : Type := mkMonitor {
  stats : SyncStats;
  cycleDurations : list Z
}.

(** A fresh monitor, also the state after [reset()]. *)
Definition reset (now : Z) : Monitor :=
  mkMonitor (mkStats 0 0 0 None None now 0 0) [].

(** [this.cycleDurations.reduce((a, b) => a + b, 0)] *)
Definition sum (l : list Z) : Z := fold_left Z.add l 0.

(** [endCycle(startTime, success, itemsProcessed)]; [now] and [now'] are
    the two readings of [Date.now()]. *)
Definition endCycle (now now' : Z) (startTime0 : Z) (success : bool)
    (itemsProcessed : Z) (m : Monitor) : Monitor :=
  let duration := now - startTime0 in
  let st := stats m in
  let pushed := cycleDurations m ++ [duration] in
  let window :=
    if (100 <? Z.of_nat (length pushed)) then tail pushed else pushed in
  let average := (inject_Z (sum window) / inject_Z (Z.of_nat (length window)))%Q in
  mkMonitor
    (mkStats (totalCycles st + 1)
             (if success then successfulCycles st + 1 else successfulCycles st)
             (if success then failedCycles st else failedCycles st + 1)
             (Some now')
             (Some duration)
             (startTime st)
             average
             (totalItemsProcessed st + itemsProcessed))
    window.

(** [x.toFixed(2)] for a number below 10^21: the sign, then the integer
    [n] nearest to [100 |x|] (the larger one on a tie) printed with two
    decimals.  The comparison is on the exact value of the double [x]. *)
Definition toFixed2 (x : Q) : string :=
  let a := Qabs x in
  let n := Qfloor (a * 100 + (1 # 2))%Q in
  let body :=
    String.append (pretty (n / 100))
      (String.append "." (Js.padStart2 (pretty (n mod 100)))) in
  if Qlt_le_dec x 0 then String.append "-" body else body.

(** [x % m] on numbers: the remainder has the sign of [x]. *)
Definition trunc (x : Q) : Z := Z.quot (Qnum x) (Z.pos (Qden x)).
Definition rem (x m : Q) : Q := (x - m * inject_Z (trunc (x / m)))%Q.

(** [getUptimeString()] *)
Definition getUptimeString (now : Z) (m : Monitor) : string :=
  let uptimeMs := inject_Z (now - startTime (stats m)) in
  let days := Js.Math_floor (uptimeMs / 86400000)%Q in
  let hours := Js.Math_floor (rem (uptimeMs / 3600000) 24)%Q in
  let minutes := Js.Math_floor (rem (uptimeMs / 60000) 60)%Q in
  if 0 <? days then
    String.append (pretty days) (String.append "d "
      (String.append (pretty hours) (String.append "h "
        (String.append (pretty minutes) "m"))))
  else if 0 <? hours then
    String.append (pretty hours) (String.append "h "
      (String.append (pretty minutes) "m"))
  else String.append (pretty minutes) "m".

Record FormattedStats : Type := mkFormatted {
  f_totalCycles : Z;
  f_successfulCycles : Z;
  f_failedCycles : Z;
  f_successRate : string;
  f_lastSyncTime : option string;
  f_lastSyncDuration : option string;
  f_uptime : string;
  f_averageCycleDuration : string;
  f_totalItemsProcessed : Z
}.

(** [getFormattedStats()]; [toLocaleString] prints a time stamp in the
    [ar-SA] locale.  The counters and the durations are whole numbers;
    each quotient and product printed is a double, the average included:
    the field holds the rounding of the quotient computed by [endCycle]. *)
Definition getFormattedStats (toLocaleString : Z -> string) (now : Z)
    (m : Monitor) : FormattedStats :=
  let st := stats m in
  let uptime := getUptimeString now m in
  let successRate :=
    if 0 <? totalCycles st then
      toFixed2
        (Js.fl64 (Js.fl64 (inject_Z (successfulCycles st)
                           / inject_Z (totalCycles st)) * 100))%Q
    else "0" in
  mkFormatted
    (totalCycles st)
    (successfulCycles st)
    (failedCycles st)
    (String.append successRate "%")
    (match lastSyncTime st with
     | Some t => if t =? 0 then None else Some (toLocaleString t)
     | None => None
     end)
    (match lastSyncDuration st with
     | Some d => if d =? 0 then None
                 else Some (String.append
                              (toFixed2 (Js.fl64 (inject_Z d / 1000))%Q) "s")
     | None => None
     end)
    uptime
    (String.append
       (toFixed2 (Js.fl64 (Js.fl64 (averageCycleDuration st) / 1000))%Q) "s")
    (totalItemsProcessed st).

(** One call [endCycle(startTime, success, itemsProcessed)] with the
    clock readings it meets, and a sequence of such calls on a monitor. *)
Record Call : Type := mkCall {
  at_now : Z;
  at_now' : Z;
  arg_startTime : Z;
  arg_success : bool;
  arg_itemsProcessed : Z
}.

Definition call_duration (c : Call) : Z := at_now c - arg_startTime c.

Definition endCycles (calls : list Call) (m : Monitor) : Monitor :=
  fold_left (fun m c =>
               endCycle (at_now c) (at_now' c) (arg_startTime c)
                        (arg_success c) (arg_itemsProcessed c) m)
            calls m.

End SyncMonitor.

(** ** routers/scraper.ts *)

Module ScraperRouter.
Import Schema SessionManager.

(** [orderBy(startedAt)] followed by [limit(1)]: a row with the least
    [startedAt]; of several such rows the one that comes first in the
    table is taken. *)
Fixpoint earliest (l : list SyncLogRow) : option SyncLogRow :=
  match l with
  | [] => None
  | r :: rest =>
      match earliest rest with
      | Some b => if sl_startedAt b <? sl_startedAt r then Some b else Some r
      | None => Some r
      end
  end.

(** [getSyncStatus] for the user of the request: the row whose columns
    (all but [id] and [userId]) the procedure passes on, or null. *)
Definition getSyncStatus (up : bool) (userId : Z)
  : Js.M Db (option SyncLogRow) :=
  run! require_db up in
  let! d := Js.get in
  Js.ret (earliest (filter (fun l => sl_userId l =? userId) (syncLogs d))).

(** [deleteCredentials] for the user of the request; the answer
    [{ success: true }] is rendered as [tt]. *)
Definition deleteCredentials (up : bool) (userId : Z) : Js.M Db unit :=
  run! require_db up in
  Js.modify (set_webbedCredentials
               (filter (fun c => negb (c_userId c =? userId)))).




Section WithToNumber.

Variable ToNumber_object : Json -> Js.Res Js.Number.


End WithToNumber.

End ScraperRouter.

(** * Properties *)

(** ** Rounding *)

(** [lra] on [Q] knows no division: divisions by a constant are turned into
    multiplications by its inverse first. *)
Ltac qlra := unfold Qdiv in *; cbv [Qinv Qnum Qden] in *; lra.

(** [inject_Z] is pushed to the variables, constants become literals. *)
Ltac inj_const :=
  repeat match goal with
  | |- context [inject_Z (Z.pos ?p)] =>
      change (inject_Z (Z.pos p)) with (Z.pos p # 1)%Q
  | |- context [inject_Z (Z.neg ?p)] =>
      change (inject_Z (Z.neg p)) with (Z.neg p # 1)%Q
  | |- context [inject_Z Z0] => change (inject_Z Z0) with 0%Q
  | H : context [inject_Z (Z.pos ?p)] |- _ =>
      change (inject_Z (Z.pos p)) with (Z.pos p # 1)%Q in H
  | H : context [inject_Z (Z.neg ?p)] |- _ =>
      change (inject_Z (Z.neg p)) with (Z.neg p # 1)%Q in H
  | H : context [inject_Z Z0] |- _ => change (inject_Z Z0) with 0%Q in H
  end.
Ltac inj_push :=
  unfold Z.sub in *;
  rewrite ?inject_Z_plus, ?inject_Z_mult, ?inject_Z_opp in *; inj_const.
(** An integer comparison proved from rational facts, and one moved to the
    rationals. *)
Ltac z_by_q := first [rewrite Zle_Qle | rewrite Zlt_Qlt]; inj_push; qlra.
Ltac q_of_z H :=
  first [rewrite Zle_Qle in H | rewrite Zlt_Qlt in H]; inj_push.

(** Case analysis on an innermost scrutinee of the goal. *)
Ltac break_match :=
  match goal with
  | |- context [match ?x with _ => _ end] =>
      lazymatch x with
      | context [match _ with _ => _ end] => fail
      | _ => destruct x eqn:?
      end
  end.

Section Rounding.
Open Scope Q_scope.

Lemma Qfloor_unique (y : Q) (k : Z) :
  inject_Z k <= y -> y < inject_Z k + 1 -> Qfloor y = k.
Proof.
  intros Hlo Hhi.
  pose proof (Qfloor_le y) as Hfl.
  pose proof (Qlt_floor y) as Hlt.
  assert (H1 : (Qfloor y < k + 1)%Z) by z_by_q.
  assert (H2 : (k < Qfloor y + 1)%Z) by z_by_q.
  lia.
Qed.

Lemma Math_round_bounds (x : Q) :
  inject_Z (Js.Math_round x) - (1 # 2) <= x
  /\ x < inject_Z (Js.Math_round x) + (1 # 2).
Proof.
  unfold Js.Math_round.
  pose proof (Qfloor_le (x + (1 # 2))) as Hfl.
  pose proof (Qlt_floor (x + (1 # 2))) as Hlt.
  inj_push. split; lra.
Qed.

Lemma Math_round_unique (x : Q) (k : Z) :
  inject_Z k - (1 # 2) <= x -> x < inject_Z k + (1 # 2) ->
  Js.Math_round x = k.
Proof.
  intros Hlo Hhi. unfold Js.Math_round. apply Qfloor_unique; lra.
Qed.

Lemma truthy_pos (x : Q) : 0 < x -> Js.truthy x = true.
Proof.
  intros Hx. unfold Js.truthy.
  destruct (Qeq_bool x 0) eqn:E; [|reflexivity].
  apply Qeq_bool_eq in E. lra.
Qed.

Lemma truthy_inject_Z (k : Z) :
  Js.truthy (inject_Z k / 100) = negb (k =? 0)%Z.
Proof.
  unfold Js.truthy. f_equal.
  destruct (Z.eqb_spec k 0) as [->|Hk].
  - reflexivity.
  - destruct (Qeq_bool (inject_Z k / 100) 0) eqn:E; [|reflexivity].
    apply Qeq_bool_eq in E.
    assert (Hz : inject_Z k == inject_Z 0) by (change (inject_Z 0) with 0; qlra).
    destruct (Hk (proj1 (inject_Z_injective k 0) Hz)).
Qed.

End Rounding.

(** ** Doubles ([fl64]) *)

Section Doubles.
Open Scope Q_scope.

Lemma pow2_pos (e : Z) : 0 < 2 ^ e.
Proof. apply Qpower_0_lt. reflexivity. Qed.

Lemma pow2_add (a b : Z) : 2 ^ (a + b) == 2 ^ a * 2 ^ b.
Proof. apply Qpower_plus. discriminate. Qed.

Lemma pow2_le (a b : Z) : (a <= b)%Z -> 2 ^ a <= 2 ^ b.
Proof. intros H. apply Qpower_le_compat_l; [exact H|discriminate]. Qed.

Lemma pow2_lt (a b : Z) : (a < b)%Z -> 2 ^ a < 2 ^ b.
Proof. intros H. apply Qpower_lt_compat_l; [exact H|reflexivity]. Qed.

Lemma pow2_lt_inv (a b : Z) : 2 ^ a < 2 ^ b -> (a < b)%Z.
Proof.
  intros H. destruct (Z_lt_le_dec a b) as [Hlt|Hge]; [exact Hlt|].
  apply pow2_le in Hge. lra.
Qed.

Lemma pow2_Z (n : Z) : (0 <= n)%Z -> inject_Z (2 ^ n) == 2 ^ n.
Proof. intros H. rewrite Zpower_Qpower by exact H. reflexivity. Qed.

Lemma pow2_succ (a : Z) : 2 ^ (a + 1) == 2 * 2 ^ a.
Proof. rewrite pow2_add. change (2 ^ 1) with 2. ring. Qed.

(** The binade of a positive number. *)
Lemma ilog2_spec (q : Q) :
  0 < q -> 2 ^ Js.ilog2 q <= q /\ q < 2 ^ (Js.ilog2 q + 1).
Proof.
  intros Hq. destruct q as [n d]. unfold Js.ilog2. cbn [Qnum Qden].
  assert (Hn : (0 < n)%Z) by (unfold Qlt in Hq; cbn in Hq; lia).
  set (a := Z.log2 n). set (b := Z.log2 (Z.pos d)).
  destruct (Z.log2_spec n Hn) as [Ha1 Ha2].
  destruct (Z.log2_spec (Z.pos d) ltac:(lia)) as [Hb1 Hb2].
  fold a in Ha1, Ha2. fold b in Hb1, Hb2.
  assert (Ha0 : (0 <= a)%Z) by apply Z.log2_nonneg.
  assert (Hb0 : (0 <= b)%Z) by apply Z.log2_nonneg.
  assert (Hq' : n # d == inject_Z n / inject_Z (Z.pos d)) by apply Qmake_Qdiv.
  assert (Hd : 0 < inject_Z (Z.pos d)) by reflexivity.
  assert (Hnd : (n # d) * inject_Z (Z.pos d) == inject_Z n).
  { rewrite Hq'. field. intros E. rewrite E in Hd. discriminate Hd. }
  rewrite Zle_Qle, pow2_Z in Ha1 by lia.
  rewrite Zlt_Qlt, pow2_Z in Ha2 by lia.
  rewrite Zle_Qle, pow2_Z in Hb1 by lia.
  rewrite Zlt_Qlt, pow2_Z in Hb2 by lia.
  set (D := inject_Z (Z.pos d)) in *. set (N := inject_Z n) in *.
  assert (Hlow : 2 ^ (a - b - 1) < n # d).
  { apply (Qmult_lt_r _ _ D Hd). rewrite Hnd.
    apply Qlt_le_trans with (2 ^ (a - b - 1) * 2 ^ (b + 1)).
    - apply Qmult_lt_l; [apply pow2_pos|exact Hb2].
    - rewrite <- pow2_add. replace (a - b - 1 + (b + 1))%Z with a by lia.
      exact Ha1. }
  assert (Hhigh : n # d < 2 ^ (a - b + 1)).
  { apply (Qmult_lt_r _ _ D Hd). rewrite Hnd.
    apply Qlt_le_trans with (2 ^ (a + 1)); [exact Ha2|].
    replace (a + 1)%Z with (a - b + 1 + b)%Z by lia. rewrite pow2_add.
    apply Qmult_le_l; [apply pow2_pos|exact Hb1]. }
  destruct (Qle_bool (2 ^ (a - b)) (n # d)) eqn:E.
  - apply Qle_bool_iff in E. split; [exact E|exact Hhigh].
  - split.
    + apply Qlt_le_weak. exact Hlow.
    + replace (a - b - 1 + 1)%Z with (a - b)%Z by lia.
      apply Qnot_le_lt. intros H. apply Qle_bool_iff in H. congruence.
Qed.

Lemma ilog2_unique (q : Q) (i : Z) :
  2 ^ i <= q -> q < 2 ^ (i + 1) -> Js.ilog2 q = i.
Proof.
  intros Hlo Hhi.
  assert (Hq : 0 < q) by (pose proof (pow2_pos i); lra).
  destruct (ilog2_spec q Hq) as [Hl Hh].
  assert (H1 : (i < Js.ilog2 q + 1)%Z) by (apply pow2_lt_inv; lra).
  assert (H2 : (Js.ilog2 q < i + 1)%Z) by (apply pow2_lt_inv; lra).
  lia.
Qed.

Lemma ilog2_comp (x y : Q) : 0 < x -> x == y -> Js.ilog2 x = Js.ilog2 y.
Proof.
  intros Hx Hxy. destruct (ilog2_spec x Hx) as [Hl Hh].
  symmetry. apply ilog2_unique; rewrite <- Hxy; assumption.
Qed.

Lemma ilog2_mono (x y : Q) : 0 < x -> x <= y -> (Js.ilog2 x <= Js.ilog2 y)%Z.
Proof.
  intros Hx Hxy. destruct (ilog2_spec x Hx) as [Hl _].
  destruct (ilog2_spec y ltac:(lra)) as [_ Hh].
  assert (H : (Js.ilog2 x < Js.ilog2 y + 1)%Z) by (apply pow2_lt_inv; lra).
  lia.
Qed.

(** Rounding to the nearest integer, ties to even. *)
Lemma rne_cases (x : Q) :
  let f := Qfloor x in
  inject_Z f <= x /\ x < inject_Z f + 1
  /\ ((x - inject_Z f < 1 # 2 /\ Js.rne x = f)
      \/ (x - inject_Z f == 1 # 2 /\ (Js.rne x = f \/ Js.rne x = (f + 1)%Z)
          /\ Z.even (Js.rne x) = true)
      \/ (1 # 2 < x - inject_Z f /\ Js.rne x = (f + 1)%Z)).
Proof.
  cbv zeta. pose proof (Qfloor_le x) as Hl. pose proof (Qlt_floor x) as Hh.
  rewrite inject_Z_plus in Hh. change (inject_Z 1) with 1 in Hh.
  split; [exact Hl|]. split; [exact Hh|].
  unfold Js.rne.
  destruct (x - inject_Z (Qfloor x) ?= 1 # 2) eqn:E.
  - apply Qeq_alt in E. right. left. split; [exact E|].
    destruct (Z.even (Qfloor x)) eqn:Ev.
    + split; [left; reflexivity|exact Ev].
    + split; [right; reflexivity|].
      rewrite Z.even_add, Ev. reflexivity.
  - apply Qlt_alt in E. left. split; [exact E|reflexivity].
  - apply Qgt_alt in E. right. right. split; [exact E|reflexivity].
Qed.

Lemma rne_half (x : Q) :
  inject_Z (Js.rne x) - (1 # 2) <= x /\ x <= inject_Z (Js.rne x) + (1 # 2).
Proof.
  destruct (rne_cases x) as (Hl & Hh & [[H ->]|[[H [[->| ->] _]]|[H ->]]]);
    rewrite ?inject_Z_plus; change (inject_Z 1) with 1; split; lra.
Qed.

Lemma rne_Z (z : Z) : Js.rne (inject_Z z) = z.
Proof.
  destruct (rne_cases (inject_Z z)) as (_ & _ & H).
  rewrite Qfloor_Z in H.
  destruct H as [[_ H]|[[H _]|[H _]]]; [exact H|lra|lra].
Qed.

Lemma rne_comp (x y : Q) : x == y -> Js.rne x = Js.rne y.
Proof.
  intros Hxy. unfold Js.rne. rewrite (Qfloor_comp _ _ Hxy).
  assert (E : x - inject_Z (Qfloor y) == y - inject_Z (Qfloor y))
    by (rewrite Hxy; reflexivity).
  rewrite (Qcompare_comp _ _ E (1 # 2) (1 # 2) (Qeq_refl _)). reflexivity.
Qed.

Lemma rne_mono (x y : Q) : x <= y -> (Js.rne x <= Js.rne y)%Z.
Proof.
  intros Hxy. pose proof (Qfloor_resp_le x y Hxy) as Hf.
  destruct (rne_cases x) as (Hxl & Hxh & Hx).
  destruct (rne_cases y) as (Hyl & Hyh & Hy).
  destruct (Z.eq_dec (Qfloor x) (Qfloor y)) as [E|E].
  - rewrite E in *.
    destruct Hx as [[Hx ->]|[[Hx [Hxr Hxe]]|[Hx ->]]];
      destruct Hy as [[Hy ->]|[[Hy [Hyr Hye]]|[Hy ->]]];
      try lia; try (exfalso; lra).
    destruct Hxr as [Hxr|Hxr], Hyr as [Hyr|Hyr]; rewrite ?Hxr, ?Hyr in *;
      try lia.
    rewrite Z.even_add in Hxe. rewrite Hye in Hxe. discriminate.
  - assert (Hlt : (Qfloor x + 1 <= Qfloor y)%Z) by lia.
    assert (H1 : (Js.rne x <= Qfloor x + 1)%Z).
    { destruct Hx as [[_ ->]|[[_ [[->| ->] _]]|[_ ->]]]; lia. }
    assert (H2 : (Qfloor y <= Js.rne y)%Z).
    { destruct Hy as [[_ ->]|[[_ [[->| ->] _]]|[_ ->]]]; lia. }
    lia.
Qed.

Lemma rne_ge (x : Q) (z : Z) : inject_Z z <= x -> (z <= Js.rne x)%Z.
Proof. intros H. rewrite <- (rne_Z z). apply rne_mono, H. Qed.

Lemma rne_le (x : Q) (z : Z) : x <= inject_Z z -> (Js.rne x <= z)%Z.
Proof. intros H. rewrite <- (rne_Z z). apply rne_mono, H. Qed.


Lemma fl64_pos_eq (q : Q) :
  Js.fl64_pos q
  == inject_Z (Js.rne (q / 2 ^ Z.max (Js.ilog2 q - 52) (-1074)))
     * 2 ^ Z.max (Js.ilog2 q - 52) (-1074).
Proof. unfold Js.fl64_pos. apply Qred_correct. Qed.

Lemma fl64_pos_comp (x y : Q) : 0 < x -> x == y -> Js.fl64_pos x = Js.fl64_pos y.
Proof.
  intros Hx Hxy. unfold Js.fl64_pos. rewrite (ilog2_comp x y Hx Hxy).
  apply Qred_complete.
  rewrite (rne_comp (x / 2 ^ Z.max (Js.ilog2 y - 52) (-1074))
                    (y / 2 ^ Z.max (Js.ilog2 y - 52) (-1074)));
    [reflexivity|].
  rewrite Hxy. reflexivity.
Qed.

Lemma fl64_of_pos (q : Q) : 0 < q -> Js.fl64 q = Js.fl64_pos q.
Proof.
  intros Hq. unfold Js.fl64. destruct q as [[|n|n] d]; try reflexivity;
    unfold Qlt in Hq; cbn in Hq; lia.
Qed.

Lemma fl64_0 (q : Q) : q == 0 -> Js.fl64 q = 0.
Proof.
  intros Hq. unfold Js.fl64. destruct q as [[|n|n] d]; try reflexivity;
    unfold Qeq in Hq; cbn in Hq; lia.
Qed.

Lemma fl64_of_neg (q : Q) : q < 0 -> Js.fl64 q = - Js.fl64_pos (- q).
Proof.
  intros Hq. unfold Js.fl64. destruct q as [[|n|n] d]; try reflexivity;
    unfold Qlt in Hq; cbn in Hq; lia.
Qed.

(** [Js.fl64] sees the number, not the fraction that denotes it. *)
Lemma fl64_comp (x y : Q) : x == y -> Js.fl64 x = Js.fl64 y.
Proof.
  intros Hxy. destruct (Q_dec x 0) as [[Hneg|Hpos]|Hz].
  - rewrite (fl64_of_neg x Hneg), (fl64_of_neg y) by (rewrite <- Hxy; exact Hneg).
    f_equal. apply fl64_pos_comp; [lra|rewrite Hxy; reflexivity].
  - rewrite (fl64_of_pos x Hpos), (fl64_of_pos y) by (rewrite <- Hxy; exact Hpos).
    apply fl64_pos_comp; assumption.
  - rewrite (fl64_0 x Hz), (fl64_0 y) by (rewrite <- Hxy; exact Hz).
    reflexivity.
Qed.

(** The scaled significand of a positive number. *)
Lemma scaled_bounds (q : Q) :
  0 < q ->
  let e := Z.max (Js.ilog2 q - 52) (-1074) in
  q / 2 ^ e < 2 ^ 53
  /\ ((-1022 <= Js.ilog2 q)%Z -> 2 ^ 52 <= q / 2 ^ e).
Proof.
  intros Hq e. destruct (ilog2_spec q Hq) as [Hl Hh].
  pose proof (pow2_pos e) as He.
  split.
  - apply Qlt_shift_div_r; [exact He|].
    rewrite <- pow2_add.
    apply Qlt_le_trans with (2 ^ (Js.ilog2 q + 1)); [exact Hh|].
    apply pow2_le. unfold e. lia.
  - intros Hn. apply Qle_shift_div_l; [exact He|].
    rewrite <- pow2_add.
    replace (52 + e)%Z with (Js.ilog2 q) by (unfold e; lia). exact Hl.
Qed.

Lemma fl64_pos_bounds (q : Q) :
  0 < q ->
  let e := Z.max (Js.ilog2 q - 52) (-1074) in
  Js.fl64_pos q <= 2 ^ (e + 53)
  /\ ((-1022 <= Js.ilog2 q)%Z -> 2 ^ Js.ilog2 q <= Js.fl64_pos q).
Proof.
  intros Hq e. destruct (scaled_bounds q Hq) as [Hs Hn]. fold e in Hs, Hn.
  pose proof (pow2_pos e) as He.
  rewrite fl64_pos_eq. fold e.
  split.
  - rewrite Z.add_comm, pow2_add.
    apply Qmult_le_compat_r; [|lra].
    rewrite <- (pow2_Z 53) by lia. rewrite <- Zle_Qle.
    apply rne_le. rewrite pow2_Z by lia. lra.
  - intros Hi. specialize (Hn Hi).
    replace (Js.ilog2 q) with (52 + e)%Z at 1 by (unfold e; lia).
    rewrite pow2_add. apply Qmult_le_compat_r; [|lra].
    rewrite <- (pow2_Z 52) by lia. rewrite <- Zle_Qle.
    apply rne_ge. rewrite pow2_Z by lia. exact Hn.
Qed.

(** Rounding keeps the order of positive numbers. *)
Lemma fl64_mono (x y : Q) : 0 < x -> x <= y -> Js.fl64 x <= Js.fl64 y.
Proof.
  intros Hx Hxy. assert (Hy : 0 < y) by lra.
  rewrite (fl64_of_pos x Hx), (fl64_of_pos y Hy).
  pose proof (ilog2_mono x y Hx Hxy) as Hi.
  set (ex := Z.max (Js.ilog2 x - 52) (-1074)).
  set (ey := Z.max (Js.ilog2 y - 52) (-1074)).
  destruct (Z.eq_dec ex ey) as [E|E].
  - rewrite !fl64_pos_eq. fold ex. fold ey. rewrite E.
    pose proof (pow2_pos ey) as He.
    apply Qmult_le_compat_r; [|lra].
    rewrite <- Zle_Qle. apply rne_mono.
    apply Qmult_le_compat_r; [exact Hxy|].
    apply Qlt_le_weak, Qinv_lt_0_compat, He.
  - assert (Hlt : (ex < ey)%Z) by (unfold ex, ey in *; lia).
    destruct (fl64_pos_bounds x Hx) as [Hxb _]. fold ex in Hxb.
    destruct (fl64_pos_bounds y Hy) as [_ Hyb].
    specialize (Hyb ltac:(unfold ex, ey in *; lia)).
    apply Qle_trans with (2 ^ (ex + 53)); [exact Hxb|].
    apply Qle_trans with (2 ^ Js.ilog2 y); [|exact Hyb].
    apply pow2_le. unfold ex, ey in *. lia.
Qed.

(** The relative error of a rounding in the normal range: [2^-53]. *)
Lemma fl64_error (q : Q) :
  2 ^ (-1022) <= q ->
  q * (1 - 2 ^ (-53)) <= Js.fl64 q /\ Js.fl64 q <= q * (1 + 2 ^ (-53)).
Proof.
  intros Hn. assert (Hq : 0 < q) by (pose proof (pow2_pos (-1022)); lra).
  destruct (ilog2_spec q Hq) as [Hl Hh].
  assert (Hi : (-1022 <= Js.ilog2 q)%Z).
  { assert (H : (-1022 < Js.ilog2 q + 1)%Z) by (apply pow2_lt_inv; lra). lia. }
  rewrite (fl64_of_pos q Hq), fl64_pos_eq.
  replace (Z.max (Js.ilog2 q - 52) (-1074)) with (Js.ilog2 q - 52)%Z by lia.
  set (e := (Js.ilog2 q - 52)%Z).
  pose proof (pow2_pos e) as He.
  destruct (rne_half (q / 2 ^ e)) as [Hlo Hhi].
  set (m := inject_Z (Js.rne (q / 2 ^ e))) in *.
  assert (Hqe : q == q / 2 ^ e * 2 ^ e) by (field; lra).
  assert (Hu : 2 ^ e * (1 # 2) <= q * 2 ^ (-53)).
  { assert (E : 2 ^ e * (1 # 2) == 2 ^ Js.ilog2 q * 2 ^ (-53)).
    { replace (Js.ilog2 q) with (e + 52)%Z by (unfold e; lia).
      rewrite pow2_add. change (2 ^ 52 * 2 ^ (-53)) with (2 ^ 52 * 2 ^ (-53)).
      assert (E2 : 2 ^ 52 * 2 ^ (-53) == 1 # 2) by reflexivity.
      rewrite <- Qmult_assoc, E2. reflexivity. }
    rewrite E. apply Qmult_le_compat_r; [exact Hl|].
    apply Qlt_le_weak, pow2_pos. }
  assert (H1 : (m - (1 # 2)) * 2 ^ e <= q).
  { apply Qle_trans with (q / 2 ^ e * 2 ^ e);
      [apply Qmult_le_compat_r; lra|rewrite <- Hqe; apply Qle_refl]. }
  assert (H2 : q <= (m + (1 # 2)) * 2 ^ e).
  { apply Qle_trans with (q / 2 ^ e * 2 ^ e);
      [rewrite <- Hqe; apply Qle_refl|apply Qmult_le_compat_r; lra]. }
  set (P := 2 ^ e) in *. set (U := 2 ^ (-53)) in *.
  set (MP := m * P) in *.
  assert (H1' : MP - P * (1 # 2) <= q) by (unfold MP; lra).
  assert (H2' : q <= MP + P * (1 # 2)) by (unfold MP; lra).
  set (QU := q * U) in *.
  split.
  - setoid_replace (q * (1 - U)) with (q - QU) using relation Qeq by (unfold QU; ring). lra.
  - setoid_replace (q * (1 + U)) with (q + QU) using relation Qeq by (unfold QU; ring). lra.
Qed.

(** Numbers with at most 53 significant bits are not changed. *)
Lemma fl64_exact (m k : Z) :
  (0 < m < 2 ^ 53)%Z -> (-1074 <= k)%Z ->
  Js.fl64 (inject_Z m * 2 ^ k) == inject_Z m * 2 ^ k.
Proof.
  intros Hm Hk. set (q := inject_Z m * 2 ^ k).
  pose proof (pow2_pos k) as Hpk.
  assert (Hm0 : 0 < inject_Z m)
    by (change 0 with (inject_Z 0); rewrite <- Zlt_Qlt; lia).
  assert (Hq : 0 < q) by (unfold q; apply Qmult_lt_0_compat; assumption).
  rewrite (fl64_of_pos q Hq), fl64_pos_eq.
  set (e := Z.max (Js.ilog2 q - 52) (-1074)).
  assert (He : (e <= k)%Z).
  { destruct (ilog2_spec q Hq) as [Hl _].
    assert (Hlt : q < 2 ^ (53 + k)).
    { unfold q. rewrite pow2_add. apply Qmult_lt_compat_r; [exact Hpk|].
      rewrite <- (pow2_Z 53) by lia. rewrite <- Zlt_Qlt. lia. }
    assert (H : (Js.ilog2 q < 53 + k)%Z) by (apply pow2_lt_inv; lra).
    unfold e. lia. }
  pose proof (pow2_pos e) as Hpe.
  assert (Hs : q / 2 ^ e == inject_Z (m * 2 ^ (k - e))).
  { rewrite inject_Z_mult, pow2_Z by lia. unfold q.
    replace k with (k - e + e)%Z at 1 by lia. rewrite pow2_add.
    field. lra. }
  rewrite (rne_comp _ _ Hs), rne_Z.
  rewrite inject_Z_mult, pow2_Z by lia. unfold q.
  replace k with (k - e + e)%Z at 2 by lia. rewrite pow2_add. ring.
Qed.

Lemma fl64_Z (z : Z) : (0 <= z < 2 ^ 53)%Z -> Js.fl64 (inject_Z z) == inject_Z z.
Proof.
  intros Hz. destruct (Z.eq_dec z 0%Z) as [->|Hne]; [reflexivity|].
  rewrite (fl64_comp (inject_Z z) (inject_Z z * 2 ^ 0)) by (cbn; ring).
  rewrite fl64_exact by lia. cbn. ring.
Qed.

Lemma fl64_half (z : Z) :
  (0 <= z < 2 ^ 52)%Z ->
  Js.fl64 (inject_Z z + (1 # 2)) == inject_Z z + (1 # 2).
Proof.
  intros Hz.
  assert (E : inject_Z z + (1 # 2) == inject_Z (2 * z + 1) * 2 ^ (-1)).
  { rewrite inject_Z_plus, inject_Z_mult.
    change (2 ^ (-1)) with (1 # 2). change (inject_Z 2) with 2.
    change (inject_Z 1) with 1. ring. }
  rewrite (fl64_comp _ _ E), fl64_exact by lia. symmetry. exact E.
Qed.

Lemma tiny_le (q : Q) : 1 # 2 <= q -> 2 ^ (-1022) <= q.
Proof.
  intros H. apply Qle_trans with (1 # 2); [|exact H].
  vm_compute. discriminate.
Qed.

(** The error of a rounding of a number of one half or more, with the
    unit roundoff written out. *)
Lemma fl64_near (q : Q) :
  1 # 2 <= q ->
  q * (9007199254740991 # 9007199254740992) <= Js.fl64 q
  /\ Js.fl64 q <= q * (9007199254740993 # 9007199254740992).
Proof.
  intros H. destruct (fl64_error q (tiny_le q H)) as [Hlo Hhi].
  assert (E1 : 1 - 2 ^ (-53) == 9007199254740991 # 9007199254740992)
    by reflexivity.
  assert (E2 : 1 + 2 ^ (-53) == 9007199254740993 # 9007199254740992)
    by reflexivity.
  rewrite E1 in Hlo. rewrite E2 in Hhi. split; assumption.
Qed.

End Doubles.

(** ** Price normalisation ([calculateActualPrice], [savePriceHistory]) *)

Section PriceNormalisation.
Import Schema DataProcessor.
Open Scope Q_scope.

(** [savePriceHistory] appends exactly one row, whose [actualPrice] is
    [persistedActualPrice] of the display price. *)
Lemma savePriceHistory_row (hotelId : Z) (date : string)
    (displayPrice : option Q) (available : bool) (d : Db) :
  savePriceHistory true hotelId date displayPrice available d
  = (Js.Ret tt,
     set_priceHistory (fun t => t ++
       [mkPrice (next_id ph_id t) hotelId date displayPrice
                (persistedActualPrice displayPrice) "SAR"
                (if available then 1 else 0)%Z]) d).
Proof. reflexivity. Qed.

(** The double that the literal [1.04998] denotes. *)
Lemma c_1_04998_value :
  c_1_04998 = 4728689536746473 # 4503599627370496.
Proof. vm_compute. reflexivity. Qed.

(** For a whole price up to a hundred million the cents computed in
    doubles are the cents of the exact quotient: the exact quotient times
    100 stays at least [1 / 104998] away from every half, the two
    roundings and the rounded divisor move it by less. *)
Lemma cents_of_whole_price (n : Z) :
  (1 <= n <= 100000000)%Z ->
  Js.Math_round (Js.fl64 (Js.fl64 (inject_Z n / c_1_04998) * 100))
  = Js.Math_round (inject_Z n / 1.04998 * 100).
Proof.
  intros Hn. rewrite c_1_04998_value.
  set (p := inject_Z n).
  assert (Hp1 : 1 <= p) by (unfold p; change 1 with (inject_Z 1);
                            rewrite <- Zle_Qle; lia).
  assert (Hp2 : p <= 100000000)
    by (unfold p; change 100000000 with (inject_Z 100000000);
        rewrite <- Zle_Qle; lia).
  set (k := Js.Math_round (p / 1.04998 * 100)).
  destruct (Math_round_bounds (p / 1.04998 * 100)) as [Klo Khi].
  fold k in Klo, Khi.
  assert (G1 : (104998 * k - 52499 <= n * 10000000)%Z)
    by (unfold p in *; z_by_q).
  assert (G2 : (n * 10000000 < 104998 * k + 52499)%Z)
    by (unfold p in *; z_by_q).
  assert (G1' : (104998 * k - 52499 + 1 <= n * 10000000)%Z) by lia.
  assert (G2' : (n * 10000000 + 1 <= 104998 * k + 52499)%Z) by lia.
  q_of_z G1'. q_of_z G2'. fold p in G1', G2'.
  destruct (fl64_near (p / (4728689536746473 # 4503599627370496)))
    as [A1 A2]; [qlra|].
  set (t1 := Js.fl64 (p / (4728689536746473 # 4503599627370496))) in *.
  destruct (fl64_near (t1 * 100)) as [B1 B2]; [qlra|].
  set (t2 := Js.fl64 (t1 * 100)) in *.
  apply Math_round_unique; qlra.
Qed.

(** Rounding a number of cents to units: the double of [c / 100] rounds as
    [c / 100] does. *)
Lemma units_of_cents (c : Z) :
  (50 <= c <= 10000000000)%Z ->
  Js.Math_round (Js.fl64 (inject_Z c / 100)) = Js.Math_round (inject_Z c / 100)
  /\ 0 < Js.fl64 (inject_Z c / 100).
Proof.
  intros Hc.
  pose proof (Z.div_mod c 100 ltac:(lia)) as Hdm.
  pose proof (Z.mod_pos_bound c 100 ltac:(lia)) as Hb.
  set (a := (c / 100)%Z) in *. set (b := (c mod 100)%Z) in *.
  assert (Ha : (0 <= a <= 100000000)%Z).
  { unfold a. split; [apply Z.div_pos; lia|].
    apply Z.div_le_upper_bound; lia. }
  assert (Hv : inject_Z c / 100 == inject_Z a + inject_Z b / 100).
  { rewrite Hdm. inj_push. field. }
  assert (Ha1 := proj1 Ha). assert (Ha2 := proj2 Ha).
  assert (Hb1 := proj1 Hb). assert (Hb2 := proj2 Hb).
  assert (Hc1 := proj1 Hc).
  q_of_z Ha1. q_of_z Ha2. q_of_z Hb1. q_of_z Hc1.
  destruct (Z.eq_dec b 50%Z) as [E|E].
  - assert (Hh : inject_Z c / 100 == inject_Z a + (1 # 2)).
    { rewrite Hv, E. inj_const. qlra. }
    rewrite (fl64_comp _ _ Hh).
    assert (Hf : Js.fl64 (inject_Z a + (1 # 2)) == inject_Z a + (1 # 2))
      by (apply fl64_half; lia).
    split.
    + unfold Js.Math_round. rewrite Hf, Hh. reflexivity.
    + rewrite Hf. lra.
  - destruct (fl64_near (inject_Z c / 100)) as [F1 F2]; [qlra|].
    set (v := inject_Z c / 100) in *.
    set (w := Js.fl64 v) in *.
    assert (Hv50 : 1 # 2 <= v) by (unfold v; qlra).
    clearbody w. clearbody v.
    split; [|lra].
    destruct (Z_lt_le_dec b 50%Z) as [Hlt|Hge].
    + assert (Hb49 : (b <= 49)%Z) by lia. q_of_z Hb49.
      transitivity a; [|symmetry]; apply Math_round_unique; qlra.
    + assert (Hb51 : (51 <= b)%Z) by lia. q_of_z Hb51.
      assert (Hb99 : (b <= 99)%Z) by lia. q_of_z Hb99.
      transitivity (a + 1)%Z; [|symmetry]; apply Math_round_unique;
        inj_push; qlra.
Qed.

(** The column stored for a whole display price: the exact quotient
    rounded to cents, the cents rounded to units. *)
Lemma persisted_cents (n : Z) :
  (1 <= n <= 100000000)%Z ->
  persistedActualPrice (Some (inject_Z n))
  = Some (Js.Math_round
            (inject_Z (Js.Math_round (inject_Z n / 1.04998 * 100)) / 100)).
Proof.
  intros Hn. unfold persistedActualPrice.
  assert (Hn1 := proj1 Hn). assert (Hn2 := proj2 Hn).
  q_of_z Hn1. q_of_z Hn2.
  rewrite truthy_pos by lra.
  unfold calculateActualPrice. rewrite (cents_of_whole_price n Hn).
  destruct (Math_round_bounds (inject_Z n / 1.04998 * 100)) as [Clo Chi].
  set (c := Js.Math_round (inject_Z n / 1.04998 * 100)) in *.
  assert (Hc1 : (49 < c)%Z) by z_by_q.
  assert (Hc2 : (c < 10000000001)%Z) by z_by_q.
  destruct (units_of_cents c ltac:(lia)) as [Hu Hpos].
  rewrite (truthy_pos _ Hpos), Hu. reflexivity.
Qed.

(** Rounding to cents first and to units afterwards: the result is the
    nearest unit unless the quotient lies within half a cent below a
    half, where the cents round up to the half and the half rounds up. *)
Lemma round_cents_then_units (x : Q) (n : Z) :
  n = Js.Math_round x ->
  (x < inject_Z n + 0.495 ->
   Js.Math_round (inject_Z (Js.Math_round (x * 100)) / 100) = n)
  /\ (inject_Z n + 0.495 <= x ->
      Js.Math_round (inject_Z (Js.Math_round (x * 100)) / 100) = (n + 1)%Z).
Proof.
  intros ->. set (n := Js.Math_round x).
  destruct (Math_round_bounds x) as [Hlo Hhi]. fold n in Hlo, Hhi.
  destruct (Math_round_bounds (x * 100)) as [Clo Chi].
  set (c := Js.Math_round (x * 100)) in *.
  split; intros Hx.
  - assert (Hc1 : (100 * n - 51 < c)%Z) by z_by_q.
    assert (Hc3 : (c < 100 * n + 50)%Z) by z_by_q.
    assert (Hq1 : (100 * n - 50 <= c)%Z) by lia.
    assert (Hq2 : (c <= 100 * n + 49)%Z) by lia.
    q_of_z Hq1. q_of_z Hq2.
    apply Math_round_unique; qlra.
  - assert (Hc2 : (c < 100 * n + 51)%Z) by z_by_q.
    assert (Hc3 : (100 * n + 49 < c)%Z) by z_by_q.
    assert (Hq1 : (100 * n + 50 <= c)%Z) by lia.
    assert (Hq2 : (c <= 100 * n + 50)%Z) by lia.
    q_of_z Hq1. q_of_z Hq2.
    apply Math_round_unique; inj_push; qlra.
Qed.

(** C1, as amended.  For every whole display price [p] from 1 to
    100 000 000 (the scraper reads prices with [parseInt]),
    [savePriceHistory] appends one row whose [actualPrice] is
    [p / 1.04998] rounded half-up to cents and then half-up to whole
    units, the arithmetic of doubles included.  With [n] the nearest whole
    unit of [p / 1.04998], the stored value is [n] when the quotient is
    below [n + 0.495] and [n + 1] from there on.  210 is stored as 200,
    300 as 286, and a null display price as null.  Beyond that range the
    roundings of the doubles show as well: 563 727 424 has the cents
    53 689 348 749.49..., the doubles make them 53 689 348 750 and the
    stored value is 536 893 488, not 536 893 487. *)
Theorem savePriceHistory_actualPrice_two_roundings
    (p : Z) (hotelId : Z) (date : string) (available : bool) (d : Db) :
  (1 <= p <= 100000000)%Z ->
  let x := inject_Z p / 1.04998 in
  let n := Js.Math_round x in
  let cents := Js.Math_round (x * 100) in
  (exists row,
      savePriceHistory true hotelId date (Some (inject_Z p)) available d
      = (Js.Ret tt, set_priceHistory (fun t => t ++ [row]) d)
      /\ ph_displayPrice row = Some (inject_Z p)
      /\ ph_actualPrice row = Some (Js.Math_round (inject_Z cents / 100))
      /\ (x < inject_Z n + 0.495 -> ph_actualPrice row = Some n)
      /\ (inject_Z n + 0.495 <= x -> ph_actualPrice row = Some (n + 1)%Z))
  /\ persistedActualPrice (Some 210) = Some 200%Z
  /\ persistedActualPrice (Some 300) = Some 286%Z
  /\ persistedActualPrice None = None
  /\ Js.Math_round
       (inject_Z (Js.Math_round (563727424 / 1.04998 * 100)) / 100)
     = 536893487%Z
  /\ persistedActualPrice (Some 563727424) = Some 536893488%Z.
Proof.
  intros Hp x n cents.
  split; [|repeat split; vm_compute; reflexivity].
  eexists. split; [apply savePriceHistory_row|].
  cbn [ph_displayPrice ph_actualPrice].
  rewrite (persisted_cents p Hp). fold x. fold cents.
  destruct (round_cents_then_units x n eq_refl) as [Hlow Hhigh].
  fold cents in Hlow, Hhigh.
  split; [reflexivity|].
  split; [reflexivity|].
  split; intros Hx; [rewrite (Hlow Hx)|rewrite (Hhigh Hx)]; reflexivity.
Qed.

Lemma savePriceHistory_actualPrice_two_roundings_witness :
  (1 <= 210 <= 100000000)%Z
  /\ exists row,
      savePriceHistory true 1 "2026-02-16" (Some 210) true emptyDb
      = (Js.Ret tt, set_priceHistory (fun t => t ++ [row]) emptyDb)
      /\ ph_actualPrice row = Some 200%Z.
Proof.
  split; [lia|].
  destruct (savePriceHistory_actualPrice_two_roundings
              210 1 "2026-02-16" true emptyDb ltac:(lia))
    as [(row & Hrow & _ & _ & Hn & _) _].
  exists row. split; [exact Hrow|].
  apply Hn. reflexivity.
Defined.

(** C1 as stated fails: a display price of 1103 gives 1050.4962..., whose
    nearest whole unit is 1050; the cents round to 1050.50 and the stored
    base price is 1051. *)
Lemma savePriceHistory_1103_stores_1051 :
  0 < 1103
  /\ (ph_actualPrice <$>
        last (priceHistory (snd (savePriceHistory true 1 "2026-02-16"
                                   (Some 1103) true emptyDb))))
     = Some (Some 1051%Z)
  /\ Js.Math_round (1103 / 1.04998) = 1050%Z
  /\ persistedActualPrice (Some 1103)
     <> Some (Js.Math_round (1103 / 1.04998)).
Proof.
  split; [reflexivity|].
  split; [vm_compute; reflexivity|].
  split; [vm_compute; reflexivity|].
  vm_compute. discriminate.
Qed.

End PriceNormalisation.

(** ** The sync run ([runSync]) *)

Section SyncRun.
Import Schema DataProcessor Scheduler.

Ltac unfold_cell :=
  cbv beta delta [syncCell Js.try_catch Js.bind with_db await getOrCreateHotel
    savePriceHistory_for savePriceHistory require_db formatDateToISO
    successCount_incr errorCount_incr Js.modify Js.get Js.ret Js.throw].

(** One cell of the grid never throws; it bumps exactly one of the two
    counters and touches neither the sync log nor the credentials. *)
Lemma syncCell_step (env : Env) (hotel : Hotel) (dateStr : string) (s : St) :
  exists s',
    syncCell env hotel dateStr s = (Js.Ret tt, s')
    /\ ((okCount s' = okCount s + 1 /\ errCount s' = errCount s)
        \/ (okCount s' = okCount s /\ errCount s' = errCount s + 1))
    /\ syncLogs (db s') = syncLogs (db s)
    /\ webbedCredentials (db s') = webbedCredentials (db s).
Proof.
  unfold_cell. cbn beta iota zeta.
  repeat (break_match; cbn beta iota zeta);
    simplify_eq; eexists; (split; [reflexivity|]); cbn; auto.
Qed.




Lemma forDates_step (env : Env) (hotel : Hotel) (dates : list string) (s : St) :
  exists s',
    forDates env hotel dates s = (Js.Ret tt, s')
    /\ okCount s' + errCount s' = okCount s + errCount s + len dates
    /\ okCount s <= okCount s' /\ errCount s <= errCount s'
    /\ syncLogs (db s') = syncLogs (db s)
    /\ webbedCredentials (db s') = webbedCredentials (db s).
Proof.
  revert s. induction dates as [|dateStr rest IH]; intros s.
  - exists s. cbn. unfold len. cbn. repeat split; lia.
  - destruct (syncCell_step env hotel dateStr s) as (s1 & H1 & Hc & Hl & Hw).
    destruct (IH s1) as (s2 & H2 & Hsum & Hok & Herr & Hl2 & Hw2).
    exists s2. cbn [forDates]. unfold Js.bind at 1. rewrite H1, H2.
    split; [reflexivity|].
    unfold len in *. cbn [length]. rewrite Nat2Z.inj_succ.
    repeat split; try congruence; lia.
Qed.

Lemma forHotels_step (env : Env) (tracked : list Hotel) (dates : list string)
    (s : St) :
  exists s',
    forHotels env tracked dates s = (Js.Ret tt, s')
    /\ okCount s' + errCount s'
       = okCount s + errCount s + len tracked * len dates
    /\ okCount s <= okCount s' /\ errCount s <= errCount s'
    /\ syncLogs (db s') = syncLogs (db s)
    /\ webbedCredentials (db s') = webbedCredentials (db s).
Proof.
  revert s. induction tracked as [|hotel rest IH]; intros s.
  - exists s. cbn. unfold len. cbn. repeat split; lia.
  - destruct (forDates_step env hotel dates s)
      as (s1 & H1 & Hsum1 & Hok1 & Herr1 & Hl1 & Hw1).
    destruct (IH s1) as (s2 & H2 & Hsum & Hok & Herr & Hl2 & Hw2).
    exists s2. cbn [forHotels]. unfold Js.bind at 1. rewrite H1, H2.
    split; [reflexivity|].
    unfold len in *. cbn [length]. rewrite Nat2Z.inj_succ.
    repeat split; try congruence; lia.
Qed.

Lemma next_id_above {R} (key : R -> Z) (rows : list R) (r : R) :
  In r rows -> key r < next_id key rows.
Proof.
  unfold next_id. induction rows as [|r0 rows IH]; cbn; [tauto|].
  intros [->|Hin]; [lia|]. specialize (IH Hin). lia.
Qed.

Lemma next_id_pos {R} (key : R -> Z) (rows : list R) : 1 <= next_id key rows.
Proof.
  unfold next_id. induction rows as [|r0 rows IH]; cbn; lia.
Qed.

(** An update keyed by a fresh identifier reaches only the new row. *)
Lemma update_fresh_log (t : list SyncLogRow) (row : SyncLogRow)
    (f : SyncLogRow -> SyncLogRow) :
  sl_id row = next_id sl_id t ->
  map (fun l => if sl_id l =? next_id sl_id t then f l else l) (t ++ [row])
  = t ++ [f row].
Proof.
  intros Hrow. rewrite map_app. cbn. rewrite Hrow, Z.eqb_refl. f_equal.
  rewrite <- (map_id t) at 2. apply map_ext_in. intros l Hl.
  apply (next_id_above sl_id) in Hl.
  destruct (Z.eqb_spec (sl_id l) (next_id sl_id t)); [lia|reflexivity].
Qed.

(** The run once authenticated, for any tracking grid. *)
Lemma runSync_on_authenticated (env : Env) (tracked : list Hotel)
    (dates : list string) (userId : Z) (d : Db)
    (cred : CredentialRow) (others : list CredentialRow) (password : string) :
  getDb env = true ->
  query env SelectCredentials = Js.Ret tt ->
  query env InsertSyncLog = Js.Ret tt ->
  query env UpdateSyncLog = Js.Ret tt ->
  query env UpdateCredentials = Js.Ret tt ->
  filter (fun c => c_userId c =? userId) (webbedCredentials d)
  = cred :: others ->
  decryptData env (c_password cred) = Js.Ret password ->
  initialize env = Js.Ret tt ->
  login env (c_username cred) password = Js.Ret true ->
  close env = Js.Ret tt ->
  exists ok err d',
    runSync_on env tracked dates userId d
    = (Js.Ret (mkResult true (len tracked) (len dates) ok err None), d')
    /\ ok + err = len tracked * len dates /\ 0 <= ok /\ 0 <= err
    /\ syncLogs d'
       = syncLogs d ++
         [mkLog (next_id sl_id (syncLogs d)) userId completed (len tracked)
                (len dates) ok err None (t_start env) (Some (t_end env))
                (Some (Js.Math_round
                         (inject_Z (t_end env - t_start env) / 1000)))]
    /\ webbedCredentials d'
       = map (fun c => if c_userId c =? userId
                       then mkCred (c_id c) (c_userId c) (c_username c)
                                   (c_password c) (Some (t_end env))
                                   Schema.success None
                       else c) (webbedCredentials d).
Proof.
  intros Hdb Hq1 Hq2 Hq3 Hq4 Hcred Hdec Hinit Hlogin Hclose.
  unfold runSync_on. rewrite Hdb.
  cbv beta delta [Js.try_catch runSync_try Js.bind Js.get on_db Js.modify
                  await Js.ret Js.throw].
  rewrite Hq1. cbn beta iota zeta. cbn [db]. rewrite Hcred.
  cbn beta iota zeta. rewrite Hdec. cbn beta iota zeta.
  rewrite Hq2. cbn beta iota zeta.
  rewrite Hinit. cbn beta iota zeta. rewrite Hlogin. cbn beta iota zeta.
  match goal with
  | |- context [forHotels env tracked dates ?s0] =>
      destruct (forHotels_step env tracked dates s0)
        as (s1 & Hrun & Hsum & Hok & Herr & Hlogs & Hcreds)
  end.
  rewrite Hrun. cbn beta iota zeta. rewrite Hclose. cbn beta iota zeta.
  rewrite Hq3. cbn beta iota zeta. rewrite Hq4. cbn beta iota zeta.
  cbn in Hsum, Hok, Herr, Hlogs, Hcreds.
  exists (okCount s1), (errCount s1). eexists.
  split; [reflexivity|].
  split; [lia|]. split; [lia|]. split; [lia|].
  pose proof (next_id_pos sl_id (syncLogs d)) as Hpos.
  destruct (Z.eqb_spec (next_id sl_id (syncLogs d)) 0) as [E|_]; [lia|].
  cbn. rewrite Hlogs, Hcreds. split; [|reflexivity].
  apply update_fresh_log. reflexivity.
Qed.

(** The run when authentication fails or throws, for any tracking grid. *)
Lemma runSync_on_auth_failure (env : Env) (tracked : list Hotel)
    (dates : list string) (userId : Z) (d : Db)
    (cred : CredentialRow) (others : list CredentialRow)
    (password msg : string) :
  getDb env = true ->
  query env SelectCredentials = Js.Ret tt ->
  query env InsertSyncLog = Js.Ret tt ->
  query env UpdateCredentialsError = Js.Ret tt ->
  filter (fun c => c_userId c =? userId) (webbedCredentials d)
  = cred :: others ->
  decryptData env (c_password cred) = Js.Ret password ->
  (exists e, initialize env = Js.Throw e /\ msg = Js.message_of e)
  \/ (initialize env = Js.Ret tt
      /\ ((login env (c_username cred) password = Js.Ret false
           /\ msg = "Login failed")
          \/ exists e,
              login env (c_username cred) password = Js.Throw e
              /\ msg = Js.message_of e)) ->
  runSync_on env tracked dates userId d
  = (Js.Ret (mkResult false (len tracked) (len dates) 0 0 (Some msg)),
     mkDb (hotels d) (priceHistory d)
          (map (fun c => if c_userId c =? userId
                         then mkCred (c_id c) (c_userId c) (c_username c)
                                     (c_password c) (c_lastSyncAt c)
                                     Schema.error (Some msg)
                         else c) (webbedCredentials d))
          (syncLogs d ++
             [mkLog (next_id sl_id (syncLogs d)) userId running (len tracked)
                    (len dates) 0 0 None (t_start env) None None])
          (priceAlerts d)).
Proof.
  intros Hdb Hq1 Hq2 Hq3 Hcred Hdec Hfail.
  unfold runSync_on. rewrite Hdb.
  cbv beta delta [Js.try_catch runSync_try runSync_catch Js.bind Js.get on_db
                  Js.modify await Js.ret Js.throw].
  rewrite Hq1. cbn beta iota zeta. cbn [db]. rewrite Hcred.
  cbn beta iota zeta. rewrite Hdec. cbn beta iota zeta.
  rewrite Hq2. cbn beta iota zeta.
  destruct Hfail as [(e & Hi & ->)|(Hi & [(Hl & ->)|(e & Hl & ->)])];
    rewrite Hi; cbn beta iota zeta; try rewrite Hl; cbn beta iota zeta;
    rewrite Hq3; reflexivity.
Qed.

(** The same run when the update of the [catch] block fails: [runSync]
    rejects, and only the log row has been written. *)
Lemma runSync_on_auth_failure_rejected (env : Env) (tracked : list Hotel)
    (dates : list string) (userId : Z) (d : Db)
    (cred : CredentialRow) (others : list CredentialRow)
    (password : string) (e' : Js.Exn) :
  getDb env = true ->
  query env SelectCredentials = Js.Ret tt ->
  query env InsertSyncLog = Js.Ret tt ->
  query env UpdateCredentialsError = Js.Throw e' ->
  filter (fun c => c_userId c =? userId) (webbedCredentials d)
  = cred :: others ->
  decryptData env (c_password cred) = Js.Ret password ->
  (exists e, initialize env = Js.Throw e)
  \/ (initialize env = Js.Ret tt
      /\ (login env (c_username cred) password = Js.Ret false
          \/ exists e, login env (c_username cred) password = Js.Throw e)) ->
  runSync_on env tracked dates userId d
  = (Js.Throw e',
     mkDb (hotels d) (priceHistory d) (webbedCredentials d)
          (syncLogs d ++
             [mkLog (next_id sl_id (syncLogs d)) userId running (len tracked)
                    (len dates) 0 0 None (t_start env) None None])
          (priceAlerts d)).
Proof.
  intros Hdb Hq1 Hq2 Hq3 Hcred Hdec Hfail.
  unfold runSync_on. rewrite Hdb.
  cbv beta delta [Js.try_catch runSync_try runSync_catch Js.bind Js.get on_db
                  Js.modify await Js.ret Js.throw].
  rewrite Hq1. cbn beta iota zeta. cbn [db]. rewrite Hcred.
  cbn beta iota zeta. rewrite Hdec. cbn beta iota zeta.
  rewrite Hq2. cbn beta iota zeta.
  destruct Hfail as [(e & Hi)|(Hi & [Hl|(e & Hl)])];
    rewrite Hi; cbn beta iota zeta; try rewrite Hl; cbn beta iota zeta;
    rewrite Hq3; reflexivity.
Qed.

(** C2.  A run that gets as far as the authentication -- the credentials
    are read, the stored password decrypts, the log row is inserted --
    and whose [initialize] throws, or whose [login] returns false or
    throws, writes no price row and leaves its [syncLogs] row as it was
    inserted: status [running], no error message.  No path of [runSync]
    writes [failed].  When the update of the [catch] block is answered,
    [runSync] reports failure with zero counts and the error message and
    the credentials are marked [error] with that message; when that update
    fails, [runSync] rejects and the credentials are what they were. *)
Theorem runSync_auth_failure_leaves_log_running (env : Env) (userId : Z)
    (d : Db) (cred : CredentialRow) (others : list CredentialRow)
    (password msg : string) :
  getDb env = true ->
  query env SelectCredentials = Js.Ret tt ->
  query env InsertSyncLog = Js.Ret tt ->
  filter (fun c => c_userId c =? userId) (webbedCredentials d)
  = cred :: others ->
  decryptData env (c_password cred) = Js.Ret password ->
  (exists e, initialize env = Js.Throw e /\ msg = Js.message_of e)
  \/ (initialize env = Js.Ret tt
      /\ ((login env (c_username cred) password = Js.Ret false
           /\ msg = "Login failed")
          \/ exists e,
              login env (c_username cred) password = Js.Throw e
              /\ msg = Js.message_of e)) ->
  exists res d' log,
    runSync env userId d = (res, d')
    /\ priceHistory d' = priceHistory d
    /\ syncLogs d' = syncLogs d ++ [log]
    /\ sl_userId log = userId
    /\ sl_status log = running
    /\ sl_errorMessage log = None
    /\ (query env UpdateCredentialsError = Js.Ret tt ->
        exists r,
          res = Js.Ret r
          /\ Scheduler.success r = false
          /\ successCount r = 0 /\ errorCount r = 0
          /\ errorMessage r = Some msg
          /\ (forall c, In c (webbedCredentials d') -> c_userId c = userId ->
              c_syncStatus c = Schema.error /\ c_syncError c = Some msg))
    /\ (forall e', query env UpdateCredentialsError = Js.Throw e' ->
        res = Js.Throw e' /\ webbedCredentials d' = webbedCredentials d).
Proof.
  intros Hdb Hq1 Hq2 Hcred Hdec Hfail.
  unfold runSync.
  destruct (query env UpdateCredentialsError) as [[]|e'] eqn:Hq3.
  - rewrite (runSync_on_auth_failure env HOTELS_TO_TRACK DATES_TO_TRACK
               userId d cred others password msg Hdb Hq1 Hq2 Hq3 Hcred Hdec
               Hfail).
    do 3 eexists. split; [reflexivity|]. cbn.
    split; [reflexivity|]. split; [reflexivity|]. split; [reflexivity|].
    split; [reflexivity|]. split; [reflexivity|].
    split; [|discriminate].
    intros _. eexists. split; [reflexivity|]. cbn.
    repeat split; try reflexivity;
      apply in_map_iff in H as (c0 & <- & _);
      destruct (Z.eqb_spec (c_userId c0) userId); cbn; congruence.
  - rewrite (runSync_on_auth_failure_rejected env HOTELS_TO_TRACK
               DATES_TO_TRACK userId d cred others password e' Hdb Hq1 Hq2
               Hq3 Hcred Hdec).
    2:{ destruct Hfail as [(e & Hi & _)|(Hi & [(Hl & _)|(e & Hl & _)])];
          eauto 6. }
    do 3 eexists. split; [reflexivity|]. cbn.
    split; [reflexivity|]. split; [reflexivity|]. split; [reflexivity|].
    split; [reflexivity|]. split; [reflexivity|].
    split; [discriminate|].
    intros e0 [= <-]. split; reflexivity.
Qed.

Lemma runSync_auth_failure_leaves_log_running_witness :
  let env := mkEnv true (fun _ => Js.Ret tt) (fun s => Js.Ret s) (Js.Ret tt)
               (fun _ _ => Js.Ret false) (fun _ _ _ => Js.Ret None)
               (Js.Ret tt) 1000 5000 in
  let d := mkDb [] [] [mkCred 1 7 "user" "secret" None idle None] [] [] in
  exists r d' log,
    runSync env 7 d = (Js.Ret r, d')
    /\ errorMessage r = Some "Login failed"
    /\ syncLogs d' = [log]
    /\ sl_status log = running.
Proof.
  intros env d.
  destruct (runSync_auth_failure_leaves_log_running env 7 d
              (mkCred 1 7 "user" "secret" None idle None) [] "secret"
              "Login failed" eq_refl eq_refl eq_refl eq_refl eq_refl)
    as (res & d' & log & Hrun & _ & Hlogs & _ & Hst & _ & Hret & _).
  { right. split; [reflexivity|]. left. split; reflexivity. }
  destruct (Hret eq_refl) as (r & -> & _ & _ & _ & Hmsg & _).
  exists r, d', log. repeat split; assumption.
Defined.




(** C4.  With the database handle, stored credentials, the queries of the
    run itself answered, a readable password and a successful
    [initialize], [login] and [close], whatever happens inside the cells
    the run returns success, its counters add up to the number of cells
    (14 x 20 = 280), its [syncLogs] row -- the only row touched -- is
    [completed] with these counters, and the user's credentials carry
    [syncStatus = success], [lastSyncAt] = the clock and no [syncError]. *)
Theorem runSync_completes_despite_cell_failures (env : Env) (userId : Z)
    (d : Db) (cred : CredentialRow) (others : list CredentialRow)
    (password : string) :
  getDb env = true ->
  query env SelectCredentials = Js.Ret tt ->
  query env InsertSyncLog = Js.Ret tt ->
  query env UpdateSyncLog = Js.Ret tt ->
  query env UpdateCredentials = Js.Ret tt ->
  filter (fun c => c_userId c =? userId) (webbedCredentials d)
  = cred :: others ->
  decryptData env (c_password cred) = Js.Ret password ->
  initialize env = Js.Ret tt ->
  login env (c_username cred) password = Js.Ret true ->
  close env = Js.Ret tt ->
  exists r d' log,
    runSync env userId d = (Js.Ret r, d')
    /\ Scheduler.success r = true
    /\ errorMessage r = None
    /\ successCount r + errorCount r = 280
    /\ 0 <= successCount r /\ 0 <= errorCount r
    /\ syncLogs d' = syncLogs d ++ [log]
    /\ sl_userId log = userId
    /\ sl_status log = completed
    /\ sl_successCount log = successCount r
    /\ sl_errorCount log = errorCount r
    /\ sl_completedAt log = Some (t_end env)
    /\ (forall c, In c (webbedCredentials d') -> c_userId c = userId ->
        c_syncStatus c = Schema.success
        /\ c_lastSyncAt c = Some (t_end env)
        /\ c_syncError c = None).
Proof.
  intros Hdb Hq1 Hq2 Hq3 Hq4 Hcred Hdec Hinit Hlogin Hclose.
  destruct (runSync_on_authenticated env HOTELS_TO_TRACK DATES_TO_TRACK userId
              d cred others password Hdb Hq1 Hq2 Hq3 Hq4 Hcred Hdec Hinit
              Hlogin Hclose)
    as (ok & err & d' & Hrun & Hsum & Hok & Herr & Hlogs & Hcreds).
  unfold runSync. rewrite Hrun.
  do 3 eexists. split; [reflexivity|]. cbn.
  split; [reflexivity|]. split; [reflexivity|].
  split; [exact Hsum|]. split; [exact Hok|]. split; [exact Herr|].
  split; [exact Hlogs|]. cbn.
  repeat split; try reflexivity;
    rewrite Hcreds in H; apply in_map_iff in H as (c0 & <- & _);
    destruct (Z.eqb_spec (c_userId c0) userId); cbn; congruence.
Qed.

(** Five cells go wrong, each in its own way: a [null] result, an exception
    from the scraper, a failing query in the hotel look-up and one in the
    save, and a second [null] result.  With the fourteen hotels stored the
    run completes with 275 successes, 5 errors and 275 new rows.  On an
    empty [hotels] table the first cell of every hotel is an error as
    well: 262 successes, 18 errors. *)
Lemma runSync_completes_despite_cell_failures_witness :
  let found := Js.Ret (Some (mkSearch (Some 210%Q) true)) in
  let env :=
    mkEnv true
      (fun q =>
         match q with
         | HotelQueries h dt =>
             if String.eqb h "ibis Makkah" && String.eqb dt "01/03/2026"
             then Js.Throw (Js.Error "Failed query") else Js.Ret tt
         | InsertPrice h dt =>
             if String.eqb h "Razanah" && String.eqb dt "20/02/2026"
             then Js.Throw (Js.Error "Failed query") else Js.Ret tt
         | _ => Js.Ret tt
         end)
      (fun s => Js.Ret s) (Js.Ret tt) (fun _ _ => Js.Ret true)
      (fun h dt _ =>
         if String.eqb h "VOCO" && String.eqb dt "16/02/2026"
         then Js.Ret None
         else if String.eqb h "VOCO" && String.eqb dt "17/02/2026"
         then Js.Throw (Js.Error "Page not initialized")
         else if String.eqb h "Elaf Bakkah" && String.eqb dt "07/03/2026"
         then Js.Ret None
         else found)
      (Js.Ret tt) 1000 5000 in
  let stored :=
    imap (fun i h => mkHotel (Z.of_nat i + 1) (name h) (id h) "Makkah")
         HOTELS_TO_TRACK in
  let creds := [mkCred 1 7 "user" "secret" None idle None] in
  let d := mkDb stored [] creds [] [] in
  (exists d' log,
      runSync env 7 d
      = (Js.Ret (mkResult true 14 20 275 5 None), d')
      /\ syncLogs d' = [log]
      /\ sl_status log = completed
      /\ sl_successCount log = 275 /\ sl_errorCount log = 5
      /\ length (priceHistory d') = 275%nat)
  /\ fst (runSync env 7 (mkDb [] [] creds [] []))
     = Js.Ret (mkResult true 14 20 262 18 None).
Proof.
  intros found env stored creds d.
  split; [|vm_compute; reflexivity].
  destruct (runSync_completes_despite_cell_failures env 7 d
              (mkCred 1 7 "user" "secret" None idle None) [] "secret"
              eq_refl eq_refl eq_refl eq_refl eq_refl eq_refl eq_refl eq_refl
              eq_refl eq_refl)
    as (r & d' & log & Hrun & _ & _ & _ & _ & _ & Hlogs & _ & Hst & Hsc & Hec & _).
  assert (Hval : fst (runSync env 7 d)
                 = Js.Ret (mkResult true 14 20 275 5 None)
                 /\ length (priceHistory (snd (runSync env 7 d))) = 275%nat)
    by (vm_compute; split; reflexivity).
  rewrite Hrun in Hval. cbn [fst snd] in Hval. destruct Hval as [Hr Hlen].
  injection Hr as ->.
  exists d', log. rewrite Hrun.
  repeat split; assumption.
Defined.

End SyncRun.

(** ** The session store ([loadSession], [uploadSession], ...) *)

Section SessionStore.
Import SessionManager.
Open Scope Q_scope.

Variable tn : Json -> Js.Res Js.Number.

Ltac unfold_session :=
  cbv beta delta [loadSession uploadSession isSessionNeedingVerification
    saveSession deleteSession JSON_parse JSON_stringify prop ToNumber
    Js.try_catch Js.bind Js.get Js.modify Js.ret Js.throw].

Lemma gt_true (a b : Q) : b < a -> Js.gt (Js.Num a) (Js.Num b) = true.
Proof. intros H. cbn. destruct (Qlt_le_dec b a); [reflexivity|lra]. Qed.

Lemma gt_false (a b : Q) : a <= b -> Js.gt (Js.Num a) (Js.Num b) = false.
Proof. intros H. cbn. destruct (Qlt_le_dec b a); [lra|reflexivity]. Qed.

(** [loadSession] always returns. *)
Lemma loadSession_returns (now : Z) (userId : string) (fs : gmap string Text) :
  exists r fs', loadSession tn now userId fs = (Js.Ret r, fs').
Proof.
  unfold_session. cbn beta iota zeta.
  destruct (fs !! userId) as [[|v]|] eqn:Hf; cbn beta iota zeta; eauto.
  destruct v; cbn beta iota zeta; eauto;
    repeat (break_match; cbn beta iota zeta); eauto.
Qed.

Lemma loadSession_absent (now : Z) (userId : string) (fs : gmap string Text) :
  fs !! userId = None ->
  loadSession tn now userId fs = (Js.Ret None, fs).
Proof. intros Hf. unfold_session. cbn beta iota zeta. rewrite Hf. reflexivity. Qed.

Lemma loadSession_garbled (now : Z) (userId : string) (fs : gmap string Text) :
  fs !! userId = Some Garbled ->
  loadSession tn now userId fs = (Js.Ret None, fs).
Proof. intros Hf. unfold_session. cbn beta iota zeta. rewrite Hf. reflexivity. Qed.

Lemma loadSession_expired (now : Z) (userId : string) (fs : gmap string Text)
    (fields : list (string * Json)) (e : Q) :
  fs !! userId = Some (Doc (JObj fields)) ->
  assoc "expiresAt" fields = Some (JNum e) ->
  e < inject_Z now ->
  loadSession tn now userId fs = (Js.Ret None, delete userId fs).
Proof.
  intros Hf He Hlt. unfold_session. cbn beta iota zeta.
  rewrite Hf. cbn beta iota zeta. rewrite He. cbn beta iota zeta.
  rewrite (gt_true _ _ Hlt). cbn beta iota zeta. rewrite Hf. reflexivity.
Qed.

Lemma loadSession_live (now : Z) (userId : string) (fs : gmap string Text)
    (fields : list (string * Json)) (e : Q) :
  fs !! userId = Some (Doc (JObj fields)) ->
  assoc "expiresAt" fields = Some (JNum e) ->
  inject_Z now <= e ->
  loadSession tn now userId fs = (Js.Ret (Some (JObj fields)), fs).
Proof.
  intros Hf He Hle. unfold_session. cbn beta iota zeta.
  rewrite Hf. cbn beta iota zeta. rewrite He. cbn beta iota zeta.
  rewrite (gt_false _ _ Hle). reflexivity.
Qed.

Lemma loadSession_no_expiry (now : Z) (userId : string)
    (fs : gmap string Text) (fields : list (string * Json)) :
  fs !! userId = Some (Doc (JObj fields)) ->
  assoc "expiresAt" fields = None ->
  loadSession tn now userId fs = (Js.Ret (Some (JObj fields)), fs).
Proof.
  intros Hf He. unfold_session. cbn beta iota zeta.
  rewrite Hf. cbn beta iota zeta. rewrite He. reflexivity.
Qed.

Lemma createSession_fields (t : Z) (cookies : list Json)
    (localStorage sessionStorage : option Json) :
  exists fields,
    createSession t cookies localStorage sessionStorage = JObj fields
    /\ assoc "cookies" fields = Some (JArr cookies)
    /\ assoc "timestamp" fields = Some (JNum (inject_Z t))
    /\ assoc "expiresAt" fields = Some (JNum (inject_Z (t + fifteenDaysMs))).
Proof.
  unfold createSession. eexists. split; [reflexivity|].
  destruct localStorage, sessionStorage; repeat split; reflexivity.
Qed.

Lemma deleteSession_absent (userId : string) (fs : gmap string Text) :
  fs !! userId = None -> deleteSession userId fs = (Js.Ret tt, fs).
Proof. intros Hf. unfold_session. rewrite Hf. reflexivity. Qed.

(** Induction on a value and, through arrays and objects, on its parts. *)
Lemma Json_nested_ind (P : Json -> Prop) :
  P JNull -> (forall b, P (JBool b)) -> (forall q, P (JNum q)) ->
  (forall s, P (JStr s)) ->
  (forall items, Forall P items -> P (JArr items)) ->
  (forall fields, Forall (fun kv => P kv.2) fields -> P (JObj fields)) ->
  (forall n, P (JInf n)) ->
  forall v, P v.
Proof.
  intros Hnull Hbool Hnum Hstr Harr Hobj Hinf.
  fix IH 1.
  intros [|b|q|s|items|fields|n];
    [exact Hnull|apply Hbool|apply Hnum|apply Hstr| | |apply Hinf].
  - apply Harr. induction items as [|x xs IHxs]; constructor;
      [apply IH|exact IHxs].
  - apply Hobj. induction fields as [|[k x] xs IHxs]; constructor;
      [apply IH|exact IHxs].
Qed.

(** What has been written once is written back as it is. *)
Lemma written_idem (v : Json) : written (written v) = written v.
Proof.
  induction v as [| | | |items IH|fields IH|] using Json_nested_ind;
    try reflexivity; cbn [written]; f_equal; rewrite map_map.
  - induction IH as [|x xs Hx _ IHxs]; [reflexivity|].
    cbn [map]. rewrite Hx, IHxs. reflexivity.
  - induction IH as [|[k x] xs Hx _ IHxs]; [reflexivity|].
    cbn [map fst snd] in *. rewrite Hx, IHxs. reflexivity.
Qed.

(** The fields of a written object are the written fields. *)
Lemma assoc_written (key : string) (fields : list (string * Json)) :
  assoc key (map (fun kv => (kv.1, written kv.2)) fields)
  = option_map written (assoc key fields).
Proof.
  induction fields as [|[k v] rest IH]; [reflexivity|].
  cbn [map assoc fst snd]. destruct (String.eqb k key); [reflexivity|exact IH].
Qed.

(** C5, as amended.  [loadSession] never raises.  A file that does not
    parse, or whose value has no readable [expiresAt], yields [null] and
    stays where it is; a session with [now > expiresAt] yields [null] and
    is deleted.  A session loaded one second after its fifteen days is
    gone from the store afterwards, and deleting an absent session changes
    nothing. *)
Theorem loadSession_fails_closed (now : Z) (userId : string)
    (fs : gmap string Text) :
  (exists r fs', loadSession tn now userId fs = (Js.Ret r, fs'))
  /\ (fs !! userId = Some Garbled ->
      loadSession tn now userId fs = (Js.Ret None, fs))
  /\ (fs !! userId = Some (Doc JNull) ->
      loadSession tn now userId fs = (Js.Ret None, fs))
  /\ (forall fields e,
        fs !! userId = Some (Doc (JObj fields)) ->
        assoc "expiresAt" fields = Some (JNum e) ->
        e < inject_Z now ->
        loadSession tn now userId fs = (Js.Ret None, delete userId fs)
        /\ delete userId fs !! userId = None)
  /\ (forall t cookies localStorage sessionStorage,
        fs !! userId
        = Some (Doc (createSession t cookies localStorage sessionStorage)) ->
        now = (t + fifteenDaysMs + 1000)%Z ->
        loadSession tn now userId fs = (Js.Ret None, delete userId fs)
        /\ delete userId fs !! userId = None
        /\ deleteSession userId (delete userId fs)
           = (Js.Ret tt, delete userId fs)).
Proof.
  split; [apply loadSession_returns|].
  split; [apply loadSession_garbled|].
  split.
  { intros Hf. unfold_session. cbn beta iota zeta. rewrite Hf. reflexivity. }
  split.
  - intros fields e Hf He Hlt.
    split; [exact (loadSession_expired now userId fs fields e Hf He Hlt)|].
    apply lookup_delete_eq.
  - intros t cookies ls ss Hf ->.
    destruct (createSession_fields t cookies ls ss)
      as (fields & Hc & _ & _ & He).
    rewrite Hc in Hf.
    split; [|split].
    + apply (loadSession_expired _ userId fs fields _ Hf He).
      rewrite <- Zlt_Qlt. lia.
    + apply lookup_delete_eq.
    + apply deleteSession_absent, lookup_delete_eq.
Qed.

(** C5 as stated fails: a file that does not parse makes [loadSession]
    return [null], but the file is still in the store afterwards. *)
Lemma loadSession_keeps_unparsable_file :
  let fs : gmap string Text := {[ "42" := Garbled ]} in
  let '(r, fs') := loadSession (fun _ => Js.Ret Js.NaN) 5000 "42" fs in
  r = Js.Ret None /\ fs' !! "42" = Some Garbled.
Proof. vm_compute. split; reflexivity. Qed.

(** What [uploadSession] does check: it never raises; when it returns
    [false] the store is untouched; when it returns [true] the payload is an
    object with a [cookies] array, it has replaced the user's file, and an
    [expiresAt] that is a number is not in the past. *)
Lemma uploadSession_checked (now : Z) (userId : string) (jsonData : Text)
    (fs : gmap string Text) :
  exists b fs',
    uploadSession tn now userId jsonData fs = (Js.Ret b, fs')
    /\ (b = false -> fs' = fs)
    /\ (b = true ->
        exists fields cookies,
          jsonData = Doc (JObj fields)
          /\ assoc "cookies" fields = Some (JArr cookies)
          /\ fs' = <[userId := JSON_stringify (JObj fields)]> fs
          /\ forall e, assoc "expiresAt" fields = Some (JNum e) ->
                       inject_Z now <= e).
Proof.
  unfold uploadSession, saveSession.
  cbv beta delta [JSON_parse prop ToNumber
    Js.try_catch Js.bind Js.get Js.modify Js.ret Js.throw].
  cbn beta iota zeta.
  destruct jsonData as [|v]; cbn beta iota zeta.
  { do 2 eexists. split; [reflexivity|]. split; [reflexivity|discriminate]. }
  destruct v as [| | | | |fields|]; cbn beta iota zeta;
    try (do 2 eexists; split; [reflexivity|];
         split; [reflexivity|discriminate]).
  destruct (assoc "cookies" fields) as [[| | | |cookies| |]|] eqn:Hc;
    cbn beta iota zeta delta [truthy isArray negb orb];
    rewrite ?orb_true_r; cbn beta iota zeta;
    try (repeat (break_match; cbn beta iota zeta);
         do 2 eexists; split; [reflexivity|];
         split; [reflexivity|discriminate]).
  assert (Hacc : forall fs1 : gmap string Text,
             (forall e, assoc "expiresAt" fields = Some (JNum e) ->
                        inject_Z now <= e) ->
             exists (b : bool) (fs' : gmap string Text),
               (Js.Ret true : Js.Res bool,
                <[userId := JSON_stringify (JObj fields)]> fs1)
               = (Js.Ret b, fs')
               /\ (b = false -> fs' = fs1)
               /\ (b = true ->
                   exists fields0 cookies0,
                     Doc (JObj fields) = Doc (JObj fields0)
                     /\ assoc "cookies" fields0 = Some (JArr cookies0)
                     /\ fs' = <[userId := JSON_stringify (JObj fields0)]> fs1
                     /\ forall e, assoc "expiresAt" fields0 = Some (JNum e) ->
                                  inject_Z now <= e)).
  { intros fs1 Hexp. do 2 eexists. split; [reflexivity|].
    split; [discriminate|]. intros _. exists fields, cookies. auto. }
  assert (Hrej : forall fs1 : gmap string Text,
             exists (b : bool) (fs' : gmap string Text),
               (Js.Ret false : Js.Res bool, fs1) = (Js.Ret b, fs')
               /\ (b = false -> fs' = fs1)
               /\ (b = true ->
                   exists fields0 cookies0,
                     Doc (JObj fields) = Doc (JObj fields0)
                     /\ assoc "cookies" fields0 = Some (JArr cookies0)
                     /\ fs' = <[userId := JSON_stringify (JObj fields0)]> fs1
                     /\ forall e, assoc "expiresAt" fields0 = Some (JNum e) ->
                                  inject_Z now <= e)).
  { intros fs1. do 2 eexists. split; [reflexivity|].
    split; [reflexivity|discriminate]. }
  destruct (assoc "expiresAt" fields) as [[| |e| | | |]|] eqn:He;
    cbn beta iota zeta;
    repeat (break_match; cbn beta iota zeta);
    first [ apply Hrej | apply Hacc; intros e' He'; try discriminate ].
  injection He' as <-.
  match goal with
  | H : Js.gt _ _ = false |- _ => unfold Js.gt in H
  end.
  destruct (Qlt_le_dec e (inject_Z now)); [discriminate|assumption].
Qed.

(** [uploadSession] turns down a payload without a [cookies] array and one
    whose numeric [expiresAt] is past; the store keeps what it had. *)
Lemma uploadSession_rejects (now : Z) (userId : string)
    (fields : list (string * Json)) (fs : gmap string Text) :
  (isArray (assoc "cookies" fields) = false
   \/ exists e, assoc "expiresAt" fields = Some (JNum e) /\ e < inject_Z now) ->
  uploadSession tn now userId (Doc (JObj fields)) fs = (Js.Ret false, fs).
Proof.
  intros Hbad.
  destruct (uploadSession_checked now userId (Doc (JObj fields)) fs)
    as (b & fs' & Hup & Hfalse & Htrue).
  rewrite Hup. destruct b.
  - destruct (Htrue eq_refl) as (fields' & cookies & Hd & Hc & _ & He).
    injection Hd as <-.
    destruct Hbad as [Hna|(e & Hex & Hlt)].
    + rewrite Hc in Hna. discriminate.
    + specialize (He e Hex). lra.
  - rewrite (Hfalse eq_refl). reflexivity.
Qed.

(** C6.  A payload with a [cookies] array and no [expiresAt] passes the
    expiry check of [uploadSession], which returns [true] and overwrites the
    session the user had. *)
Theorem uploadSession_accepts_payload_without_expiresAt :
  let prior := Doc (createSession 1000 [JStr "old"] None None) in
  let payload := Doc (JObj [("cookies", JArr [])]) in
  let fs : gmap string Text := {[ "42" := prior ]} in
  uploadSession (fun _ => Js.Ret Js.NaN) 5000 "42" payload fs
  = (Js.Ret true, <["42" := payload]> fs)
  /\ (<["42" := payload]> fs) !! "42" = Some payload
  /\ payload <> prior.
Proof.
  cbv zeta. split; [vm_compute; reflexivity|].
  split; [apply lookup_insert_eq|discriminate].
Qed.

(** The upload of a payload with a [cookies] array and no [expiresAt],
    and the loads that follow it. *)
Lemma uploadSession_no_expiresAt (now : Z) (userId : string)
    (fields : list (string * Json)) (cookies : list Json)
    (fs : gmap string Text) :
  assoc "cookies" fields = Some (JArr cookies) ->
  assoc "expiresAt" fields = None ->
  let fs' := <[userId := JSON_stringify (JObj fields)]> fs in
  uploadSession tn now userId (Doc (JObj fields)) fs = (Js.Ret true, fs')
  /\ (forall later,
        loadSession tn later userId fs'
        = (Js.Ret (Some (written (JObj fields))), fs')).
Proof.
  intros Hc He fs'. split.
  - unfold uploadSession, saveSession.
    cbv beta delta [JSON_parse prop ToNumber
      Js.try_catch Js.bind Js.get Js.modify Js.ret Js.throw].
    cbn beta iota zeta. rewrite Hc. cbn beta iota zeta.
    rewrite He. reflexivity.
  - intros later. cbn [written]. apply loadSession_no_expiry.
    + apply lookup_insert_eq.
    + rewrite assoc_written, He. reflexivity.
Qed.

(** C10.  A payload that is an object with a [cookies] array and no
    [expiresAt] is accepted: [uploadSession] returns [true] and stores it,
    as [JSON.stringify] writes it.  Whatever the clock later says,
    [loadSession] returns the stored session and leaves it in the store.
    For a payload all of whose numbers are finite -- one that is written
    back as it is -- what is stored and loaded is the payload itself. *)
Theorem uploadSession_without_expiresAt_never_expires (now : Z)
    (userId : string) (fields : list (string * Json)) (cookies : list Json)
    (fs : gmap string Text) :
  assoc "cookies" fields = Some (JArr cookies) ->
  assoc "expiresAt" fields = None ->
  let fs' := <[userId := JSON_stringify (JObj fields)]> fs in
  uploadSession tn now userId (Doc (JObj fields)) fs = (Js.Ret true, fs')
  /\ (forall later,
        loadSession tn later userId fs'
        = (Js.Ret (Some (written (JObj fields))), fs'))
  /\ (written (JObj fields) = JObj fields ->
      fs' = <[userId := Doc (JObj fields)]> fs
      /\ forall later,
           loadSession tn later userId fs'
           = (Js.Ret (Some (JObj fields)), fs')).
Proof.
  intros Hc He fs'.
  destruct (uploadSession_no_expiresAt now userId fields cookies fs Hc He)
    as [Hup Hload].
  fold fs' in Hup, Hload.
  split; [exact Hup|split].
  - exact Hload.
  - intros Hsame. split.
    + unfold fs', JSON_stringify. rewrite Hsame. reflexivity.
    + intros later. rewrite <- Hsame at 1. apply Hload.
Qed.

(** The age test [Math.floor((now - timestamp) / day) >= 15] holds exactly
    when fifteen days have gone by since [timestamp]. *)
Lemma ageInDays_ge_15 (now' : Z) (t : Q) :
  Js.ge (Js.floor (Js.div_const (Js.sub (Js.Num (inject_Z now')) (Js.Num t))
                                (inject_Z dayMs)))
        (Js.Num 15)
  = if Qlt_le_dec (inject_Z now' - t) (inject_Z fifteenDaysMs)
    then false else true.
Proof.
  cbn [Js.ge Js.floor Js.div_const Js.sub]. unfold Js.Math_floor.
  change (inject_Z dayMs) with 86400000.
  change (inject_Z fifteenDaysMs) with 1296000000.
  set (x := (inject_Z now' - t) / 86400000).
  pose proof (Qfloor_le x) as Hfl.
  destruct (Qlt_le_dec (inject_Z now' - t) 1296000000) as [Hlt|Hge];
    destruct (Qlt_le_dec (inject_Z (Qfloor x)) 15) as [Hlt'|Hge'];
    try reflexivity; exfalso.
  - assert (Hx : x < 15) by (unfold x; qlra). lra.
  - assert (Hx : inject_Z 15 <= x) by (unfold x; inj_push; qlra).
    apply Qfloor_resp_le in Hx. rewrite Qfloor_Z in Hx.
    q_of_z Hx. lra.
Qed.

(** C7.  [isSessionNeedingVerification] answers [true] whenever
    [loadSession] has no session to give -- no file, a file that does not
    parse, a session past its [expiresAt] -- and also for a session that
    still loads, its [expiresAt] not yet passed, but whose [timestamp] lies
    fifteen days or more back; it answers [false] for a session made by
    [createSession] less than fifteen days ago.  A stored session that is
    not valid because it carries no [timestamp] is not sent to
    verification, though: for every session that loads without it the
    answer is [false], at every reading of the clock -- so for the payload
    with a [cookies] array and nothing else, which [uploadSession]
    accepts. *)
Theorem isSessionNeedingVerification_policy (now now' : Z) (userId : string)
    (fs : gmap string Text) :
  (forall fs', loadSession tn now userId fs = (Js.Ret None, fs') ->
     isSessionNeedingVerification tn now now' userId fs = (Js.Ret true, fs'))
  /\ (fs !! userId = None ->
      isSessionNeedingVerification tn now now' userId fs = (Js.Ret true, fs))
  /\ (fs !! userId = Some Garbled ->
      isSessionNeedingVerification tn now now' userId fs = (Js.Ret true, fs))
  /\ (forall fields e,
        fs !! userId = Some (Doc (JObj fields)) ->
        assoc "expiresAt" fields = Some (JNum e) ->
        e < inject_Z now ->
        isSessionNeedingVerification tn now now' userId fs
        = (Js.Ret true, delete userId fs))
  /\ (forall fields t fs',
        loadSession tn now userId fs = (Js.Ret (Some (JObj fields)), fs') ->
        assoc "timestamp" fields = Some (JNum t) ->
        inject_Z fifteenDaysMs <= inject_Z now' - t ->
        isSessionNeedingVerification tn now now' userId fs
        = (Js.Ret true, fs'))
  /\ (forall fields e t,
        fs !! userId = Some (Doc (JObj fields)) ->
        assoc "expiresAt" fields = Some (JNum e) ->
        inject_Z now <= e ->
        assoc "timestamp" fields = Some (JNum t) ->
        inject_Z fifteenDaysMs <= inject_Z now' - t ->
        isSessionNeedingVerification tn now now' userId fs
        = (Js.Ret true, fs))
  /\ (forall t cookies localStorage sessionStorage,
        fs !! userId
        = Some (Doc (createSession t cookies localStorage sessionStorage)) ->
        (now <= t + fifteenDaysMs)%Z ->
        (now' < t + fifteenDaysMs)%Z ->
        isSessionNeedingVerification tn now now' userId fs
        = (Js.Ret false, fs))
  /\ (forall fields fs',
        loadSession tn now userId fs = (Js.Ret (Some (JObj fields)), fs') ->
        assoc "timestamp" fields = None ->
        isSessionNeedingVerification tn now now' userId fs
        = (Js.Ret false, fs'))
  /\ (forall fields,
        fs !! userId = Some (Doc (JObj fields)) ->
        assoc "expiresAt" fields = None ->
        assoc "timestamp" fields = None ->
        isSessionNeedingVerification tn now now' userId fs
        = (Js.Ret false, fs))
  /\ (forall uploaded fields cookies,
        assoc "cookies" fields = Some (JArr cookies) ->
        assoc "expiresAt" fields = None ->
        assoc "timestamp" fields = None ->
        exists fs',
          uploadSession tn uploaded userId (Doc (JObj fields)) fs
          = (Js.Ret true, fs')
          /\ isSessionNeedingVerification tn now now' userId fs'
             = (Js.Ret false, fs')).
Proof.
  assert (Hbare : forall (store store' : gmap string Text) fields,
             loadSession tn now userId store
             = (Js.Ret (Some (JObj fields)), store') ->
             assoc "timestamp" fields = None ->
             isSessionNeedingVerification tn now now' userId store
             = (Js.Ret false, store')).
  { intros store store' fields Hload Ht.
    unfold isSessionNeedingVerification, Js.bind.
    rewrite Hload.
    cbn [truthy negb]. unfold prop, Js.ret. rewrite Ht. reflexivity. }
  assert (Hnone : forall fs',
             loadSession tn now userId fs = (Js.Ret None, fs') ->
             isSessionNeedingVerification tn now now' userId fs
             = (Js.Ret true, fs')).
  { intros fs' Hload. unfold isSessionNeedingVerification, Js.bind.
    rewrite Hload. reflexivity. }
  assert (Hsome : forall fields t fs',
             loadSession tn now userId fs
             = (Js.Ret (Some (JObj fields)), fs') ->
             assoc "timestamp" fields = Some (JNum t) ->
             isSessionNeedingVerification tn now now' userId fs
             = (Js.Ret (if Qlt_le_dec (inject_Z now' - t)
                                      (inject_Z fifteenDaysMs)
                        then false else true), fs')).
  { intros fields t fs' Hload Ht.
    unfold isSessionNeedingVerification, Js.bind.
    rewrite Hload.
    cbn [truthy negb]. unfold prop, Js.ret. rewrite Ht.
    cbn [ToNumber]. unfold Js.ret. rewrite ageInDays_ge_15. reflexivity. }
  assert (Hold : forall fields t fs',
             loadSession tn now userId fs
             = (Js.Ret (Some (JObj fields)), fs') ->
             assoc "timestamp" fields = Some (JNum t) ->
             inject_Z fifteenDaysMs <= inject_Z now' - t ->
             isSessionNeedingVerification tn now now' userId fs
             = (Js.Ret true, fs')).
  { intros fields t fs' Hload Ht Hage.
    rewrite (Hsome fields t fs' Hload Ht).
    destruct (Qlt_le_dec (inject_Z now' - t) (inject_Z fifteenDaysMs));
      [lra|reflexivity]. }
  split; [exact Hnone|].
  split; [intros Hf; apply Hnone, loadSession_absent, Hf|].
  split; [intros Hf; apply Hnone, loadSession_garbled, Hf|].
  split.
  { intros fields e Hf He Hlt.
    apply Hnone, (loadSession_expired now userId fs fields e Hf He Hlt). }
  split; [exact Hold|].
  split; [|split; [|split; [intros fields fs'; apply Hbare|split]]].
  - intros fields e t Hf He Hle Ht Hage.
    apply (Hold fields t fs); [|exact Ht|exact Hage].
    exact (loadSession_live now userId fs fields e Hf He Hle).
  - intros t cookies ls ss Hf Hnow Hnow'.
    destruct (createSession_fields t cookies ls ss)
      as (fields & Hc & _ & Ht & He).
    rewrite Hc in Hf.
    rewrite (Hsome fields (inject_Z t) fs); [| |exact Ht].
    2:{ apply (loadSession_live now userId fs fields _ Hf He).
        rewrite <- Zle_Qle. exact Hnow. }
    destruct (Qlt_le_dec (inject_Z now' - inject_Z t) (inject_Z fifteenDaysMs))
      as [_|Hge]; [reflexivity|].
    exfalso.
    assert (Hz : inject_Z now' < inject_Z (t + fifteenDaysMs))
      by (rewrite <- Zlt_Qlt; exact Hnow').
    rewrite inject_Z_plus in Hz. lra.
  - intros fields Hf He Ht.
    apply (Hbare fs fs fields); [|exact Ht].
    exact (loadSession_no_expiry now userId fs fields Hf He).
  - intros uploaded fields cookies Hc He Ht.
    destruct (uploadSession_no_expiresAt uploaded userId fields cookies fs
                Hc He) as (Hup & Hload).
    eexists. split; [exact Hup|].
    eapply Hbare; [apply Hload|].
    rewrite assoc_written, Ht. reflexivity.
Qed.

End SessionStore.

Lemma loadSession_fails_closed_witness :
  let fs : gmap string SessionManager.Text :=
    {[ "42" := SessionManager.Doc
                 (SessionManager.createSession 1000 [] None None) ]} in
  SessionManager.loadSession (fun _ => Js.Ret Js.NaN)
    (1000 + SessionManager.fifteenDaysMs + 1000) "42" fs
  = (Js.Ret None, delete "42" fs)
  /\ delete "42" fs !! "42" = None.
Proof.
  intros fs.
  destruct (loadSession_fails_closed (fun _ => Js.Ret Js.NaN)
              (1000 + SessionManager.fifteenDaysMs + 1000) "42" fs)
    as (_ & _ & _ & _ & Hexp).
  destruct (Hexp 1000%Z [] None None) as (Hload & Hgone & _);
    [reflexivity | reflexivity |].
  split; [exact Hload | exact Hgone].
Defined.

Lemma isSessionNeedingVerification_policy_witness :
  let day := SessionManager.dayMs in
  let fresh := SessionManager.createSession 1000 [] None None in
  let stale :=
    SessionManager.JObj
      [("cookies", SessionManager.JArr []);
       ("timestamp", SessionManager.JNum (inject_Z 1000));
       ("expiresAt", SessionManager.JNum (inject_Z (1000 + 30 * day)))] in
  let fs : gmap string SessionManager.Text :=
    {[ "fresh" := SessionManager.Doc fresh;
       "stale" := SessionManager.Doc stale ]} in
  let tn := fun _ : SessionManager.Json => Js.Ret Js.NaN in
  let bare := SessionManager.JObj [("cookies", SessionManager.JArr [])] in
  SessionManager.isSessionNeedingVerification tn 2000 2000 "nobody" fs
  = (Js.Ret true, fs)
  /\ SessionManager.isSessionNeedingVerification tn
       (1000 + 15 * day) (1000 + 15 * day) "stale" fs
     = (Js.Ret true, fs)
  /\ SessionManager.isSessionNeedingVerification tn 2000 2000 "fresh" fs
     = (Js.Ret false, fs)
  /\ SessionManager.isSessionNeedingVerification tn
       (1000 + 400 * day) (1000 + 400 * day) "bare"
       (<["bare" := SessionManager.Doc bare]> fs)
     = (Js.Ret false, <["bare" := SessionManager.Doc bare]> fs).
Proof.
  intros day fresh stale fs tn bare.
  split; [|split; [|split]].
  - destruct (isSessionNeedingVerification_policy tn 2000 2000 "nobody" fs)
      as (_ & Habsent & _).
    apply Habsent. reflexivity.
  - destruct (isSessionNeedingVerification_policy tn
                (1000 + 15 * day) (1000 + 15 * day) "stale" fs)
      as (_ & _ & _ & _ & _ & Hage & _).
    eapply Hage; [reflexivity | reflexivity | | reflexivity | ];
      vm_compute; discriminate.
  - destruct (isSessionNeedingVerification_policy tn 2000 2000 "fresh" fs)
      as (_ & _ & _ & _ & _ & _ & Hfresh & _).
    apply (Hfresh 1000%Z [] None None); [reflexivity | | ];
      vm_compute; congruence.
  - destruct (isSessionNeedingVerification_policy tn
                (1000 + 400 * day) (1000 + 400 * day) "bare"
                (<["bare" := SessionManager.Doc bare]> fs))
      as (_ & _ & _ & _ & _ & _ & _ & _ & Hbare & _).
    apply (Hbare [("cookies", SessionManager.JArr [])]); reflexivity.
Defined.

Lemma uploadSession_without_expiresAt_never_expires_witness :
  let fields := [("cookies", SessionManager.JArr [])] in
  let fs' : gmap string SessionManager.Text :=
    <["42" := SessionManager.Doc (SessionManager.JObj fields)]> ∅ in
  SessionManager.uploadSession (fun _ => Js.Ret Js.NaN) 5000 "42"
    (SessionManager.Doc (SessionManager.JObj fields)) ∅
  = (Js.Ret true, fs')
  /\ SessionManager.loadSession (fun _ => Js.Ret Js.NaN)
       (5000 + 1000 * SessionManager.fifteenDaysMs) "42" fs'
     = (Js.Ret (Some (SessionManager.JObj fields)), fs').
Proof.
  intros fields fs'.
  destruct (uploadSession_without_expiresAt_never_expires
              (fun _ => Js.Ret Js.NaN) 5000 "42" fields [] ∅
              eq_refl eq_refl) as (Hup & _ & Hsame).
  destruct (Hsame eq_refl) as [_ Hload].
  split; [exact Hup | apply Hload].
Defined.

(** ** Alerting ([createPriceAlert]) *)

Section Alerting.
Import Schema DbHelpers.
Open Scope Q_scope.

Lemma alertTypeOf_lower (diff : Q) : diff < 0 -> alertTypeOf diff = price_lower.
Proof.
  intros H. unfold alertTypeOf. destruct (Qlt_le_dec diff 0); [reflexivity|lra].
Qed.

Lemma alertTypeOf_not_lower (diff : Q) :
  0 <= diff -> alertTypeOf diff <> price_lower.
Proof.
  intros H. unfold alertTypeOf.
  destruct (Qlt_le_dec diff 0); [lra|].
  destruct (Qlt_le_dec 0 diff); discriminate.
Qed.

(** The row an update leaves in place of [a]. *)
Lemma createPriceAlert_update (now userId hotelId : Z) (date : string)
    (userPrice competitorPrice : Q) (d : Db)
    (existing : AlertRow) (others : list AlertRow) :
  competitorPrice - userPrice < 0 ->
  filter (fun a => activeFor userId hotelId date a) (priceAlerts d)
  = existing :: others ->
  createPriceAlert true now userId hotelId date userPrice competitorPrice d
  = (Js.Ret tt,
     set_priceAlerts (map (fun a =>
       if (a_id a =? a_id existing)%Z then
         mkAlert (a_id a) (a_userId a) (a_hotelId a) (a_date a)
                 (a_userPrice a) competitorPrice
                 (competitorPrice - userPrice) price_lower (a_isActive a)
                 now (a_dismissedAt a)
       else a)) d).
Proof.
  intros Hlt Hex.
  cbv beta delta [createPriceAlert require_db Js.bind Js.get Js.modify
                  Js.ret Js.throw].
  cbn beta iota zeta. rewrite (alertTypeOf_lower _ Hlt). cbn beta iota zeta.
  rewrite Hex. reflexivity.
Qed.

Lemma createPriceAlert_insert (now userId hotelId : Z) (date : string)
    (userPrice competitorPrice : Q) (d : Db) :
  competitorPrice - userPrice < 0 ->
  filter (fun a => activeFor userId hotelId date a) (priceAlerts d) = [] ->
  createPriceAlert true now userId hotelId date userPrice competitorPrice d
  = (Js.Ret tt,
     set_priceAlerts (fun t => t ++
       [mkAlert (next_id a_id t) userId hotelId date userPrice
                competitorPrice (competitorPrice - userPrice) price_lower
                1 now None]) d).
Proof.
  intros Hlt Hex.
  cbv beta delta [createPriceAlert require_db Js.bind Js.get Js.modify
                  Js.ret Js.throw].
  cbn beta iota zeta. rewrite (alertTypeOf_lower _ Hlt). cbn beta iota zeta.
  rewrite Hex. reflexivity.
Qed.

Lemma createPriceAlert_skip (now userId hotelId : Z) (date : string)
    (userPrice competitorPrice : Q) (d : Db) :
  0 <= competitorPrice - userPrice ->
  createPriceAlert true now userId hotelId date userPrice competitorPrice d
  = (Js.Ret tt, d).
Proof.
  intros Hge.
  cbv beta delta [createPriceAlert require_db Js.bind Js.get Js.modify
                  Js.ret Js.throw].
  cbn beta iota zeta.
  pose proof (alertTypeOf_not_lower _ Hge) as Hne.
  destruct (alertTypeOf (competitorPrice - userPrice));
    [contradiction|reflexivity|reflexivity].
Qed.

(** The update keeps the key and the activity of every row. *)
Lemma update_keeps_active (userId hotelId : Z) (date : string)
    (k : Z) (cp diff : Q) (ty : AlertType) (now : Z) (t : list AlertRow) :
  filter (fun a => activeFor userId hotelId date a)
    (map (fun a =>
       if (a_id a =? k)%Z then
         mkAlert (a_id a) (a_userId a) (a_hotelId a) (a_date a)
                 (a_userPrice a) cp diff ty (a_isActive a) now
                 (a_dismissedAt a)
       else a) t)
  = map (fun a =>
       if (a_id a =? k)%Z then
         mkAlert (a_id a) (a_userId a) (a_hotelId a) (a_date a)
                 (a_userPrice a) cp diff ty (a_isActive a) now
                 (a_dismissedAt a)
       else a)
      (filter (fun a => activeFor userId hotelId date a) t).
Proof.
  induction t as [|a t IH]; [reflexivity|].
  cbn [map]. rewrite !filter_cons.
  assert (Hsame :
    activeFor userId hotelId date
      (if (a_id a =? k)%Z then
         mkAlert (a_id a) (a_userId a) (a_hotelId a) (a_date a)
                 (a_userPrice a) cp diff ty (a_isActive a) now
                 (a_dismissedAt a)
       else a)
    = activeFor userId hotelId date a).
  { destruct (a_id a =? k)%Z; reflexivity. }
  rewrite Hsame.
  destruct (activeFor userId hotelId date a); cbn; rewrite IH; reflexivity.
Qed.



End Alerting.

(** ** Run telemetry ([SyncMonitor]) *)

Section Telemetry.
Import SyncMonitor.

(** The window after one more duration: the last hundred of the longer
    history. *)
Lemma window_push (l : list Z) (x : Z) :
  let pushed := drop (length l - 100) l ++ [x] in
  (if (100 <? Z.of_nat (length pushed)) then tail pushed else pushed)
  = drop (length (l ++ [x]) - 100) (l ++ [x]).
Proof.
  cbv zeta. rewrite !length_app, length_drop. cbn [length].
  destruct (Z.ltb_spec 100 (Z.of_nat (length l - (length l - 100) + 1)))
    as [Hbig|Hsmall].
  - assert (Hl : (100 <= length l)%nat) by lia.
    replace (length l + 1 - 100)%nat with (length l - 100 + 1)%nat by lia.
    rewrite drop_app_le by lia.
    rewrite <- (drop_drop l 1 (length l - 100)).
    destruct (drop (length l - 100) l) eqn:Hd; [|reflexivity].
    apply (f_equal length) in Hd. rewrite length_drop in Hd. cbn in Hd. lia.
  - assert (Hl : (length l < 100)%nat) by lia.
    replace (length l - 100)%nat with 0%nat by lia.
    replace (length l + 1 - 100)%nat with 0%nat by lia.
    reflexivity.
Qed.

Lemma endCycles_snoc (calls : list Call) (c : Call) (m : Monitor) :
  endCycles (calls ++ [c]) m
  = endCycle (at_now c) (at_now' c) (arg_startTime c) (arg_success c)
             (arg_itemsProcessed c) (endCycles calls m).
Proof. unfold endCycles. rewrite fold_left_app. reflexivity. Qed.

(** What a monitor holds after any sequence of calls since [reset]. *)
Lemma endCycles_invariant (t0 : Z) (calls : list Call) :
  let m := endCycles calls (reset t0) in
  totalCycles (stats m) = Z.of_nat (length calls)
  /\ successfulCycles (stats m)
     = Z.of_nat (length (filter (fun c => arg_success c) calls))
  /\ cycleDurations m
     = drop (length calls - 100) (map call_duration calls)
  /\ (calls <> [] ->
      averageCycleDuration (stats m)
      = (inject_Z (sum (cycleDurations m))
         / inject_Z (Z.of_nat (length (cycleDurations m))))%Q).
Proof.
  induction calls as [|c calls IH] using rev_ind.
  - cbn. split; [reflexivity|]. split; [reflexivity|].
    split; [reflexivity|]. intros Hne. destruct (Hne eq_refl).
  - cbv zeta in *. rewrite endCycles_snoc.
    destruct IH as (Htot & Hsucc & Hwin & _).
    set (m := endCycles calls (reset t0)) in *.
    unfold endCycle. cbn [stats cycleDurations totalCycles successfulCycles
                          averageCycleDuration].
    rewrite Htot, Hsucc, Hwin.
    rewrite length_app, filter_app, length_app, map_app. cbn [length map].
    rewrite <- (length_map call_duration calls).
    fold (call_duration c).
    rewrite (window_push (map call_duration calls) (call_duration c)).
    rewrite length_app. cbn [length].
    split; [lia|]. split.
    { rewrite filter_cons, filter_nil.
      destruct (decide _) as [Hs|Hs]; destruct (arg_success c);
        cbn in Hs |- *; try lia; tauto. }
    split; [reflexivity|]. intros _. reflexivity.
Qed.

(** C9.  After any sequence of [endCycle] calls on a fresh monitor,
    [getFormattedStats] shows as [successRate] the number of successful
    cycles over the number of cycles, times one hundred, each of the two
    operations rounded as a double, with two decimals and a percent sign
    -- and "0%" when there has been no cycle.  The durations kept are the
    last hundred at most; [averageCycleDuration] is their sum over their
    number, shown in seconds with two decimals.  The roundings show: 23
    successes in 160 cycles are 14.375 per cent and are shown as
    "14.37%". *)
Theorem getFormattedStats_rate_and_window (t0 : Z) (calls : list Call)
    (toLocaleString : Z -> string) (now : Z) :
  let m := endCycles calls (reset t0) in
  let shown := getFormattedStats toLocaleString now m in
  let total := Z.of_nat (length calls) in
  let successful :=
    Z.of_nat (length (filter (fun c => arg_success c) calls)) in
  f_totalCycles shown = total
  /\ f_successfulCycles shown = successful
  /\ (calls = [] -> f_successRate shown = "0%")
  /\ (calls <> [] ->
      f_successRate shown
      = String.append
          (toFixed2 (Js.fl64 (Js.fl64 (inject_Z successful / inject_Z total)
                              * 100))%Q) "%")
  /\ cycleDurations m = drop (length calls - 100) (map call_duration calls)
  /\ (length (cycleDurations m) <= 100)%nat
  /\ (calls <> [] ->
      averageCycleDuration (stats m)
      = (inject_Z (sum (cycleDurations m))
         / inject_Z (Z.of_nat (length (cycleDurations m))))%Q)
  /\ f_averageCycleDuration shown
     = String.append
         (toFixed2 (Js.fl64 (Js.fl64 (averageCycleDuration (stats m)) / 1000))%Q)
         "s"
  /\ toFixed2 (Js.fl64 (Js.fl64 (23 / 160) * 100))%Q = "14.37"
  /\ toFixed2 (23 / 160 * 100)%Q = "14.38".
Proof.
  intros m shown total successful.
  destruct (endCycles_invariant t0 calls) as (Htot & Hsucc & Hwin & Havg).
  fold m in Htot, Hsucc, Hwin, Havg.
  unfold shown, getFormattedStats.
  cbn [f_totalCycles f_successfulCycles f_successRate f_averageCycleDuration].
  rewrite Htot, Hsucc. fold total. fold successful.
  split; [reflexivity|]. split; [reflexivity|].
  split.
  { intros ->. reflexivity. }
  split.
  { intros Hne.
    assert (Hpos : 0 < total).
    { unfold total. destruct calls; [contradiction|]. cbn [length]. lia. }
    apply Z.ltb_lt in Hpos. rewrite Hpos. reflexivity. }
  split; [exact Hwin|].
  split.
  { rewrite Hwin, length_drop, length_map. lia. }
  split; [exact Havg|].
  split; [reflexivity|].
  split; vm_compute; reflexivity.
Qed.

(** Twenty-three successes in one hundred and sixty cycles are shown as
    14.37%; four cycles of 100, 200, 300 and 50 ms average 0.16s; one
    cycle of 15 ms averages 0.01s, the double nearest to 0.015 lying below
    it; of one hundred and fifty cycles the window keeps one hundred. *)
Lemma getFormattedStats_rate_and_window_witness :
  let four := [mkCall 150 150 50 true 10; mkCall 350 350 150 true 10;
               mkCall 650 650 350 true 10; mkCall 700 700 650 false 0] in
  let many := repeat (mkCall 10 10 0 true 0) 23
              ++ repeat (mkCall 10 10 0 false 0) 137 in
  f_successRate (getFormattedStats (fun _ => EmptyString) 1000
                   (endCycles many (reset 0)))
  = "14.37%"
  /\ f_averageCycleDuration (getFormattedStats (fun _ => EmptyString) 1000
                               (endCycles four (reset 0)))
     = "0.16s"
  /\ f_averageCycleDuration (getFormattedStats (fun _ => EmptyString) 1000
                               (endCycles [mkCall 15 15 0 true 0] (reset 0)))
     = "0.01s"
  /\ length (cycleDurations
               (endCycles (repeat (mkCall 10 10 0 true 0) 150) (reset 0)))
     = 100%nat.
Proof.
  intros four many.
  destruct (getFormattedStats_rate_and_window 0 [mkCall 15 15 0 true 0]
              (fun _ => EmptyString) 1000)
    as (_ & _ & _ & _ & _ & _ & _ & Hone & _).
  destruct (getFormattedStats_rate_and_window 0 many (fun _ => EmptyString) 1000)
    as (_ & _ & _ & Hrate & _).
  destruct (getFormattedStats_rate_and_window 0 four (fun _ => EmptyString) 1000)
    as (_ & _ & _ & _ & _ & _ & _ & Havg & _).
  destruct (getFormattedStats_rate_and_window 0
              (repeat (mkCall 10 10 0 true 0) 150) (fun _ => EmptyString) 1000)
    as (_ & _ & _ & _ & Hwin & _).
  split; [|split; [|split]].
  - rewrite Hrate by discriminate. vm_compute. reflexivity.
  - rewrite Havg. vm_compute. reflexivity.
  - rewrite Hone. vm_compute. reflexivity.
  - rewrite Hwin. reflexivity.
Defined.

End Telemetry.

(** * Further properties of the modelled code *)

(** ** Date formats ([formatDateToISO], [formatDateToDDMMYYYY]) *)

Section DateFormats.
Import DataProcessor.

Lemma rev_app_rev_app (s a b : string) :
  String.rev_app (String.rev_app s a) b = String.rev_app a (String.append s b).
Proof.
  revert a b. induction s as [|c s IH]; intros a b; cbn; [reflexivity|].
  rewrite IH. reflexivity.
Qed.

Lemma append_cons (c : ascii) (s r : string) :
  String.append (String c s) r = String c (String.append s r).
Proof. reflexivity. Qed.

Lemma append_nil_r (s : string) : String.append s EmptyString = s.
Proof.
  induction s as [|c s IH]; [reflexivity|].
  rewrite append_cons. f_equal. exact IH.
Qed.


(** A part without separator is consumed whole. *)
Lemma split_go_part (sep : ascii) (s rest cur : string) :
  (forall c, In c (String.list_ascii_of_string s) -> c <> sep) ->
  Js.split_go sep (String.append s rest) cur
  = Js.split_go sep rest (String.rev_app s cur).
Proof.
  revert cur. induction s as [|c s IH]; intros cur Hs; [reflexivity|].
  rewrite append_cons. cbn [Js.split_go String.rev_app].
  destruct (Ascii.eqb_spec c sep) as [->|Hne].
  - destruct (Hs sep); [left; reflexivity|reflexivity].
  - apply IH. intros c' Hc'. apply Hs. right. exact Hc'.
Qed.

Lemma split_last (sep : ascii) (s : string) :
  (forall c, In c (String.list_ascii_of_string s) -> c <> sep) ->
  Js.split sep s = [s].
Proof.
  intros Hs. unfold Js.split.
  replace (Js.split_go sep s EmptyString)
    with (Js.split_go sep (String.append s EmptyString) EmptyString)
    by (rewrite append_nil_r; reflexivity).
  rewrite (split_go_part sep s EmptyString EmptyString Hs). cbn.
  unfold String.rev. rewrite rev_app_rev_app. cbn.
  rewrite append_nil_r. reflexivity.
Qed.

Lemma split_part (sep : ascii) (s rest : string) :
  (forall c, In c (String.list_ascii_of_string s) -> c <> sep) ->
  Js.split sep (String.append s (String sep rest)) = s :: Js.split sep rest.
Proof.
  intros Hs. unfold Js.split.
  rewrite (split_go_part sep s (String sep rest) EmptyString Hs). cbn.
  rewrite Ascii.eqb_refl.
  unfold String.rev. rewrite rev_app_rev_app. cbn.
  rewrite append_nil_r. reflexivity.
Qed.

Lemma padStart2_chars (s : string) (sep : ascii) :
  sep <> "0"%char ->
  (forall c, In c (String.list_ascii_of_string s) -> c <> sep) ->
  forall c, In c (String.list_ascii_of_string (Js.padStart2 s)) -> c <> sep.
Proof.
  intros H0 Hs c. unfold Js.padStart2.
  destruct s as [|a [|b s]]; cbn.
  - intros [<-|[<-|[]]]; congruence.
  - intros [<-|[<-|[]]]; [congruence|]. apply Hs. left. reflexivity.
  - intros Hc. apply Hs. exact Hc.
Qed.

Lemma padStart2_long (s : string) :
  (2 <= String.length s)%nat -> Js.padStart2 s = s.
Proof.
  unfold Js.padStart2. destruct s as [|a [|b s]]; cbn; [lia|lia|reflexivity].
Qed.

(** X1.  For a date whose three parts hold neither a slash nor a dash,
    [formatDateToISO] never throws and gives year-month-day with day and
    month padded to two characters, and [formatDateToDDMMYYYY] takes that
    back to day/month/year: to the very string one started from when day
    and month have two characters or more. *)
Theorem formatDate_round_trip (day month year : string) (S : Type) (s : S) :
  (forall c, In c (String.list_ascii_of_string day) ->
             c <> "/"%char /\ c <> "-"%char) ->
  (forall c, In c (String.list_ascii_of_string month) ->
             c <> "/"%char /\ c <> "-"%char) ->
  (forall c, In c (String.list_ascii_of_string year) ->
             c <> "/"%char /\ c <> "-"%char) ->
  let dmy := String.append day (String "/"%char
               (String.append month (String "/"%char year))) in
  let iso := String.append year (String "-"%char
               (String.append (Js.padStart2 month) (String "-"%char
                  (Js.padStart2 day)))) in
  @formatDateToISO S dmy s = (Js.Ret iso, s)
  /\ formatDateToDDMMYYYY iso
     = String.append (Js.padStart2 day) (String "/"%char
         (String.append (Js.padStart2 month) (String "/"%char year)))
  /\ ((2 <= String.length day)%nat -> (2 <= String.length month)%nat ->
      formatDateToDDMMYYYY iso = dmy).
Proof.
  intros Hd Hm Hy dmy iso.
  assert (Hiso : formatDateToDDMMYYYY iso
                 = String.append (Js.padStart2 day) (String "/"%char
                     (String.append (Js.padStart2 month)
                        (String "/"%char year)))).
  { unfold formatDateToDDMMYYYY, iso.
    rewrite split_part by (intros c Hc; apply Hy, Hc).
    rewrite split_part
      by (apply padStart2_chars; [discriminate|intros c Hc; apply Hm, Hc]).
    rewrite split_last
      by (apply padStart2_chars; [discriminate|intros c Hc; apply Hd, Hc]).
    reflexivity. }
  split; [|split].
  - unfold formatDateToISO, dmy.
    rewrite split_part by (intros c Hc; apply Hd, Hc).
    rewrite split_part by (intros c Hc; apply Hm, Hc).
    rewrite split_last by (intros c Hc; apply Hy, Hc).
    reflexivity.
  - exact Hiso.
  - intros Hld Hlm. rewrite Hiso.
    rewrite (padStart2_long day Hld), (padStart2_long month Hlm).
    reflexivity.
Qed.

Lemma formatDate_round_trip_witness :
  @formatDateToISO unit "16/02/2026" tt = (Js.Ret "2026-02-16", tt)
  /\ formatDateToDDMMYYYY "2026-02-16" = "16/02/2026".
Proof.
  assert (Hchars : forall s : string,
             forallb (fun c => negb (Ascii.eqb c "/") && negb (Ascii.eqb c "-"))
                     (String.list_ascii_of_string s) = true ->
             forall c, In c (String.list_ascii_of_string s) ->
                       c <> "/"%char /\ c <> "-"%char).
  { intros s Hall c Hc. rewrite forallb_forall in Hall.
    specialize (Hall c Hc). apply andb_prop in Hall as [H1 H2].
    split; intros ->; discriminate. }
  destruct (formatDate_round_trip "16" "02" "2026" unit tt
              (Hchars "16" eq_refl) (Hchars "02" eq_refl)
              (Hchars "2026" eq_refl)) as (Hiso & _ & Hback).
  split; [exact Hiso|]. apply Hback; cbn; lia.
Defined.

End DateFormats.

(** ** Order and accuracy of the stored base price *)

Section PriceOrder.
Import Schema DataProcessor.
Open Scope Q_scope.

Lemma Math_round_mono (x y : Q) :
  x <= y -> (Js.Math_round x <= Js.Math_round y)%Z.
Proof.
  intros H. unfold Js.Math_round. apply Qfloor_resp_le. lra.
Qed.

(** Each of the three rounded operations keeps the order, and from one
    unit on none of them reaches zero. *)
Lemma calculateActualPrice_mono (p q : Q) :
  1 <= p -> p <= q ->
  1 # 2 <= calculateActualPrice p
  /\ calculateActualPrice p <= calculateActualPrice q.
Proof.
  intros Hp Hpq. unfold calculateActualPrice. rewrite c_1_04998_value.
  set (c := 4728689536746473 # 4503599627370496).
  assert (L1 : 1 # 2 <= Js.fl64 (1 / c)) by (vm_compute; discriminate).
  assert (P0 : 0 < 1 / c) by reflexivity.
  assert (M0 : 1 / c <= p / c) by (unfold c; qlra).
  assert (M0' : p / c <= q / c) by (unfold c; qlra).
  pose proof (fl64_mono _ _ P0 M0) as M1.
  pose proof (fl64_mono (p / c) (q / c) ltac:(lra) M0') as M1'.
  set (tp := Js.fl64 (p / c)) in *. set (tq := Js.fl64 (q / c)) in *.
  set (t1 := Js.fl64 (1 / c)) in *. clearbody tp tq t1. clear M0 M0' P0.
  assert (F50 : Js.fl64 50 = 50) by (vm_compute; reflexivity).
  pose proof (fl64_mono 50 (tp * 100) ltac:(lra) ltac:(lra)) as M2.
  rewrite F50 in M2.
  pose proof (fl64_mono (tp * 100) (tq * 100) ltac:(lra) ltac:(lra)) as M2'.
  set (up := Js.fl64 (tp * 100)) in *. set (uq := Js.fl64 (tq * 100)) in *.
  clearbody up uq.
  pose proof (Math_round_mono _ _ M2) as M3.
  change (Js.Math_round 50) with 50%Z in M3.
  pose proof (Math_round_mono _ _ M2') as M3'.
  set (cp := Js.Math_round up) in *. set (cq := Js.Math_round uq) in *.
  clearbody cp cq.
  q_of_z M3. q_of_z M3'.
  assert (Fh : Js.fl64 (1 # 2) = 1 # 2) by (vm_compute; reflexivity).
  pose proof (fl64_mono (1 # 2) (inject_Z cp / 100) ltac:(lra) ltac:(qlra))
    as M4.
  rewrite Fh in M4.
  pose proof (fl64_mono (inject_Z cp / 100) (inject_Z cq / 100)
                ltac:(qlra) ltac:(qlra)) as M4'.
  split; assumption.
Qed.

(** From one unit on the price is stored: neither the display price nor
    the base price is falsy. *)
Lemma persisted_from_one (p : Q) :
  1 <= p ->
  persistedActualPrice (Some p)
  = Some (Js.Math_round (calculateActualPrice p))
  /\ (1 <= Js.Math_round (calculateActualPrice p))%Z.
Proof.
  intros Hp.
  destruct (calculateActualPrice_mono p p Hp ltac:(lra)) as [Hpos _].
  unfold persistedActualPrice.
  rewrite truthy_pos by lra. rewrite truthy_pos by lra.
  split; [reflexivity|].
  apply Math_round_mono in Hpos.
  change (Js.Math_round (1 # 2)) with 1%Z in Hpos. exact Hpos.
Qed.

(** X2.  The stored base price preserves the order of display prices: from
    one currency unit on, a display price that is not higher is never
    stored as a higher base price. *)
Theorem persistedActualPrice_monotone (p q : Q) :
  1 <= p -> p <= q ->
  exists a b,
    persistedActualPrice (Some p) = Some a
    /\ persistedActualPrice (Some q) = Some b
    /\ (a <= b)%Z.
Proof.
  intros Hp Hpq.
  destruct (persisted_from_one p Hp) as [Ha _].
  destruct (persisted_from_one q) as [Hb _]; [lra|].
  do 2 eexists. split; [exact Ha|]. split; [exact Hb|].
  apply Math_round_mono.
  apply (calculateActualPrice_mono p q Hp Hpq).
Qed.

Lemma persistedActualPrice_monotone_witness :
  exists a b,
    persistedActualPrice (Some 210) = Some a
    /\ persistedActualPrice (Some 300) = Some b
    /\ (a <= b)%Z.
Proof.
  apply (persistedActualPrice_monotone 210 300); discriminate.
Defined.

(** X3.  For a whole display price [n] from 1 to 100 000 000 the stored
    base price lies within 0.505 of [n / 1.04998], and it is a whole
    number from 1 to [n]: never null, never zero and never above the price
    displayed. *)
Theorem persistedActualPrice_accuracy (n : Z) :
  (1 <= n <= 100000000)%Z ->
  exists a,
    persistedActualPrice (Some (inject_Z n)) = Some a
    /\ - (101 # 200) <= inject_Z a - inject_Z n / 1.04998 <= 101 # 200
    /\ (1 <= a <= n)%Z.
Proof.
  intros Hn.
  eexists. split; [apply (persisted_cents n Hn)|].
  assert (Hn1 := proj1 Hn). q_of_z Hn1.
  destruct (Math_round_bounds (inject_Z n / 1.04998 * 100)) as [Clo Chi].
  set (c := Js.Math_round (inject_Z n / 1.04998 * 100)) in *.
  destruct (Math_round_bounds (inject_Z c / 100)) as [Alo Ahi].
  set (a := Js.Math_round (inject_Z c / 100)) in *.
  split; [split; qlra|].
  assert (Hc94 : (94 < c)%Z) by z_by_q.
  assert (Hc95 : (95 <= c)%Z) by lia.
  assert (Hcn : (c < 100 * n + 1)%Z) by z_by_q.
  assert (Hcn' : (c <= 100 * n)%Z) by lia.
  q_of_z Hc95. q_of_z Hcn'.
  split.
  - assert (H0 : (0 < a)%Z) by z_by_q. lia.
  - assert (H1 : (a < n + 1)%Z) by z_by_q. lia.
Qed.

Lemma persistedActualPrice_accuracy_witness :
  exists a,
    persistedActualPrice (Some (inject_Z 1103)) = Some a /\ (1 <= a <= 1103)%Z.
Proof.
  destruct (persistedActualPrice_accuracy 1103) as (a & Ha & _ & Hn); [lia|].
  exists a. split; [exact Ha|exact Hn].
Defined.

End PriceOrder.

(** ** Hotels and stored observations *)

Section HotelsAndHistory.
Import Schema DataProcessor DbHelpers.

Lemma next_id_fresh {R} (key : R -> Z) (rows : list R) :
  ~ In (next_id key rows) (map key rows).
Proof.
  intros Hin. apply in_map_iff in Hin as (r & Hk & Hr).
  apply (next_id_above key) in Hr. lia.
Qed.

Lemma NoDup_snoc {A} (l : list A) (x : A) :
  List.NoDup l -> ~ In x l -> List.NoDup (l ++ [x]).
Proof.
  intros Hl Hx. apply NoDup_ListNoDup. apply NoDup_ListNoDup in Hl.
  apply NoDup_app. split; [exact Hl|]. split.
  - intros y Hy Hy'. apply list_elem_of_In in Hy.
    apply list_elem_of_singleton in Hy'. subst y. contradiction.
  - apply NoDup_singleton.
Qed.

(** X4.  [getOrCreateHotel] adds a row only when no row carries the
    requested [hotelId], and then one row, at the end -- what it returns
    then is the driver's header with the key of that row, not the key;
    when a row carries the [hotelId], the key of the first such row is
    returned and nothing changes.  Either way a row with that [hotelId] is
    there afterwards, asking again for the same [hotelId] (under any name)
    returns the key of that row and changes nothing, and both the keys and
    the [hotelId]s of the table stay free of duplicates. *)
Theorem getOrCreateHotel_idempotent (hotelName otherName hotelId : string)
    (d : Db) :
  exists k d' added r,
    getOrCreateHotel true hotelName hotelId d = (Js.Ret k, d')
    /\ d' = set_hotels (fun t => t ++ added) d
    /\ (length added <= 1)%nat
    /\ (added = [] <->
        exists r0, In r0 (hotels d) /\ h_hotelId r0 = hotelId)
    /\ (added = [] -> k = Key (h_id r))
    /\ (added <> [] -> k = Header (h_id r))
    /\ In r (hotels d') /\ h_hotelId r = hotelId
    /\ getOrCreateHotel true otherName hotelId d'
       = (Js.Ret (Key (h_id r)), d')
    /\ (List.NoDup (map h_hotelId (hotels d)) ->
        List.NoDup (map h_hotelId (hotels d')))
    /\ (List.NoDup (map h_id (hotels d)) ->
        List.NoDup (map h_id (hotels d'))).
Proof.
  cbv beta delta [getOrCreateHotel require_db Js.bind Js.get Js.modify Js.ret].
  cbn beta iota zeta.
  destruct (filter (fun r => bool_decide (h_hotelId r = hotelId)) (hotels d))
    as [|r rest] eqn:Hf.
  - set (new := mkHotel (next_id h_id (hotels d)) hotelName hotelId "Makkah").
    exists (Header (next_id h_id (hotels d))),
           (set_hotels (fun t => t ++ [new]) d), [new], new.
    split; [reflexivity|]. split; [reflexivity|]. split; [cbn; lia|].
    split.
    { split; [discriminate|]. intros (r0 & Hin & Hr0). exfalso.
      apply list_elem_of_In in Hin.
      apply (filter_nil_not_elem_of _ _ r0 Hf); [|exact Hin].
      cbn. rewrite bool_decide_eq_true_2 by exact Hr0. exact I. }
    split; [discriminate|].
    split; [reflexivity|].
    split; [cbn; apply in_or_app; right; left; reflexivity|].
    split; [reflexivity|].
    split.
    { cbn [hotels set_hotels]. rewrite filter_app, Hf.
      cbn [app]. rewrite filter_cons, filter_nil.
      destruct (decide _) as [_|Hn]; [reflexivity|].
      exfalso. apply Hn. cbn. rewrite bool_decide_eq_true_2 by reflexivity.
      exact I. }
    cbn [hotels set_hotels]. rewrite !map_app. cbn [map].
    split; intros Hnd; apply NoDup_snoc; try exact Hnd.
    + cbn. intros Hin. apply in_map_iff in Hin as (r & Hr & Hin).
      apply list_elem_of_In in Hin.
      apply (filter_nil_not_elem_of _ _ r Hf); [|exact Hin].
      cbn. rewrite bool_decide_eq_true_2 by exact Hr. exact I.
    + apply next_id_fresh.
  - exists (Key (h_id r)), d, [], r. split; [reflexivity|].
    assert (Hr : r ∈ filter (fun r => bool_decide (h_hotelId r = hotelId))
                     (hotels d)) by (rewrite Hf; left).
    apply list_elem_of_filter in Hr as [Hid Hin].
    apply bool_decide_unpack in Hid. apply list_elem_of_In in Hin.
    split.
    { destruct d. unfold set_hotels. cbn. rewrite app_nil_r. reflexivity. }
    split; [cbn; lia|].
    split; [split; [intros _; exists r; auto|reflexivity]|].
    split; [reflexivity|].
    split; [intros Hne; destruct (Hne eq_refl)|].
    split; [exact Hin|]. split; [exact Hid|].
    split; [rewrite Hf; reflexivity|].
    split; auto.
Qed.

(** Asked twice for a hotel that the table does not have, the second call
    returns the key of the row that the first one made. *)
Lemma getOrCreateHotel_idempotent_witness :
  exists k d' added r,
    getOrCreateHotel true "VOCO" "voco" emptyDb = (Js.Ret k, d')
    /\ d' = set_hotels (fun t => t ++ added) emptyDb
    /\ length added = 1%nat
    /\ In r (hotels d')
    /\ getOrCreateHotel true "Voco Makkah" "voco" d'
       = (Js.Ret (Key (h_id r)), d').
Proof.
  destruct (getOrCreateHotel_idempotent "VOCO" "Voco Makkah" "voco" emptyDb)
    as (k & d' & added & r & Hrun & Hd & Hlen & Hiff & _ & _ & Hin & _
        & Hagain & _).
  exists k, d', added, r. split; [exact Hrun|]. split; [exact Hd|].
  split; [|split; [exact Hin|exact Hagain]].
  destruct added as [|a [|b added]]; [|reflexivity|cbn in Hlen; lia].
  destruct (proj1 Hiff eq_refl) as (r0 & [] & _).
Defined.

(** X5.  What [savePriceHistory] writes, [getPriceHistory] reads back: the
    history of the hotel grows by one entry at its end, with the date, the
    display price, the normalised price and the availability that were
    saved, while the history of any other hotel is unchanged.  The two
    dates of the request play no part: the new entry is returned for every
    start and end date. *)
Theorem getPriceHistory_after_save (hotelId asked : Z) (date : string)
    (displayPrice : option Q) (available : bool)
    (startDate endDate : string) (d : Db) :
  exists before d',
    savePriceHistory true hotelId date displayPrice available d
    = (Js.Ret tt, d')
    /\ getPriceHistory true asked startDate endDate d = (Js.Ret before, d)
    /\ getPriceHistory true asked startDate endDate d'
       = (Js.Ret (if asked =? hotelId
                  then before ++ [mkEntry date displayPrice
                                    (persistedActualPrice displayPrice)
                                    available]
                  else before), d').
Proof.
  do 2 eexists. split; [apply savePriceHistory_row|].
  cbv beta delta [getPriceHistory require_db Js.bind Js.get Js.ret].
  cbn beta iota zeta. split; [reflexivity|].
  cbn [priceHistory set_priceHistory].
  rewrite filter_app, map_app, filter_cons, filter_nil. cbn [ph_hotelId].
  rewrite (Z.eqb_sym asked hotelId).
  destruct (decide _) as [Hy|Hn].
  - destruct (hotelId =? asked); [|destruct Hy].
    cbn. destruct available; reflexivity.
  - destruct (hotelId =? asked); [destruct Hn; exact I|].
    cbn. rewrite app_nil_r. reflexivity.
Qed.

(** X6.  A first observation saved for a (hotel, date) is what
    [getCompetitorBasePrice] answers afterwards: before the save it answers
    null; after it, the stored normalised price, read as null when that
    price is null or zero; for a display price of one unit or more, exactly
    the stored normalised price. *)
Theorem getCompetitorBasePrice_after_save (hotelId : Z) (date : string)
    (displayPrice : option Q) (available : bool) (d : Db) :
  filter (fun ph => (ph_hotelId ph =? hotelId)
                    && bool_decide (ph_date ph = date)) (priceHistory d)
  = [] ->
  exists d',
    savePriceHistory true hotelId date displayPrice available d
    = (Js.Ret tt, d')
    /\ getCompetitorBasePrice true hotelId date d = (Js.Ret None, d)
    /\ getCompetitorBasePrice true hotelId date d'
       = (Js.Ret (match persistedActualPrice displayPrice with
                  | Some a => if a =? 0 then None else Some a
                  | None => None
                  end), d')
    /\ (forall p, displayPrice = Some p -> (1 <= p)%Q ->
        getCompetitorBasePrice true hotelId date d'
        = (Js.Ret (persistedActualPrice (Some p)), d')).
Proof.
  intros Hnone.
  eexists. split; [apply savePriceHistory_row|].
  cbv beta delta [getCompetitorBasePrice require_db Js.bind Js.get Js.ret].
  cbn beta iota zeta. rewrite Hnone.
  split; [reflexivity|].
  cbn [priceHistory set_priceHistory].
  rewrite filter_app, Hnone. cbn [app].
  rewrite filter_cons, filter_nil. cbn [ph_hotelId ph_date].
  rewrite Z.eqb_refl, bool_decide_eq_true_2 by reflexivity.
  destruct (decide _) as [_|Hn]; [|destruct Hn; exact I].
  cbn [ph_actualPrice].
  assert (Hpos : forall p a, displayPrice = Some p -> (1 <= p)%Q ->
                        persistedActualPrice displayPrice = Some a -> 0 < a).
  { intros p a -> Hp Ha.
    destruct (persisted_from_one p Hp) as [Hval Hc].
    rewrite Hval in Ha. injection Ha as <-. lia. }
  destruct (persistedActualPrice displayPrice) as [a|] eqn:Hval.
  - destruct (Z.eqb_spec a 0) as [->|Hne].
    + split; [reflexivity|]. intros p Hd Hp.
      specialize (Hpos p 0 Hd Hp eq_refl). lia.
    + split; [reflexivity|]. intros p Hd Hp. subst displayPrice.
      rewrite Hval. reflexivity.
  - split; [reflexivity|]. intros p Hd Hp. subst displayPrice.
    rewrite Hval. reflexivity.
Qed.

Lemma getCompetitorBasePrice_after_save_witness :
  exists d',
    savePriceHistory true 3 "2026-02-16" (Some 210%Q) true emptyDb
    = (Js.Ret tt, d')
    /\ getCompetitorBasePrice true 3 "2026-02-16" d' = (Js.Ret (Some 200), d').
Proof.
  destruct (getCompetitorBasePrice_after_save 3 "2026-02-16" (Some 210%Q)
              true emptyDb eq_refl) as (d' & Hsave & _ & Hget & _).
  exists d'. split; [exact Hsave|exact Hget].
Defined.

(** X7.  Rows being read in the order they were inserted, the first
    observation stored for a (hotel, date) keeps answering: once such a row
    exists, saving a further observation for the same cell does not change
    what [getCompetitorBasePrice] returns. *)
Theorem getCompetitorBasePrice_first_row_wins (hotelId : Z) (date : string)
    (displayPrice : option Q) (available : bool) (d : Db)
    (first : PriceHistoryRow) (others : list PriceHistoryRow) :
  filter (fun ph => (ph_hotelId ph =? hotelId)
                    && bool_decide (ph_date ph = date)) (priceHistory d)
  = first :: others ->
  exists d',
    savePriceHistory true hotelId date displayPrice available d
    = (Js.Ret tt, d')
    /\ fst (getCompetitorBasePrice true hotelId date d')
       = fst (getCompetitorBasePrice true hotelId date d).
Proof.
  intros Hfirst.
  eexists. split; [apply savePriceHistory_row|].
  cbv beta delta [getCompetitorBasePrice require_db Js.bind Js.get Js.ret].
  cbn beta iota zeta. cbn [priceHistory set_priceHistory].
  rewrite filter_app, Hfirst. cbn [app].
  destruct (ph_actualPrice first) as [a|]; [|reflexivity].
  destruct (a =? 0); reflexivity.
Qed.

Lemma getCompetitorBasePrice_first_row_wins_witness :
  let d := mkDb [] [mkPrice 1 3 "2026-02-16" (Some 210%Q) (Some 200) "SAR" 1]
                [] [] [] in
  exists d',
    savePriceHistory true 3 "2026-02-16" (Some 420%Q) true d = (Js.Ret tt, d')
    /\ fst (getCompetitorBasePrice true 3 "2026-02-16" d')
       = Js.Ret (Some 200).
Proof.
  intros d.
  destruct (getCompetitorBasePrice_first_row_wins 3 "2026-02-16"
              (Some 420%Q) true d
              (mkPrice 1 3 "2026-02-16" (Some 210%Q) (Some 200) "SAR" 1) []
              eq_refl) as (d' & Hsave & Hget).
  exists d'. split; [exact Hsave|]. rewrite Hget. reflexivity.
Defined.

End HotelsAndHistory.

(** ** What a sync run leaves behind *)

Section SyncRunFrame.
Import Schema DataProcessor Scheduler.

Lemma filter_head_in {A} (P : A -> bool) (l : list A) (r : A) (rest : list A) :
  filter (fun x => P x) l = r :: rest -> In r l.
Proof.
  intros Hf.
  assert (Hr : r ∈ filter (fun x => P x) l) by (rewrite Hf; left).
  apply list_elem_of_filter in Hr as [_ Hin]. apply list_elem_of_In. exact Hin.
Qed.

Lemma hotel_filter_in (i : string) (l : list HotelRow) (r : HotelRow)
    (rest : list HotelRow) :
  filter (fun r => bool_decide (h_hotelId r = i)) l = r :: rest ->
  In (h_id r) (map h_id l).
Proof.
  intros Hf. apply in_map.
  exact (filter_head_in (fun r => bool_decide (h_hotelId r = i)) l r rest Hf).
Qed.

(** A cell appends as many price rows as it adds to [successCount], each
    under the key of a hotel row; hotels are only added; nothing else is
    touched. *)
Lemma syncCell_frame (env : Env) (hotel : Hotel) (dateStr : string) (s : St) :
  exists s' rows,
    syncCell env hotel dateStr s = (Js.Ret tt, s')
    /\ priceHistory (db s') = priceHistory (db s) ++ rows
    /\ Z.of_nat (length rows) = okCount s' - okCount s
    /\ errCount s <= errCount s'
    /\ (forall row, In row rows ->
        In (ph_hotelId row) (map h_id (hotels (db s'))))
    /\ incl (map h_id (hotels (db s))) (map h_id (hotels (db s')))
    /\ syncLogs (db s') = syncLogs (db s)
    /\ webbedCredentials (db s') = webbedCredentials (db s)
    /\ priceAlerts (db s') = priceAlerts (db s).
Proof.
  cbv beta delta [syncCell Js.try_catch Js.bind with_db await getOrCreateHotel
    savePriceHistory_for savePriceHistory require_db formatDateToISO
    successCount_incr errorCount_incr Js.modify Js.get Js.ret Js.throw].
  cbn beta iota zeta.
  repeat (break_match; cbn beta iota zeta); simplify_eq;
    (first
       [ eexists; exists []; split; [reflexivity|]; cbn;
         split; [symmetry; apply app_nil_r|]
       | do 2 eexists; split; [reflexivity|]; cbn;
         split; [reflexivity|] ]);
    (split; [cbn; lia|]); (split; [lia|]);
    (split;
     [ intros row Hrow; cbn in Hrow;
       repeat match goal with
              | H : _ \/ _ |- _ => destruct H as [<-|H]
              | H : False |- _ => destruct H
              end;
       cbn;
       first [ eapply hotel_filter_in; eassumption
             | rewrite map_app; apply in_or_app; right; left; reflexivity ]
     | ]);
    (split;
     [ first [ apply incl_refl
             | rewrite map_app; apply incl_appl, incl_refl ]
     | ]);
    auto.
Qed.

Lemma forDates_frame (env : Env) (hotel : Hotel) (dates : list string)
    (s : St) :
  exists s' rows,
    forDates env hotel dates s = (Js.Ret tt, s')
    /\ priceHistory (db s') = priceHistory (db s) ++ rows
    /\ Z.of_nat (length rows) = okCount s' - okCount s
    /\ errCount s <= errCount s'
    /\ (forall row, In row rows ->
        In (ph_hotelId row) (map h_id (hotels (db s'))))
    /\ incl (map h_id (hotels (db s))) (map h_id (hotels (db s')))
    /\ syncLogs (db s') = syncLogs (db s)
    /\ webbedCredentials (db s') = webbedCredentials (db s)
    /\ priceAlerts (db s') = priceAlerts (db s).
Proof.
  revert s. induction dates as [|dateStr rest IH]; intros s.
  - exists s, []. cbn. rewrite app_nil_r.
    split; [reflexivity|]. split; [reflexivity|]. split; [lia|].
    split; [lia|]. split; [intros row []|]. split; [apply incl_refl|].
    repeat split; reflexivity.
  - destruct (syncCell_frame env hotel dateStr s)
      as (s1 & rows1 & H1 & Hh1 & Hn1 & He1 & Hk1 & Hi1 & Hl1 & Hw1 & Ha1).
    destruct (IH s1)
      as (s2 & rows2 & H2 & Hh2 & Hn2 & He2 & Hk2 & Hi2 & Hl2 & Hw2 & Ha2).
    exists s2, (rows1 ++ rows2). cbn [forDates]. unfold Js.bind at 1.
    rewrite H1, H2. split; [reflexivity|].
    split; [rewrite Hh2, Hh1, app_assoc; reflexivity|].
    split; [rewrite length_app, Nat2Z.inj_add; lia|].
    split; [lia|].
    split.
    { intros row Hrow. apply in_app_or in Hrow as [Hrow|Hrow].
      - apply Hi2, Hk1, Hrow.
      - apply Hk2, Hrow. }
    split; [intros k Hk; apply Hi2, Hi1, Hk|].
    repeat split; congruence.
Qed.

Lemma forHotels_frame (env : Env) (tracked : list Hotel) (dates : list string)
    (s : St) :
  exists s' rows,
    forHotels env tracked dates s = (Js.Ret tt, s')
    /\ priceHistory (db s') = priceHistory (db s) ++ rows
    /\ Z.of_nat (length rows) = okCount s' - okCount s
    /\ errCount s <= errCount s'
    /\ (forall row, In row rows ->
        In (ph_hotelId row) (map h_id (hotels (db s'))))
    /\ incl (map h_id (hotels (db s))) (map h_id (hotels (db s')))
    /\ syncLogs (db s') = syncLogs (db s)
    /\ webbedCredentials (db s') = webbedCredentials (db s)
    /\ priceAlerts (db s') = priceAlerts (db s).
Proof.
  revert s. induction tracked as [|hotel rest IH]; intros s.
  - exists s, []. cbn. rewrite app_nil_r.
    split; [reflexivity|]. split; [reflexivity|]. split; [lia|].
    split; [lia|]. split; [intros row []|]. split; [apply incl_refl|].
    repeat split; reflexivity.
  - destruct (forDates_frame env hotel dates s)
      as (s1 & rows1 & H1 & Hh1 & Hn1 & He1 & Hk1 & Hi1 & Hl1 & Hw1 & Ha1).
    destruct (IH s1)
      as (s2 & rows2 & H2 & Hh2 & Hn2 & He2 & Hk2 & Hi2 & Hl2 & Hw2 & Ha2).
    exists s2, (rows1 ++ rows2). cbn [forHotels]. unfold Js.bind at 1.
    rewrite H1, H2. split; [reflexivity|].
    split; [rewrite Hh2, Hh1, app_assoc; reflexivity|].
    split; [rewrite length_app, Nat2Z.inj_add; lia|].
    split; [lia|].
    split.
    { intros row Hrow. apply in_app_or in Hrow as [Hrow|Hrow].
      - apply Hi2, Hk1, Hrow.
      - apply Hk2, Hrow. }
    split; [intros k Hk; apply Hi2, Hi1, Hk|].
    repeat split; congruence.
Qed.

Lemma map_if_same {A} (P : A -> bool) (l : list A) :
  map (fun c => if P c then c else c) l = l.
Proof.
  rewrite <- (map_id l) at 2. apply map_ext. intros c. destruct (P c); reflexivity.
Qed.

(** The [catch] block of [runSync] touches the credentials of the user
    and nothing else; it returns unless its query fails. *)
Lemma runSync_catch_outcome (env : Env) (tracked : list Hotel)
    (dates : list string) (userId : Z) (e : Js.Exn) (s : St) :
  exists res s' f,
    runSync_catch env tracked dates userId e s = (res, s')
    /\ hotels (db s') = hotels (db s)
    /\ priceHistory (db s') = priceHistory (db s)
    /\ priceAlerts (db s') = priceAlerts (db s)
    /\ syncLogs (db s') = syncLogs (db s)
    /\ webbedCredentials (db s')
       = map (fun c => if c_userId c =? userId then f c else c)
             (webbedCredentials (db s))
    /\ (forall c, c_userId (f c) = c_userId c)
    /\ (forall r, res = Js.Ret r -> successCount r = okCount s)
    /\ (query env UpdateCredentialsError = Js.Ret tt ->
        exists r, res = Js.Ret r).
Proof.
  cbv beta delta [runSync_catch Js.bind Js.get on_db Js.modify await Js.ret].
  cbn beta iota zeta.
  destruct (query env UpdateCredentialsError) as [[]|e'].
  - do 2 eexists. eexists (fun c => mkCred _ _ _ _ _ _ _).
    split; [reflexivity|]. cbn.
    repeat split; try reflexivity; eauto.
    intros r [= <-]. reflexivity.
  - exists (Js.Throw e'), s, (fun c => c).
    split; [reflexivity|]. rewrite map_if_same.
    repeat split; try reflexivity; discriminate.
Qed.

(** Every way [runSync] can go, for any tracking grid. *)
Lemma runSync_on_outcome (env : Env) (tracked : list Hotel)
    (dates : list string) (userId : Z) (d : Db) :
  exists res d' rows newlogs f,
    runSync_on env tracked dates userId d = (res, d')
    /\ priceHistory d' = priceHistory d ++ rows
    /\ (forall r, res = Js.Ret r -> Z.of_nat (length rows) = successCount r)
    /\ (forall row, In row rows -> In (ph_hotelId row) (map h_id (hotels d')))
    /\ incl (map h_id (hotels d)) (map h_id (hotels d'))
    /\ priceAlerts d' = priceAlerts d
    /\ syncLogs d' = syncLogs d ++ newlogs
    /\ (forall l, In l newlogs ->
        sl_userId l = userId /\ sl_status l <> failed
        /\ sl_startedAt l = t_start env)
    /\ (length newlogs <= 1)%nat
    /\ (getDb env = true ->
        query env SelectCredentials = Js.Ret tt ->
        query env InsertSyncLog = Js.Ret tt ->
        (forall c, In c (webbedCredentials d) ->
                   exists password,
                     decryptData env (c_password c) = Js.Ret password) ->
        filter (fun c => c_userId c =? userId) (webbedCredentials d) <> [] ->
        length newlogs = 1%nat)
    /\ (query env UpdateCredentialsError = Js.Ret tt ->
        exists r, res = Js.Ret r)
    /\ (forall c, c_userId (f c) = c_userId c)
    /\ webbedCredentials d'
       = map (fun c => if c_userId c =? userId then f c else c)
             (webbedCredentials d).
Proof.
  unfold runSync_on.
  destruct (getDb env) eqn:Hdb.
  2:{ exists (Js.Ret (mkResult false 0 0 0 0 (Some "Database not available"))),
             d, [], [], (fun c => c).
      split; [reflexivity|]. rewrite !app_nil_r, map_if_same.
      split; [reflexivity|]. split; [intros r [= <-]; reflexivity|].
      split; [intros row []|].
      split; [apply incl_refl|]. split; [reflexivity|]. split; [reflexivity|].
      split; [intros l []|]. split; [cbn; lia|].
      split; [discriminate|]. split; [eauto|]. split; reflexivity. }
  (* a throw before the log row is written *)
  assert (Hearly : forall e,
    (query env SelectCredentials = Js.Ret tt ->
     query env InsertSyncLog = Js.Ret tt ->
     (forall c, In c (webbedCredentials d) ->
                exists password,
                  decryptData env (c_password c) = Js.Ret password) ->
     filter (fun c => c_userId c =? userId) (webbedCredentials d) <> [] ->
     False) ->
    exists res d' rows newlogs f,
      (let (r, s) := runSync_catch env tracked dates userId e (mkSt d 0 0) in
       (r, db s)) = (res, d')
      /\ priceHistory d' = priceHistory d ++ rows
      /\ (forall r, res = Js.Ret r -> Z.of_nat (length rows) = successCount r)
      /\ (forall row, In row rows ->
          In (ph_hotelId row) (map h_id (hotels d')))
      /\ incl (map h_id (hotels d)) (map h_id (hotels d'))
      /\ priceAlerts d' = priceAlerts d
      /\ syncLogs d' = syncLogs d ++ newlogs
      /\ (forall l, In l newlogs ->
          sl_userId l = userId /\ sl_status l <> failed
          /\ sl_startedAt l = t_start env)
      /\ (length newlogs <= 1)%nat
      /\ (true = true ->
          query env SelectCredentials = Js.Ret tt ->
          query env InsertSyncLog = Js.Ret tt ->
          (forall c, In c (webbedCredentials d) ->
                     exists password,
                       decryptData env (c_password c) = Js.Ret password) ->
          filter (fun c => c_userId c =? userId) (webbedCredentials d) <> [] ->
          length newlogs = 1%nat)
      /\ (query env UpdateCredentialsError = Js.Ret tt ->
          exists r, res = Js.Ret r)
      /\ (forall c, c_userId (f c) = c_userId c)
      /\ webbedCredentials d'
         = map (fun c => if c_userId c =? userId then f c else c)
               (webbedCredentials d)).
  { intros e Habs.
    destruct (runSync_catch_outcome env tracked dates userId e (mkSt d 0 0))
      as (res & s' & f & Hc & Hch & Hcp & Hca & Hcl & Hcw & Hcf & Hcr & Hcq).
    rewrite Hc. exists res, (db s'), [], [], f. cbn [db] in *.
    split; [reflexivity|]. rewrite !app_nil_r, Hch.
    split; [exact Hcp|]. split; [intros r Hr; rewrite (Hcr r Hr); reflexivity|].
    split; [intros row []|]. split; [apply incl_refl|].
    split; [exact Hca|]. split; [exact Hcl|]. split; [intros l []|].
    split; [cbn; lia|].
    split; [intros _ H1 H2 H3 H4; destruct (Habs H1 H2 H3 H4)|].
    split; [exact Hcq|]. split; [exact Hcf|exact Hcw]. }
  (* a throw after the log row is written, [rows] being what the grid added *)
  assert (Hlate : forall e (s1 : St) (rows : list PriceHistoryRow) (log : SyncLogRow),
    priceHistory (db s1) = priceHistory d ++ rows ->
    Z.of_nat (length rows) = okCount s1 ->
    (forall row, In row rows -> In (ph_hotelId row) (map h_id (hotels (db s1)))) ->
    incl (map h_id (hotels d)) (map h_id (hotels (db s1))) ->
    priceAlerts (db s1) = priceAlerts d ->
    syncLogs (db s1) = syncLogs d ++ [log] ->
    sl_userId log = userId -> sl_status log <> failed ->
    sl_startedAt log = t_start env ->
    webbedCredentials (db s1) = webbedCredentials d ->
    exists res d' rows newlogs f,
      (let (r, s) := runSync_catch env tracked dates userId e s1 in
       (r, db s)) = (res, d')
      /\ priceHistory d' = priceHistory d ++ rows
      /\ (forall r, res = Js.Ret r -> Z.of_nat (length rows) = successCount r)
      /\ (forall row, In row rows ->
          In (ph_hotelId row) (map h_id (hotels d')))
      /\ incl (map h_id (hotels d)) (map h_id (hotels d'))
      /\ priceAlerts d' = priceAlerts d
      /\ syncLogs d' = syncLogs d ++ newlogs
      /\ (forall l, In l newlogs ->
          sl_userId l = userId /\ sl_status l <> failed
          /\ sl_startedAt l = t_start env)
      /\ (length newlogs <= 1)%nat
      /\ (true = true ->
          query env SelectCredentials = Js.Ret tt ->
          query env InsertSyncLog = Js.Ret tt ->
          (forall c, In c (webbedCredentials d) ->
                     exists password,
                       decryptData env (c_password c) = Js.Ret password) ->
          filter (fun c => c_userId c =? userId) (webbedCredentials d) <> [] ->
          length newlogs = 1%nat)
      /\ (query env UpdateCredentialsError = Js.Ret tt ->
          exists r, res = Js.Ret r)
      /\ (forall c, c_userId (f c) = c_userId c)
      /\ webbedCredentials d'
         = map (fun c => if c_userId c =? userId then f c else c)
               (webbedCredentials d)).
  { intros e s1 rows log Hh Hn Hk Hi Ha Hl Hu Hst Hat Hw.
    destruct (runSync_catch_outcome env tracked dates userId e s1)
      as (res & s' & f & Hc & Hch & Hcp & Hca & Hcl & Hcw & Hcf & Hcr & Hcq).
    rewrite Hc. exists res, (db s'), rows, [log], f.
    split; [reflexivity|]. rewrite Hch.
    split; [congruence|]. split; [intros r Hr; rewrite (Hcr r Hr); exact Hn|].
    split; [exact Hk|]. split; [exact Hi|].
    split; [congruence|]. split; [congruence|].
    split; [intros l [<-|[]]; auto|].
    split; [cbn; lia|]. split; [reflexivity|].
    split; [exact Hcq|]. split; [exact Hcf|]. rewrite Hcw, Hw. reflexivity. }
  cbv beta delta [Js.try_catch runSync_try Js.bind Js.get on_db
                  Js.modify await Js.ret Js.throw].
  cbn beta iota zeta. cbn [db].
  destruct (query env SelectCredentials) as [[]|e] eqn:Hq1; cbn beta iota zeta.
  2:{ apply Hearly. intros H1 _ _ _. discriminate H1. }
  destruct (filter (fun c => c_userId c =? userId) (webbedCredentials d))
    as [|cred others] eqn:Hcred; cbn beta iota zeta.
  { exists (Js.Ret (mkResult false 0 0 0 0 (Some "No credentials found"))),
           d, [], [], (fun c => c).
    split; [reflexivity|]. rewrite !app_nil_r, map_if_same.
    split; [reflexivity|]. split; [intros r [= <-]; reflexivity|].
    split; [intros row []|].
    split; [apply incl_refl|]. split; [reflexivity|]. split; [reflexivity|].
    split; [intros l []|]. split; [cbn; lia|].
    split; [intros _ _ _ _ Hne; destruct (Hne eq_refl)|].
    split; [eauto|]. split; reflexivity. }
  pose proof (filter_head_in (fun c => c_userId c =? userId) _ _ _ Hcred)
    as Hin.
  destruct (decryptData env (c_password cred)) as [password|e] eqn:Hdec;
    cbn beta iota zeta.
  2:{ apply Hearly. intros _ _ H3 _. destruct (H3 cred Hin) as [p Hp].
      congruence. }
  destruct (query env InsertSyncLog) as [[]|e] eqn:Hq2; cbn beta iota zeta.
  2:{ apply Hearly. intros _ H2 _ _. discriminate H2. }
  pose proof (next_id_pos sl_id (syncLogs d)) as Hpos.
  destruct (initialize env) as [[]|e0]; cbn beta iota zeta.
  2:{ eapply (Hlate _ _ []); cbn; rewrite ?app_nil_r; try reflexivity;
        try discriminate; try apply incl_refl. intros row []. }
  destruct (login env (c_username cred) password) as [[|]|e1];
    cbn beta iota zeta.
  2,3: (eapply (Hlate _ _ []); cbn; rewrite ?app_nil_r; try reflexivity;
        try discriminate; try apply incl_refl; intros row []).
  match goal with
  | |- context [forHotels env tracked dates ?s0] =>
      destruct (forHotels_frame env tracked dates s0)
        as (s1 & rows & Hrun & Hh & Hn & He & Hk & Hi & Hl & Hw & Ha)
  end.
  rewrite Hrun. cbn beta iota zeta. cbn in Hh, Hn, He, Hk, Hi, Hl, Hw, Ha.
  destruct (close env) as [[]|e2]; cbn beta iota zeta.
  2:{ eapply (Hlate _ _ rows); try eassumption; try reflexivity;
        try discriminate; lia. }
  destruct (query env UpdateSyncLog) as [[]|e3]; cbn beta iota zeta.
  2:{ eapply (Hlate _ _ rows); try eassumption; try reflexivity;
        try discriminate; lia. }
  destruct (Z.eqb_spec (next_id sl_id (syncLogs d)) 0) as [E|_]; [lia|].
  destruct (query env UpdateCredentials) as [[]|e4]; cbn beta iota zeta.
  2:{ eapply (Hlate _ _ rows); cbn [db]; try eassumption;
        try (cbn; lia).
      - cbn. rewrite Hl. apply update_fresh_log. reflexivity.
      - reflexivity.
      - discriminate.
      - reflexivity. }
  do 2 eexists. exists rows. eexists.
  eexists (fun c => mkCred _ _ _ _ _ _ _).
  split; [reflexivity|]. cbn.
  split; [exact Hh|]. split; [intros r [= <-]; cbn; lia|].
  split; [exact Hk|].
  split; [exact Hi|]. split; [exact Ha|].
  split; [rewrite Hl; apply update_fresh_log; reflexivity|].
  split; [intros l [<-|[]]; cbn;
           split; [reflexivity|split; [discriminate|reflexivity]]|].
  split; [cbn; lia|]. split; [reflexivity|].
  split; [eauto|]. split; [reflexivity|]. rewrite Hw. reflexivity.
Qed.

(** X8.  What [runSync] reports is what it wrote.  Whatever the scraper,
    the database and the clock do, [priceHistory] keeps its rows and gains
    rows only at its end, each under the key of a row of [hotels];
    whenever the run returns a result -- on every path: no database, no
    credentials, a failed login, a completed grid, a failure after the
    grid -- the number of new rows is exactly its [successCount].  The run
    returns a result unless the query of its [catch] block fails. *)
Theorem runSync_persists_what_it_counts (env : Env) (userId : Z) (d : Db) :
  exists res d' rows,
    runSync env userId d = (res, d')
    /\ priceHistory d' = priceHistory d ++ rows
    /\ (forall row, In row rows -> In (ph_hotelId row) (map h_id (hotels d')))
    /\ (forall r, res = Js.Ret r -> Z.of_nat (length rows) = successCount r)
    /\ (query env UpdateCredentialsError = Js.Ret tt ->
        exists r, res = Js.Ret r).
Proof.
  destruct (runSync_on_outcome env HOTELS_TO_TRACK DATES_TO_TRACK userId d)
    as (res & d' & rows & newlogs & f & Hrun & Hh & Hn & Hk & _ & _ & _ & _
        & _ & _ & Hret & _).
  exists res, d', rows. split; [exact Hrun|]. split; [exact Hh|].
  split; [exact Hk|]. split; [exact Hn|exact Hret].
Qed.

(** Two cells with a price for a stored hotel, every query answered: two
    rows and a count of two on a grid of 280. *)
Lemma runSync_persists_what_it_counts_witness :
  let env := mkEnv true (fun _ => Js.Ret tt) (fun s => Js.Ret s) (Js.Ret tt)
               (fun _ _ => Js.Ret true)
               (fun h dt _ =>
                  if String.eqb h "VOCO"
                     && (String.eqb dt "16/02/2026"
                         || String.eqb dt "17/02/2026")
                  then Js.Ret (Some (mkSearch (Some 210%Q) true))
                  else Js.Ret None)
               (Js.Ret tt) 1000 5000 in
  let d := mkDb [mkHotel 1 "VOCO" "voco" "Makkah"] []
                [mkCred 1 7 "user" "secret" None idle None] [] [] in
  exists r d' rows,
    runSync env 7 d = (Js.Ret r, d')
    /\ priceHistory d' = rows
    /\ length rows = 2%nat /\ successCount r = 2.
Proof.
  intros env d.
  destruct (runSync_persists_what_it_counts env 7 d)
    as (res & d' & rows & Hrun & Hh & _ & Hn & Hret).
  destruct (Hret eq_refl) as [r ->].
  exists r, d', rows. split; [exact Hrun|]. split; [exact Hh|].
  assert (Hval : fst (runSync env 7 d)
                 = Js.Ret (mkResult true 14 20 2 278 None))
    by (vm_compute; reflexivity).
  rewrite Hrun in Hval. cbn [fst] in Hval. injection Hval as ->.
  specialize (Hn _ eq_refl). cbn in Hn. split; [lia|reflexivity].
Defined.

(** X9.  What [runSync] leaves alone, on every path, a rejected run
    included: the alerts; every row that [syncLogs] already had; the
    credentials of every other user.  It adds at most one [syncLogs] row,
    for the user of the run, and no run ever leaves a row with status
    [failed] that was not there before. *)
Theorem runSync_frame (env : Env) (userId : Z) (d : Db) :
  exists res d' newlogs,
    runSync env userId d = (res, d')
    /\ priceAlerts d' = priceAlerts d
    /\ syncLogs d' = syncLogs d ++ newlogs
    /\ (length newlogs <= 1)%nat
    /\ (forall l, In l newlogs -> sl_userId l = userId)
    /\ (forall l, In l (syncLogs d') -> sl_status l = failed ->
        In l (syncLogs d))
    /\ map c_userId (webbedCredentials d') = map c_userId (webbedCredentials d)
    /\ (forall c, c_userId c <> userId ->
        (In c (webbedCredentials d') <-> In c (webbedCredentials d))).
Proof.
  destruct (runSync_on_outcome env HOTELS_TO_TRACK DATES_TO_TRACK userId d)
    as (res & d' & rows & newlogs & f & Hrun & _ & _ & _ & _ & Ha & Hl & Hnew
        & Hlen & _ & _ & Hf & Hw).
  exists res, d', newlogs. split; [exact Hrun|]. split; [exact Ha|].
  split; [exact Hl|]. split; [exact Hlen|].
  split; [intros l Hin; apply (Hnew l Hin)|].
  split.
  { intros l Hin Hst. rewrite Hl in Hin. apply in_app_or in Hin as [Hin|Hin].
    - exact Hin.
    - destruct (Hnew l Hin) as (_ & Hnf & _). contradiction. }
  split.
  { rewrite Hw, map_map. apply map_ext. intros c.
    destruct (c_userId c =? userId); [apply Hf|reflexivity]. }
  intros c Hc. rewrite Hw. split.
  - intros Hin. apply in_map_iff in Hin as (c0 & Hc0 & Hin).
    destruct (Z.eqb_spec (c_userId c0) userId) as [E|_].
    + exfalso. apply Hc. rewrite <- Hc0, Hf. exact E.
    + subst c0. exact Hin.
  - intros Hin. apply in_map_iff. exists c. split; [|exact Hin].
    destruct (Z.eqb_spec (c_userId c) userId); [contradiction|reflexivity].
Qed.

Lemma runAll_logs (env_of : nat -> Env) (allCreds : list CredentialRow) :
  (forall i, getDb (env_of i) = true) ->
  (forall i, query (env_of i) SelectCredentials = Js.Ret tt
             /\ query (env_of i) InsertSyncLog = Js.Ret tt
             /\ query (env_of i) UpdateCredentialsError = Js.Ret tt) ->
  (forall i c, exists password, decryptData (env_of i) c = Js.Ret password) ->
  forall (i : nat) (d : Db),
    (forall c, In c allCreds ->
               In (c_userId c) (map c_userId (webbedCredentials d))) ->
    exists d' rows,
      runAll env_of i allCreds d = (Js.Ret tt, d')
      /\ length (syncLogs d') = (length (syncLogs d) + length allCreds)%nat
      /\ priceAlerts d' = priceAlerts d
      /\ priceHistory d' = priceHistory d ++ rows.
Proof.
  intros Hup Hq Hdec. induction allCreds as [|cred rest IH]; intros i d Hcreds.
  - exists d, []. cbn. rewrite app_nil_r. repeat split; lia.
  - destruct (runSync_on_outcome (env_of i) HOTELS_TO_TRACK DATES_TO_TRACK
                (c_userId cred) d)
      as (res & d1 & rows1 & newlogs & f & Hrun & Hh & _ & _ & _ & Ha & Hl & _
          & _ & Hone & Hret & Hf & Hw).
    destruct (Hq i) as (Hq1 & Hq2 & Hq3).
    destruct (Hret Hq3) as [r ->].
    assert (Hids : map c_userId (webbedCredentials d1)
                   = map c_userId (webbedCredentials d)).
    { rewrite Hw, map_map. apply map_ext. intros c.
      destruct (c_userId c =? c_userId cred); [apply Hf|reflexivity]. }
    destruct (IH (S i) d1) as (d2 & rows2 & Hrest & Hlen & Ha2 & Hh2).
    { intros c Hc. rewrite Hids. apply Hcreds. right. exact Hc. }
    exists d2, (rows1 ++ rows2). cbn [runAll].
    change (runSync (env_of i) (c_userId cred) d)
      with (runSync_on (env_of i) HOTELS_TO_TRACK DATES_TO_TRACK
                       (c_userId cred) d).
    rewrite Hrun, Hrest. split; [reflexivity|].
    split.
    { rewrite Hlen, Hl, length_app. cbn [length].
      rewrite Hone; [lia|apply Hup|exact Hq1|exact Hq2| |].
      - intros c _. apply Hdec.
      - intros Hnone.
        assert (Hin : In (c_userId cred) (map c_userId (webbedCredentials d)))
          by (apply Hcreds; left; reflexivity).
        apply in_map_iff in Hin as (c0 & Hc0 & Hin).
        apply list_elem_of_In in Hin.
        apply (filter_nil_not_elem_of _ _ c0 Hnone); [|exact Hin].
        cbn. rewrite Hc0, Z.eqb_refl. exact I. }
    split; [congruence|]. rewrite Hh2, Hh, app_assoc. reflexivity.
Qed.

(** X10.  One firing of the scheduler, the database handle being there
    and the server answering the callback's query and, in every run, the
    look-up of the credentials, the insert of the log row and the update
    of the [catch] block, with every stored password readable: every row
    of [webbedCredentials] gets its run, one after the other, and each run
    leaves exactly one new [syncLogs] row, whether it completes or not;
    [priceHistory] only grows and the alerts are not touched.  Without a
    database handle the firing does nothing; when the callback's own query
    fails, the firing rejects and nothing is written. *)
Theorem scheduledSync_one_log_per_credential (env_of : nat -> Env) (d : Db) :
  (forall i, getDb (env_of i) = true) ->
  (forall i, query (env_of i) SelectCredentials = Js.Ret tt
             /\ query (env_of i) InsertSyncLog = Js.Ret tt
             /\ query (env_of i) UpdateCredentialsError = Js.Ret tt) ->
  (forall i c, exists password, decryptData (env_of i) c = Js.Ret password) ->
  (exists d' rows,
      scheduledSync true (Js.Ret tt) env_of d = (Js.Ret tt, d')
      /\ length (syncLogs d')
         = (length (syncLogs d) + length (webbedCredentials d))%nat
      /\ priceAlerts d' = priceAlerts d
      /\ priceHistory d' = priceHistory d ++ rows)
  /\ (forall select, scheduledSync false select env_of d = (Js.Ret tt, d))
  /\ (forall e, scheduledSync true (Js.Throw e) env_of d = (Js.Throw e, d)).
Proof.
  intros Hup Hq Hdec. split; [|split; reflexivity].
  unfold scheduledSync.
  apply (runAll_logs env_of (webbedCredentials d) Hup Hq Hdec 0%nat d).
  intros c Hc. apply in_map. exact Hc.
Qed.

Lemma scheduledSync_one_log_per_credential_witness :
  let env := mkEnv true (fun _ => Js.Ret tt) (fun s => Js.Ret s) (Js.Ret tt)
               (fun _ _ => Js.Ret false) (fun _ _ _ => Js.Ret None)
               (Js.Ret tt) 1000 5000 in
  let d := mkDb [] [] [mkCred 1 7 "a" "x" None idle None;
                       mkCred 2 8 "b" "y" None idle None] [] [] in
  exists d',
    scheduledSync true (Js.Ret tt) (fun _ => env) d = (Js.Ret tt, d')
    /\ length (syncLogs d') = 2%nat.
Proof.
  intros env d.
  destruct (scheduledSync_one_log_per_credential (fun _ => env) d)
    as [(d' & rows & Hrun & Hlen & _) _].
  - reflexivity.
  - intros _. repeat split.
  - intros _ c. exists c. reflexivity.
  - exists d'. split; [exact Hrun|exact Hlen].
Defined.

End SyncRunFrame.

(** ** The session store: files of other users, round trips *)

Section SessionFiles.
Import SessionManager.
Open Scope Q_scope.

Variable tn : Json -> Js.Res Js.Number.

Ltac unfold_session :=
  cbv beta delta [loadSession uploadSession isSessionNeedingVerification
    getSessionExpiryDays exportSession
    saveSession deleteSession JSON_parse JSON_stringify prop ToNumber
    Js.try_catch Js.bind Js.get Js.modify Js.ret Js.throw].

(** [ToNumber] does not look at the store. *)
Lemma ToNumber_pure (v : option Json) :
  exists r, forall (S : Type) (s : S), ToNumber tn v s = (r, s).
Proof.
  destruct v as [[| | | | | |]|]; cbn; eexists; intros; reflexivity.
Qed.

(** [loadSession] leaves the store as it is or deletes the user's file, and
    in the second case it returns null. *)
Lemma loadSession_store (now : Z) (userId : string) (fs : gmap string Text) :
  exists r,
    loadSession tn now userId fs = (Js.Ret r, fs)
    \/ (r = None
        /\ loadSession tn now userId fs = (Js.Ret None, delete userId fs)).
Proof.
  unfold_session. cbn beta iota zeta.
  destruct (fs !! userId) as [[|v]|] eqn:Hf; cbn beta iota zeta; eauto.
  destruct v; cbn beta iota zeta; eauto;
    repeat (break_match; cbn beta iota zeta); eauto.
Qed.

Lemma delete_other (userId other : string) (fs : gmap string Text) :
  other <> userId -> delete userId fs !! other = fs !! other.
Proof. intros Hne. apply lookup_delete_ne. congruence. Qed.

(** X11.  No operation on the session of one user touches the file of
    another: after [saveSession], [deleteSession], [loadSession],
    [uploadSession], [isSessionNeedingVerification],
    [getSessionExpiryDays] or [exportSession] for [userId], whatever they
    return, the store holds for every other user what it held before. *)
Theorem session_files_of_others_untouched (now now' : Z)
    (userId other : string) (v : Json) (jsonData : Text)
    (fs : gmap string Text) :
  other <> userId ->
  snd (saveSession userId v fs) !! other = fs !! other
  /\ snd (deleteSession userId fs) !! other = fs !! other
  /\ snd (loadSession tn now userId fs) !! other = fs !! other
  /\ snd (uploadSession tn now userId jsonData fs) !! other = fs !! other
  /\ snd (isSessionNeedingVerification tn now now' userId fs) !! other
     = fs !! other
  /\ snd (getSessionExpiryDays tn now now' userId fs) !! other = fs !! other
  /\ snd (exportSession tn now userId fs) !! other = fs !! other.
Proof.
  intros Hne.
  assert (Hload : forall A (k : option Json -> Js.M (gmap string Text) A),
             (forall r s, snd (k r s) = s) ->
             snd (Js.bind (loadSession tn now userId) k fs) !! other
             = fs !! other).
  { intros A k Hk. unfold Js.bind.
    destruct (loadSession_store now userId fs) as (r & [Hl|[-> Hl]]);
      rewrite Hl, Hk; [reflexivity|apply delete_other, Hne]. }
  split.
  { cbn. apply lookup_insert_ne. congruence. }
  split.
  { unfold deleteSession, Js.modify. cbn.
    destruct (fs !! userId); [apply delete_other, Hne|reflexivity]. }
  split.
  { destruct (loadSession_store now userId fs) as (r & [Hl|[-> Hl]]);
      rewrite Hl; [reflexivity|apply delete_other, Hne]. }
  split.
  { destruct (uploadSession_checked tn now userId jsonData fs)
      as (b & fs' & Hup & Hfalse & Htrue).
    rewrite Hup. cbn. destruct b.
    - destruct (Htrue eq_refl) as (fields & cookies & _ & _ & -> & _).
      apply lookup_insert_ne. congruence.
    - rewrite (Hfalse eq_refl). reflexivity. }
  split.
  { apply Hload. intros r s. destruct (negb (truthy r)); [reflexivity|].
    unfold Js.bind.
    destruct r as [w|].
    - destruct w; cbn;
        try (destruct (ToNumber_pure (assoc "timestamp" fields)) as [x Hx];
             rewrite Hx; destruct x; reflexivity);
        reflexivity.
    - reflexivity. }
  split.
  { apply Hload. intros r s. destruct (negb (truthy r)); [reflexivity|].
    unfold Js.bind.
    destruct r as [w|].
    - destruct w; cbn;
        try (destruct (ToNumber_pure (assoc "expiresAt" fields)) as [x Hx];
             rewrite Hx; destruct x; reflexivity);
        reflexivity.
    - reflexivity. }
  apply Hload. intros r s. destruct (negb (truthy r)); [reflexivity|].
  destruct r; reflexivity.
Qed.

(** What [loadSession] does with a stored object whose [expiresAt] is
    [null]: the file is read as expiring at time zero. *)
Lemma loadSession_null_expiry (now : Z) (userId : string)
    (fs : gmap string Text) (fields : list (string * Json)) :
  fs !! userId = Some (Doc (JObj fields)) ->
  assoc "expiresAt" fields = Some JNull ->
  (0 < now)%Z ->
  loadSession tn now userId fs = (Js.Ret None, delete userId fs).
Proof.
  intros Hf He Hnow. unfold_session. cbn beta iota zeta.
  rewrite Hf. cbn beta iota zeta. rewrite He. cbn beta iota zeta.
  rewrite (gt_true (inject_Z now) 0)
    by (change 0 with (inject_Z 0); rewrite <- Zlt_Qlt; exact Hnow).
  cbn beta iota zeta. rewrite Hf. reflexivity.
Qed.

(** X12.  One file per user, overwritten on save: after
    [saveSession(userId, v)] for an object [v] whose numeric [expiresAt] is
    not past, [loadSession] returns what was written -- [v] with [null]
    for every number that is not finite, so [v] itself when all its
    numbers are finite -- whatever the user had stored before, and keeps
    it; a session made by [createSession] is returned up to and including
    its fifteenth day; after [deleteSession], [loadSession] returns null.
    An [expiresAt] that is [Infinity] is written as [null]: the session
    saved with it is read as expired and its file is deleted. *)
Theorem saveSession_loadSession_round_trip (now : Z) (userId : string)
    (fs : gmap string Text) :
  (forall fields e,
      assoc "expiresAt" fields = Some (JNum e) ->
      inject_Z now <= e ->
      let fs' := snd (saveSession userId (JObj fields) fs) in
      loadSession tn now userId fs'
      = (Js.Ret (Some (written (JObj fields))), fs')
      /\ (written (JObj fields) = JObj fields ->
          loadSession tn now userId fs' = (Js.Ret (Some (JObj fields)), fs')))
  /\ (forall t cookies localStorage sessionStorage,
        (now <= t + fifteenDaysMs)%Z ->
        let v := createSession t cookies localStorage sessionStorage in
        let fs' := snd (saveSession userId v fs) in
        loadSession tn now userId fs' = (Js.Ret (Some (written v)), fs')
        /\ (written v = v ->
            loadSession tn now userId fs' = (Js.Ret (Some v), fs')))
  /\ (let fs' := snd (deleteSession userId fs) in
      loadSession tn now userId fs' = (Js.Ret None, fs'))
  /\ (forall fields negative,
        assoc "expiresAt" fields = Some (JInf negative) ->
        (0 < now)%Z ->
        let fs' := snd (saveSession userId (JObj fields) fs) in
        loadSession tn now userId fs' = (Js.Ret None, delete userId fs')).
Proof.
  assert (Hsaved : forall fields e,
             assoc "expiresAt" fields = Some (JNum e) ->
             inject_Z now <= e ->
             let fs' := snd (saveSession userId (JObj fields) fs) in
             loadSession tn now userId fs'
             = (Js.Ret (Some (written (JObj fields))), fs')).
  { intros fields e He Hle fs'. cbn [written].
    apply (loadSession_live tn now userId fs' _ e); [| |exact Hle].
    - apply lookup_insert_eq.
    - rewrite assoc_written, He. reflexivity. }
  split; [|split; [|split]].
  - intros fields e He Hle fs'. split; [apply (Hsaved fields e He Hle)|].
    intros Hsame. pose proof (Hsaved fields e He Hle) as Hl.
    cbv zeta in Hl. rewrite Hsame in Hl. exact Hl.
  - intros t cookies ls ss Hnow v fs'.
    destruct (createSession_fields t cookies ls ss)
      as (fields & Hc & _ & _ & He).
    assert (Hle : inject_Z now <= inject_Z (t + fifteenDaysMs))
      by (rewrite <- Zle_Qle; exact Hnow).
    subst v fs'. rewrite Hc.
    split; [apply (Hsaved fields _ He Hle)|].
    intros Hsame. pose proof (Hsaved fields _ He Hle) as Hl.
    cbv zeta in Hl. rewrite Hsame in Hl. exact Hl.
  - intros fs'. apply loadSession_absent. subst fs'.
    unfold deleteSession, Js.modify. cbn.
    destruct (fs !! userId) eqn:Hf; [apply lookup_delete_eq|exact Hf].
  - intros fields negative He Hnow fs'.
    apply (loadSession_null_expiry now userId fs'
             (map (fun kv => (kv.1, written kv.2)) fields)).
    + apply lookup_insert_eq.
    + rewrite assoc_written, He. reflexivity.
    + exact Hnow.
Qed.

(** X13.  What was uploaded is what is exported.  A payload with a
    [cookies] array and an [expiresAt] that is absent, or a number not in
    the past, is accepted and stored as [JSON.stringify] writes it; from
    then on, at every reading of the clock up to that [expiresAt] -- at
    every reading when there is none -- [exportSession] for the user
    returns the stored text and leaves the store alone, and the exported
    text is accepted in turn when uploaded for any user, and stored
    unchanged. *)
Theorem uploadSession_exportSession_round_trip (now : Z) (userId : string)
    (fields : list (string * Json)) (cookies : list Json)
    (limit : option Q) (fs : gmap string Text) :
  assoc "cookies" fields = Some (JArr cookies) ->
  assoc "expiresAt" fields = option_map JNum limit ->
  (forall e, limit = Some e -> inject_Z now <= e) ->
  let stored := JSON_stringify (JObj fields) in
  let fs' := <[userId := stored]> fs in
  uploadSession tn now userId (Doc (JObj fields)) fs = (Js.Ret true, fs')
  /\ (written (JObj fields) = JObj fields -> stored = Doc (JObj fields))
  /\ forall now',
       (forall e, limit = Some e -> inject_Z now' <= e) ->
       exportSession tn now' userId fs' = (Js.Ret (Some stored), fs')
       /\ forall other store,
            uploadSession tn now' other stored store
            = (Js.Ret true, <[other := stored]> store).
Proof.
  intros Hc He Hnow stored fs'.
  assert (Haccept : forall at_ other (fields0 : list (string * Json)) store,
             assoc "cookies" fields0 = Some (JArr (map written cookies))
             \/ assoc "cookies" fields0 = Some (JArr cookies) ->
             assoc "expiresAt" fields0 = option_map JNum limit ->
             (forall e, limit = Some e -> inject_Z at_ <= e) ->
             uploadSession tn at_ other (Doc (JObj fields0)) store
             = (Js.Ret true,
                <[other := JSON_stringify (JObj fields0)]> store)).
  { intros at_ other fields0 store Hc0 He0 Hat.
    unfold uploadSession, saveSession.
    cbv beta delta [JSON_parse prop ToNumber
      Js.try_catch Js.bind Js.get Js.modify Js.ret Js.throw].
    cbn beta iota zeta.
    destruct Hc0 as [Hc0|Hc0]; rewrite Hc0; cbn beta iota zeta; rewrite He0;
      destruct limit as [e|]; cbn [option_map]; cbn beta iota zeta;
      rewrite ?(gt_false _ _ (Hat _ eq_refl)); reflexivity. }
  assert (Hc' : assoc "cookies" (map (fun kv => (kv.1, written kv.2)) fields)
                = Some (JArr (map written cookies)))
    by (rewrite assoc_written, Hc; reflexivity).
  assert (He' : assoc "expiresAt" (map (fun kv => (kv.1, written kv.2)) fields)
                = option_map JNum limit)
    by (rewrite assoc_written, He; destruct limit; reflexivity).
  assert (Hidem : JSON_stringify (written (JObj fields)) = stored)
    by (unfold stored, JSON_stringify; rewrite written_idem; reflexivity).
  split; [|split].
  - apply Haccept; auto.
  - intros Hsame. unfold stored, JSON_stringify. rewrite Hsame. reflexivity.
  - intros now' Hnow'. split.
    + unfold exportSession, Js.bind.
      assert (Hload : loadSession tn now' userId fs'
                      = (Js.Ret (Some (written (JObj fields))), fs')).
      { cbn [written]. destruct limit as [e|].
        - apply (loadSession_live tn now' userId fs' _ e);
            [apply lookup_insert_eq|exact He'|apply Hnow'; reflexivity].
        - apply loadSession_no_expiry; [apply lookup_insert_eq|exact He']. }
      rewrite Hload. cbn [written truthy negb]. unfold Js.ret.
      change (JObj (map (fun kv => (kv.1, written kv.2)) fields))
        with (written (JObj fields)).
      rewrite Hidem. reflexivity.
    + intros other store. unfold stored at 1. unfold JSON_stringify.
      cbn [written].
      rewrite (Haccept now' other _ store (or_introl Hc') He' Hnow').
      change (JObj (map (fun kv => (kv.1, written kv.2)) fields))
        with (written (JObj fields)).
      rewrite Hidem. reflexivity.
Qed.

End SessionFiles.

(** A session created at time 1000 and saved is loaded back on its
    fifteenth day; saved with an [expiresAt] that is [Infinity], it is
    gone at the first load. *)
Lemma saveSession_loadSession_round_trip_witness :
  let tn := fun _ : SessionManager.Json => Js.Ret Js.NaN in
  let v := SessionManager.createSession 1000 [] None None in
  let fs := snd (SessionManager.saveSession "42" v ∅) in
  let endless :=
    SessionManager.JObj [("cookies", SessionManager.JArr []);
                         ("expiresAt", SessionManager.JInf false)] in
  SessionManager.loadSession tn 1296001000 "42" fs = (Js.Ret (Some v), fs)
  /\ SessionManager.loadSession tn 2000 "42"
       (snd (SessionManager.saveSession "42" endless ∅))
     = (Js.Ret None, ∅).
Proof.
  intros tn v fs endless.
  destruct (saveSession_loadSession_round_trip tn 1296001000 "42" ∅)
    as (_ & Hcreated & _).
  destruct (saveSession_loadSession_round_trip tn 2000 "42" ∅)
    as (_ & _ & _ & Hinf).
  split.
  - apply (Hcreated 1000 [] None None); [vm_compute; discriminate|].
    reflexivity.
  - unfold endless.
    rewrite (Hinf [("cookies", SessionManager.JArr []);
                   ("expiresAt", SessionManager.JInf false)] false);
      [|reflexivity|reflexivity].
    vm_compute. reflexivity.
Defined.

(** A session uploaded for user 42 leaves the file of user 7 as it was. *)
Lemma session_files_of_others_untouched_witness :
  let tn := fun _ : SessionManager.Json => Js.Ret Js.NaN in
  let fs : gmap string SessionManager.Text :=
    <["7" := SessionManager.Garbled]> ∅ in
  let payload :=
    SessionManager.Doc
      (SessionManager.JObj [("cookies", SessionManager.JArr [])]) in
  snd (SessionManager.uploadSession tn 5000 "42" payload fs) !! "7"
  = Some SessionManager.Garbled
  /\ snd (SessionManager.loadSession tn 5000 "42" fs) !! "7"
     = Some SessionManager.Garbled.
Proof.
  intros tn fs payload.
  assert (Hne : "7" <> "42") by discriminate.
  destruct (session_files_of_others_untouched tn 5000 5000 "42" "7"
              SessionManager.JNull payload fs Hne)
    as (_ & _ & Hload & Hup & _).
  split; [rewrite Hup|rewrite Hload]; reflexivity.
Defined.

(** A session created at time 1000 and uploaded at 2000 is exported, a
    day later, as it was uploaded. *)
Lemma uploadSession_exportSession_round_trip_witness :
  let tn := fun _ : SessionManager.Json => Js.Ret Js.NaN in
  let payload :=
    SessionManager.Doc (SessionManager.createSession 1000 [] None None) in
  SessionManager.uploadSession tn 2000 "42" payload ∅
  = (Js.Ret true, <["42" := payload]> ∅)
  /\ SessionManager.exportSession tn 86402000 "42" (<["42" := payload]> ∅)
     = (Js.Ret (Some payload), <["42" := payload]> ∅).
Proof.
  intros tn payload.
  destruct (uploadSession_exportSession_round_trip tn 2000 "42"
              [("cookies", SessionManager.JArr []);
               ("timestamp", SessionManager.JNum (inject_Z 1000));
               ("expiresAt",
                SessionManager.JNum
                  (inject_Z (1000 + SessionManager.fifteenDaysMs)))]
              [] (Some (inject_Z (1000 + SessionManager.fifteenDaysMs))) ∅
              eq_refl eq_refl)
    as (Hup & _ & Hexp).
  { intros e [= <-]. vm_compute. discriminate. }
  split; [exact Hup|].
  apply (Hexp 86402000%Z). intros e [= <-]. vm_compute. discriminate.
Defined.

(** ** Days left of a session ([getSessionExpiryDays]) *)

Section SessionExpiry.
Import SessionManager.
Open Scope Q_scope.

Variable tn : Json -> Js.Res Js.Number.

(** The days left of a stored session whose [expiresAt] is a number not
    yet passed. *)
Lemma getSessionExpiryDays_live (now now' : Z) (userId : string)
    (fs : gmap string Text) (fields : list (string * Json)) (e : Q) :
  fs !! userId = Some (Doc (JObj fields)) ->
  assoc "expiresAt" fields = Some (JNum e) ->
  inject_Z now <= e ->
  getSessionExpiryDays tn now now' userId fs
  = (Js.Ret (Some (Js.max0 (Js.ceil
       (Js.Num ((e - inject_Z now') / inject_Z dayMs))))), fs).
Proof.
  intros Hf He Hle. unfold getSessionExpiryDays, Js.bind.
  rewrite (loadSession_live tn now userId fs fields e Hf He Hle).
  cbn beta iota zeta delta [truthy negb prop Js.ret].
  rewrite He. reflexivity.
Qed.

Lemma Qceiling_bounds (x : Q) :
  inject_Z (Qceiling x) - 1 < x /\ x <= inject_Z (Qceiling x).
Proof.
  pose proof (Qle_ceiling x) as Hle.
  pose proof (Qceiling_lt x) as Hlt.
  inj_push. split; lra.
Qed.

(** The days counted for what is left of fifteen days since [t]. *)
Lemma days_left_bounds (t now' : Z) :
  exists k : Z,
    Js.max0 (Js.ceil (Js.Num ((inject_Z (t + fifteenDaysMs) - inject_Z now')
                              / inject_Z dayMs)))
    = Js.Num (inject_Z k)
    /\ (0 <= k)%Z
    /\ (now' < t + fifteenDaysMs ->
        (k - 1) * dayMs < t + fifteenDaysMs - now' <= k * dayMs)%Z
    /\ (t + fifteenDaysMs <= now' -> k = 0)%Z.
Proof.
  set (x := (inject_Z (t + fifteenDaysMs) - inject_Z now') / inject_Z dayMs).
  destruct (Qceiling_bounds x) as [Hlo Hhi].
  set (c := Qceiling x) in *.
  assert (Hx : x * 86400000 == inject_Z (t + fifteenDaysMs) - inject_Z now').
  { unfold x. change (inject_Z dayMs) with 86400000. field. }
  cbn [Js.ceil Js.max0]. fold c. clearbody c. clearbody x.
  change fifteenDaysMs with 1296000000%Z in *.
  change dayMs with 86400000%Z in *.
  repeat (progress inj_push).
  assert (Hcz : (now' < t + 1296000000 ->
                 (c - 1) * 86400000 < t + 1296000000 - now' <= c * 86400000)%Z).
  { intros Hlt. split;
      (first [rewrite Zle_Qle | rewrite Zlt_Qlt]);
      repeat (progress inj_push); lra. }
  assert (Hc0 : (t + 1296000000 <= now' -> c <= 0)%Z).
  { intros Hge. q_of_z Hge.
    assert (Hc1 : (c < 1)%Z)
      by (rewrite Zlt_Qlt; repeat (progress inj_push); lra).
    lia. }
  destruct (Qlt_le_dec (inject_Z c) 0) as [Hneg|Hpos].
  - exists 0%Z. split; [reflexivity|].
    assert (Hcn : (c < 0)%Z) by z_by_q.
    split; [lia|]. split; [intros Hlt; specialize (Hcz Hlt); lia|].
    reflexivity.
  - exists c. split; [reflexivity|].
    assert (Hcp : (0 <= c)%Z) by z_by_q.
    split; [exact Hcp|]. split; [exact Hcz|].
    intros Hge. specialize (Hc0 Hge). lia.
Qed.

(** A stored session made by [createSession], asked for its days. *)
Lemma getSessionExpiryDays_created (t now now' : Z)
    (userId : string) (cookies : list Json)
    (localStorage sessionStorage : option Json) (fs : gmap string Text) :
  (now <= t + fifteenDaysMs)%Z ->
  fs !! userId
  = Some (Doc (createSession t cookies localStorage sessionStorage)) ->
  getSessionExpiryDays tn now now' userId fs
  = (Js.Ret (Some (Js.max0 (Js.ceil (Js.Num
       ((inject_Z (t + fifteenDaysMs) - inject_Z now') / inject_Z dayMs))))),
     fs).
Proof.
  intros Hnow Hf.
  destruct (createSession_fields t cookies localStorage sessionStorage)
    as (fields & Hc & _ & _ & He).
  apply (getSessionExpiryDays_live now now' userId fs fields
           (inject_Z (t + fifteenDaysMs))); [|exact He|].
  - rewrite Hf, Hc. reflexivity.
  - rewrite <- Zle_Qle. exact Hnow.
Qed.

(** X14.  The days left of a session made by [createSession] at time [t],
    asked for while it still loads: a whole number [k] of days, never
    negative, with [k] days covering what is left of the fifteen days and
    [k - 1] days not; so fifteen at the moment of creation, at most fifteen
    afterwards, at least one as long as a millisecond is left, and zero
    from the expiry on. *)
Theorem getSessionExpiryDays_of_created_session (t now now' : Z)
    (userId : string) (cookies : list Json)
    (localStorage sessionStorage : option Json) (fs : gmap string Text) :
  (now <= t + fifteenDaysMs)%Z ->
  let v := createSession t cookies localStorage sessionStorage in
  let fs' := <[userId := Doc v]> fs in
  exists k : Z,
    getSessionExpiryDays tn now now' userId fs'
    = (Js.Ret (Some (Js.Num (inject_Z k))), fs')
    /\ (0 <= k)%Z
    /\ (now' < t + fifteenDaysMs ->
        (k - 1) * dayMs < t + fifteenDaysMs - now' <= k * dayMs)%Z
    /\ (t + fifteenDaysMs <= now' -> k = 0)%Z
    /\ (t <= now' -> k <= 15)%Z
    /\ (now' = t -> k = 15)%Z.
Proof.
  intros Hnow v fs'.
  rewrite (getSessionExpiryDays_created t now now' userId cookies
             localStorage sessionStorage fs' Hnow)
    by apply lookup_insert_eq.
  destruct (days_left_bounds t now') as (k & -> & Hk0 & Hleft & Hgone).
  exists k. split; [reflexivity|]. split; [exact Hk0|].
  split; [exact Hleft|]. split; [exact Hgone|].
  change fifteenDaysMs with 1296000000%Z in *.
  change dayMs with 86400000%Z in *.
  split.
  - intros Hle. destruct (Z_lt_le_dec now' (t + 1296000000)) as [Hlt|Hge].
    + specialize (Hleft Hlt). lia.
    + specialize (Hgone Hge). lia.
  - intros ->. specialize (Hleft ltac:(lia)). lia.
Qed.

(** What [loadSession] does not give now, it does not give later: a load
    that returns a falsy value leaves a store on which every load returns a
    falsy value and changes nothing. *)
Lemma loadSession_falsy_stays (now : Z) (userId : string)
    (fs fs1 : gmap string Text) (r : option Json) :
  loadSession tn now userId fs = (Js.Ret r, fs1) ->
  truthy r = false ->
  forall later, exists r',
    loadSession tn later userId fs1 = (Js.Ret r', fs1) /\ truthy r' = false.
Proof.
  intros Hload Hr later.
  destruct (fs !! userId) as [[|v]|] eqn:Hf.
  - rewrite (loadSession_garbled tn now userId fs Hf) in Hload.
    injection Hload as <- <-. exists None.
    split; [apply loadSession_garbled, Hf|reflexivity].
  - assert (Hprim : forall w, fs !! userId = Some (Doc w) ->
               (forall S (s : S), prop w "expiresAt" s = (Js.Ret None, s)) ->
               forall t, loadSession tn t userId fs = (Js.Ret (Some w), fs)).
    { intros w Hw Hp t.
      cbv beta delta [loadSession JSON_parse Js.try_catch Js.bind Js.get
        Js.ret].
      cbn beta iota zeta. rewrite Hw. cbn beta iota zeta. rewrite Hp.
      reflexivity. }
    destruct v as [|b|q|str|items|fields|inf].
    + assert (Hnull : forall t,
                 loadSession tn t userId fs = (Js.Ret None, fs)).
      { intros t.
        cbv beta delta [loadSession JSON_parse prop Js.try_catch Js.bind
          Js.get Js.ret Js.throw].
        cbn beta iota zeta. rewrite Hf. reflexivity. }
      rewrite Hnull in Hload. injection Hload as <- <-.
      exists None. split; [apply Hnull|reflexivity].
    + rewrite (Hprim _ Hf) in Hload by reflexivity.
      injection Hload as <- <-. eexists.
      split; [apply (Hprim _ Hf); reflexivity|exact Hr].
    + rewrite (Hprim _ Hf) in Hload by reflexivity.
      injection Hload as <- <-. eexists.
      split; [apply (Hprim _ Hf); reflexivity|exact Hr].
    + rewrite (Hprim _ Hf) in Hload by reflexivity.
      injection Hload as <- <-. eexists.
      split; [apply (Hprim _ Hf); reflexivity|exact Hr].
    + rewrite (Hprim _ Hf) in Hload by reflexivity.
      injection Hload as <- <-. discriminate Hr.
    + destruct (ToNumber_pure tn (assoc "expiresAt" fields)) as [x Hx].
      assert (Hobj : forall t,
                 loadSession tn t userId fs
                 = match x with
                   | Js.Ret n =>
                       if Js.gt (Js.Num (inject_Z t)) n
                       then (Js.Ret None, delete userId fs)
                       else (Js.Ret (Some (JObj fields)), fs)
                   | Js.Throw _ => (Js.Ret None, fs)
                   end).
      { intros t.
        cbv beta delta [loadSession deleteSession JSON_parse prop
          Js.try_catch Js.bind Js.get Js.modify Js.ret Js.throw].
        cbn beta iota zeta. rewrite Hf. cbn beta iota zeta. rewrite Hx.
        destruct x as [n|e]; cbn beta iota zeta; [|reflexivity].
        destruct (Js.gt (Js.Num (inject_Z t)) n); cbn beta iota zeta;
          [rewrite Hf|]; reflexivity. }
      rewrite Hobj in Hload. destruct x as [n|e].
      * destruct (Js.gt (Js.Num (inject_Z now)) n).
        -- injection Hload as <- <-. exists None.
           split; [|reflexivity].
           apply loadSession_absent, lookup_delete_eq.
        -- injection Hload as <- <-. discriminate Hr.
      * injection Hload as <- <-. exists None.
        split; [apply Hobj|reflexivity].
    + rewrite (Hprim _ Hf) in Hload by reflexivity.
      injection Hload as <- <-. discriminate Hr.
  - rewrite (loadSession_absent tn now userId fs Hf) in Hload.
    injection Hload as <- <-. exists None.
    split; [apply loadSession_absent, Hf|reflexivity].
Qed.

(** [getSessionExpiryDays] answers null only when [loadSession] gave
    nothing, and then leaves the store as the load left it. *)
Lemma getSessionExpiryDays_null_inv (now now' : Z) (userId : string)
    (fs fs1 : gmap string Text) :
  getSessionExpiryDays tn now now' userId fs = (Js.Ret None, fs1) ->
  exists r, loadSession tn now userId fs = (Js.Ret r, fs1)
            /\ truthy r = false.
Proof.
  intros Hget.
  destruct (loadSession_returns tn now userId fs) as (r & fs0 & Hload).
  revert Hget. unfold getSessionExpiryDays, Js.bind. rewrite Hload.
  destruct (truthy r) eqn:Ht; cbn beta iota zeta delta [negb].
  - destruct r as [w|]; [|discriminate Ht].
    destruct (prop w "expiresAt" fs0) as [[o|e] s0];
      [|discriminate].
    destruct (ToNumber tn o s0) as [[n|e] s1]; discriminate.
  - intros [= <-]. exists r. split; [reflexivity|exact Ht].
Qed.

(** X15.  When [getSessionExpiryDays] reports no session for a user, that
    user has to verify again: [isSessionNeedingVerification] answers
    [true], on the store as it was and on the store as the question left
    it, at whatever time it is asked, and does not change that store. *)
Theorem no_expiry_days_means_verification (now now' : Z) (userId : string)
    (fs fs1 : gmap string Text) :
  getSessionExpiryDays tn now now' userId fs = (Js.Ret None, fs1) ->
  isSessionNeedingVerification tn now now' userId fs = (Js.Ret true, fs1)
  /\ forall later later',
       isSessionNeedingVerification tn later later' userId fs1
       = (Js.Ret true, fs1).
Proof.
  intros Hget.
  destruct (getSessionExpiryDays_null_inv now now' userId fs fs1 Hget)
    as (r & Hload & Hr).
  split.
  - unfold isSessionNeedingVerification, Js.bind. rewrite Hload, Hr.
    reflexivity.
  - intros later later'.
    destruct (loadSession_falsy_stays now userId fs fs1 r Hload Hr later)
      as (r' & Hload' & Hr').
    unfold isSessionNeedingVerification, Js.bind. rewrite Hload', Hr'.
    reflexivity.
Qed.

End SessionExpiry.

(** A session created at time 1000: fifteen days left at once, fourteen
    after a day and a millisecond. *)
Lemma getSessionExpiryDays_of_created_session_witness :
  let tn := fun _ : SessionManager.Json => Js.Ret Js.NaN in
  let fs : gmap string SessionManager.Text :=
    <["42" := SessionManager.Doc
                (SessionManager.createSession 1000 [] None None)]> ∅ in
  SessionManager.getSessionExpiryDays tn 1000 1000 "42" fs
  = (Js.Ret (Some (Js.Num 15)), fs)
  /\ SessionManager.getSessionExpiryDays tn 86401001 86401001 "42" fs
     = (Js.Ret (Some (Js.Num 14)), fs).
Proof.
  intros tn fs.
  destruct (getSessionExpiryDays_of_created_session tn 1000 1000 1000 "42"
              [] None None ∅)
    as (k & Hget & _ & _ & _ & _ & Hk); [vm_compute; discriminate|].
  destruct (getSessionExpiryDays_of_created_session tn 1000 86401001 86401001
              "42" [] None None ∅)
    as (k' & Hget' & _ & Hk' & _); [vm_compute; discriminate|].
  specialize (Hk eq_refl). subst k.
  assert (Hk14 : k' = 14%Z).
  { specialize (Hk' ltac:(vm_compute; reflexivity)).
    change SessionManager.fifteenDaysMs with 1296000000%Z in Hk'.
    change SessionManager.dayMs with 86400000%Z in Hk'. lia. }
  subst k'. split; [exact Hget|exact Hget'].
Defined.

(** Asked about a user without a file, both answer: no days, verify. *)
Lemma no_expiry_days_means_verification_witness :
  let tn := fun _ : SessionManager.Json => Js.Ret Js.NaN in
  SessionManager.isSessionNeedingVerification tn 5000 5000 "42" ∅
  = (Js.Ret true, ∅).
Proof.
  intros tn.
  exact (proj1 (no_expiry_days_means_verification tn 5000 5000 "42" ∅ ∅
                  eq_refl)).
Defined.

(** ** Prices of the owner, alerts and the dashboard ([db-helpers.ts]) *)

Section OwnerPricesAndAlerts.
Import Schema DbHelpers.
Open Scope Q_scope.

Lemma filter_cons_bool {A} (P : A -> bool) (x : A) (l : list A) :
  filter (fun x => P x) (x :: l)
  = if P x then x :: filter (fun x => P x) l else filter (fun x => P x) l.
Proof. rewrite filter_cons. destruct (P x); reflexivity. Qed.

(** A filter commutes with an update that does not change what it tests. *)
Lemma filter_map_same {A} (P : A -> bool) (f : A -> A) (l : list A) :
  (forall x, P (f x) = P x) ->
  filter (fun x => P x) (map f l) = map f (filter (fun x => P x) l).
Proof.
  intros Hf. induction l as [|x l IH]; [reflexivity|].
  cbn [map]. rewrite !filter_cons_bool, Hf.
  destruct (P x); cbn [map]; rewrite IH; reflexivity.
Qed.

(** An update that changes no row a filter lets through, and lets no new
    row through, is not seen through the filter. *)
Lemma filter_map_id {A} (P : A -> bool) (f : A -> A) (l : list A) :
  (forall x, P (f x) = P x) ->
  (forall x, P x = true -> f x = x) ->
  filter (fun x => P x) (map f l) = filter (fun x => P x) l.
Proof.
  intros Hf Hid. rewrite (filter_map_same P f l Hf).
  induction l as [|x l IH]; [reflexivity|].
  rewrite !filter_cons_bool. destruct (P x) eqn:Hx; cbn [map]; [|exact IH].
  rewrite (Hid x Hx), IH. reflexivity.
Qed.

Lemma priceFor_other (userId hotelId : Z) (date : string) (u h : Z)
    (dt : string) (r : UserPriceRow) :
  (u, h, dt) <> (userId, hotelId, date) ->
  priceFor u h dt r = true -> priceFor userId hotelId date r = false.
Proof.
  intros Hne. unfold priceFor. intros Hr.
  apply andb_prop in Hr as [Hr Hd]. apply andb_prop in Hr as [Hu Hh].
  apply Z.eqb_eq in Hu, Hh. apply bool_decide_eq_true_1 in Hd.
  destruct (Z.eqb_spec (up_userId r) userId) as [Eu|]; [|reflexivity].
  destruct (Z.eqb_spec (up_hotelId r) hotelId) as [Eh|]; [|reflexivity].
  destruct (bool_decide_reflect (up_date r = date)) as [Ed|]; [|reflexivity].
  exfalso. apply Hne. congruence.
Qed.

(** X16.  What [saveUserPrice] stores for (user, hotel, date),
    [getUserPrice] returns for that key, whether a row existed or not;
    the answer for every other key is what it was; the table gains one row
    when the key had none and none otherwise, every row keeps its place and
    its id. *)
Theorem saveUserPrice_getUserPrice (now userId hotelId : Z) (date : string)
    (customPrice : Q) (t : list UserPriceRow) :
  exists t' added,
    saveUserPrice true now userId hotelId date customPrice t = (Js.Ret tt, t')
    /\ getUserPrice true userId hotelId date t'
       = (Js.Ret (Some customPrice), t')
    /\ (forall u h dt, (u, h, dt) <> (userId, hotelId, date) ->
        fst (getUserPrice true u h dt t') = fst (getUserPrice true u h dt t))
    /\ map up_id t' = map up_id t ++ map up_id added
    /\ length added
       = match filter (fun r => priceFor userId hotelId date r) t with
         | [] => 1%nat
         | _ :: _ => 0%nat
         end
    /\ length (filter (fun r => priceFor userId hotelId date r) t')
       = Nat.max 1 (length (filter (fun r => priceFor userId hotelId date r) t)).
Proof.
  cbv beta delta [saveUserPrice getUserPrice require_db Js.bind Js.get
    Js.modify Js.ret Js.throw].
  cbn beta iota zeta.
  destruct (filter (fun r => priceFor userId hotelId date r) t)
    as [|r rest] eqn:Hex; cbn beta iota zeta.
  - set (new := mkUserPrice (next_id up_id t) userId hotelId date
                  customPrice now now).
    assert (Hnew : priceFor userId hotelId date new = true).
    { unfold priceFor, new. cbn.
      rewrite !Z.eqb_refl, bool_decide_eq_true_2 by reflexivity.
      reflexivity. }
    exists (t ++ [new]), [new]. split; [reflexivity|].
    rewrite filter_app, Hex, filter_cons_bool, filter_nil, Hnew.
    cbn beta iota zeta. cbn [app].
    split; [reflexivity|]. split.
    { intros u h dt Hne. rewrite filter_app, filter_cons_bool, filter_nil.
      assert (Hno : priceFor u h dt new = false).
      { destruct (priceFor u h dt new) eqn:E; [|reflexivity].
        rewrite (priceFor_other userId hotelId date u h dt new Hne E) in Hnew.
        discriminate. }
      rewrite Hno, app_nil_r.
      destruct (filter (fun r => priceFor u h dt r) t); reflexivity. }
    split; [apply map_app|]. split; reflexivity.
  - set (upd := fun r0 : UserPriceRow =>
                  if priceFor userId hotelId date r0
                  then mkUserPrice (up_id r0) (up_userId r0) (up_hotelId r0)
                         (up_date r0) customPrice (up_createdAt r0) now
                  else r0).
    assert (Hkey : forall u h dt x, priceFor u h dt (upd x) = priceFor u h dt x).
    { intros u h dt x. unfold upd.
      destruct (priceFor userId hotelId date x); reflexivity. }
    assert (Hr : priceFor userId hotelId date r = true).
    { assert (Hin : r ∈ filter (fun r => priceFor userId hotelId date r) t)
        by (rewrite Hex; left).
      apply list_elem_of_filter in Hin as [Hp _].
      destruct (priceFor userId hotelId date r); [reflexivity|destruct Hp]. }
    exists (map upd t), []. split; [reflexivity|].
    rewrite (filter_map_same (priceFor userId hotelId date) upd t
               (Hkey userId hotelId date)), Hex.
    cbn [map]. split.
    { unfold upd at 1. rewrite Hr. reflexivity. }
    split.
    { intros u h dt Hne.
      rewrite (filter_map_id (priceFor u h dt) upd t (Hkey u h dt));
        [destruct (filter (fun r => priceFor u h dt r) t); reflexivity|].
      intros x Hx. unfold upd.
      rewrite (priceFor_other userId hotelId date u h dt x Hne Hx).
      reflexivity. }
    split.
    { cbn [map]. rewrite app_nil_r, map_map. apply map_ext.
      intros x. unfold upd.
      destruct (priceFor userId hotelId date x); reflexivity. }
    split; [reflexivity|].
    cbn [length]. rewrite length_map. lia.
Qed.

Lemma activeFor_true (userId hotelId : Z) (date : string) (a : AlertRow) :
  activeFor userId hotelId date a = true <->
  a_userId a = userId /\ a_hotelId a = hotelId /\ a_date a = date
  /\ a_isActive a = 1%Z.
Proof.
  unfold activeFor. rewrite !andb_true_iff, !Z.eqb_eq, bool_decide_eq_true.
  tauto.
Qed.

(** A filter lets through fewer rows after an update that only closes it. *)
Lemma filter_map_shrinks {A} (P : A -> bool) (f : A -> A) (l : list A) :
  (forall x, P (f x) = true -> P x = true) ->
  (length (filter (fun x => P x) (map f l))
   <= length (filter (fun x => P x) l))%nat.
Proof.
  intros Hf. induction l as [|x l IH]; [reflexivity|].
  cbn [map]. rewrite !filter_cons_bool.
  destruct (P (f x)) eqn:Hfx.
  - rewrite (Hf x Hfx). cbn [length]. lia.
  - destruct (P x); cbn [length]; lia.
Qed.

(** X17.  At most one active alert per (user, hotel, date): a table that
    has this property keeps it through [createPriceAlert], whatever the
    prices, and through [dismissAlert], whatever the id. *)
Theorem alerts_one_active_per_key (now : Z) (d : Db) :
  (forall u h dt,
      (length (filter (fun a => activeFor u h dt a) (priceAlerts d)) <= 1)%nat) ->
  (forall userId hotelId date userPrice competitorPrice u h dt,
      (length (filter (fun a => activeFor u h dt a)
                 (priceAlerts (snd (createPriceAlert true now userId hotelId
                                      date userPrice competitorPrice d))))
       <= 1)%nat)
  /\ (forall alertId u h dt,
        (length (filter (fun a => activeFor u h dt a)
                   (priceAlerts (snd (dismissAlert true now alertId d))))
         <= 1)%nat).
Proof.
  intros Hone. split.
  - intros userId hotelId date userPrice competitorPrice u h dt.
    destruct (Qlt_le_dec (competitorPrice - userPrice) 0) as [Hlt|Hge].
    + destruct (filter (fun a => activeFor userId hotelId date a)
                  (priceAlerts d)) as [|existing others] eqn:Hex.
      * rewrite (createPriceAlert_insert now userId hotelId date userPrice
                   competitorPrice d Hlt Hex).
        cbn [snd priceAlerts set_priceAlerts].
        rewrite filter_app, filter_cons_bool, filter_nil, length_app.
        destruct (activeFor u h dt _) eqn:Hnew; cbn [length];
          [|specialize (Hone u h dt); cbn; lia].
        apply activeFor_true in Hnew as (Hu & Hh & Hd & _).
        cbn in Hu, Hh, Hd. subst u h dt. rewrite Hex. cbn. lia.
      * rewrite (createPriceAlert_update now userId hotelId date userPrice
                   competitorPrice d existing others Hlt Hex).
        cbn [snd priceAlerts set_priceAlerts].
        rewrite update_keeps_active, length_map. apply Hone.
    + rewrite (createPriceAlert_skip now userId hotelId date userPrice
                 competitorPrice d Hge).
      apply Hone.
  - intros alertId u h dt.
    cbv beta delta [dismissAlert require_db Js.bind Js.modify Js.ret].
    cbn beta iota zeta. cbn [snd priceAlerts set_priceAlerts].
    etransitivity; [|apply (Hone u h dt)].
    apply (filter_map_shrinks (activeFor u h dt)).
    intros x. destruct (a_id x =? alertId)%Z; [|auto].
    unfold activeFor. cbn. rewrite andb_false_r. discriminate.
Qed.

Lemma filter_none {A} (P : A -> bool) (l : list A) :
  (forall x, In x l -> P x = false) -> filter (fun x => P x) l = [].
Proof.
  intros Hl. induction l as [|x l IH]; [reflexivity|].
  rewrite filter_cons_bool, (Hl x) by (left; reflexivity).
  apply IH. intros y Hy. apply Hl. right. exact Hy.
Qed.

Lemma dismissAlert_unknown_id (now k : Z) (d : Db) :
  ~ In k (map a_id (priceAlerts d)) ->
  dismissAlert true now k d = (Js.Ret tt, d).
Proof.
  intros Hk.
  cbv beta delta [dismissAlert require_db Js.bind Js.modify Js.ret].
  cbn beta iota zeta. f_equal.
  destruct d as [hs ph wc sl pa]. unfold set_priceAlerts.
  cbn [hotels priceHistory webbedCredentials syncLogs priceAlerts] in *.
  f_equal.
  induction pa as [|a pa IH]; [reflexivity|].
  cbn [map] in *.
  destruct (Z.eqb_spec (a_id a) k) as [E|_].
  - destruct Hk. left. exact E.
  - f_equal. apply IH. intros Hin. apply Hk. right. exact Hin.
Qed.

(** X18.  A dismissed alert is not revived: when the only active alert of
    a key is dismissed, no active alert is left for the key, the table
    keeps its length, and a later [createPriceAlert] with a lower
    competitor price appends a fresh active alert instead of touching the
    dismissed one; dismissing an id that no row has changes nothing. *)
Theorem dismissAlert_then_createPriceAlert (now later userId hotelId : Z)
    (date : string) (userPrice competitorPrice : Q) (d : Db)
    (existing : AlertRow) :
  filter (fun a => activeFor userId hotelId date a) (priceAlerts d)
  = [existing] ->
  competitorPrice - userPrice < 0 ->
  exists d1 d2 new,
    dismissAlert true now (a_id existing) d = (Js.Ret tt, d1)
    /\ filter (fun a => activeFor userId hotelId date a) (priceAlerts d1) = []
    /\ length (priceAlerts d1) = length (priceAlerts d)
    /\ createPriceAlert true later userId hotelId date userPrice
                        competitorPrice d1
       = (Js.Ret tt, d2)
    /\ priceAlerts d2 = priceAlerts d1 ++ [new]
    /\ filter (fun a => activeFor userId hotelId date a) (priceAlerts d2)
       = [new]
    /\ a_createdAt new = later
    /\ (forall k, ~ In k (map a_id (priceAlerts d)) ->
        dismissAlert true now k d = (Js.Ret tt, d)).
Proof.
  intros Hex Hlt.
  set (dis := fun a : AlertRow =>
                if (a_id a =? a_id existing)%Z then
                  mkAlert (a_id a) (a_userId a) (a_hotelId a) (a_date a)
                          (a_userPrice a) (a_competitorPrice a)
                          (a_priceDifference a) (a_alertType a)
                          0 (a_createdAt a) (Some now)
                else a).
  set (d1 := set_priceAlerts (map dis) d).
  assert (Hnone : filter (fun a => activeFor userId hotelId date a)
                    (priceAlerts d1) = []).
  { cbn [d1 priceAlerts set_priceAlerts].
    apply (filter_none (activeFor userId hotelId date)).
    intros a Hin. apply in_map_iff in Hin as (a0 & <- & Hin0).
    destruct (activeFor userId hotelId date (dis a0)) eqn:Hact;
      [exfalso|reflexivity].
    unfold dis in Hact.
    destruct (Z.eqb_spec (a_id a0) (a_id existing)) as [Hid|Hid].
    - unfold activeFor in Hact. cbn in Hact. rewrite andb_false_r in Hact.
      discriminate.
    - assert (Hin : a0 ∈ filter (fun a => activeFor userId hotelId date a)
                           (priceAlerts d)).
      { apply list_elem_of_filter.
        split; [rewrite Hact; exact I|apply list_elem_of_In; exact Hin0]. }
      rewrite Hex in Hin. apply list_elem_of_singleton in Hin. subst a0.
      apply Hid. reflexivity. }
  exists d1. eexists. eexists.
  split; [reflexivity|]. split; [exact Hnone|].
  split; [cbn [d1 priceAlerts set_priceAlerts]; apply length_map|].
  split; [apply (createPriceAlert_insert later userId hotelId date userPrice
                   competitorPrice d1 Hlt Hnone)|].
  cbn [priceAlerts set_priceAlerts].
  split; [reflexivity|]. split.
  { change (map dis (priceAlerts d)) with (priceAlerts d1).
    rewrite filter_app, Hnone, filter_cons_bool, filter_nil. cbn [app].
    destruct (activeFor userId hotelId date _) eqn:Hnew; [reflexivity|].
    unfold activeFor in Hnew. cbn in Hnew.
    rewrite !Z.eqb_refl, bool_decide_eq_true_2 in Hnew by reflexivity.
    discriminate. }
  split; [reflexivity|].
  intros k Hk. apply dismissAlert_unknown_id, Hk.
Qed.

(** X19.  The dashboard and the alerts judge a pair of prices alike: for
    a row with both prices, [getPriceComparisonData] says [losing] exactly
    when [createPriceAlert] classifies the pair as [price_lower],
    [winning] exactly for [price_higher] and [equal] exactly for
    [price_equal]; the status is [no_price] exactly when a price is null.
    The difference shown is [competitor - own], but null as soon as one of
    the two prices is zero, whatever the status. *)
Theorem comparisonRow_agrees_with_alertTypeOf (item : ComparisonItem) :
  (cr_status (comparisonRow item) = no_price
   <-> ci_userPrice item = None \/ ci_competitorBasePrice item = None)
  /\ (forall u c,
        ci_userPrice item = Some u -> ci_competitorBasePrice item = Some c ->
        (cr_status (comparisonRow item) = losing
         <-> alertTypeOf (c - u) = price_lower)
        /\ (cr_status (comparisonRow item) = winning
            <-> alertTypeOf (c - u) = price_higher)
        /\ (cr_status (comparisonRow item) = equal
            <-> alertTypeOf (c - u) = price_equal)
        /\ (cr_priceDifference (comparisonRow item)
            = if Qeq_bool u 0 || Qeq_bool c 0 then None else Some (c - u))).
Proof.
  unfold comparisonRow. cbn [cr_status cr_priceDifference].
  split.
  - destruct (ci_userPrice item) as [u|], (ci_competitorBasePrice item) as [c|];
      try (split; [auto|reflexivity]).
    split.
    + destruct (Qlt_le_dec c u); [discriminate|].
      destruct (Qlt_le_dec u c); discriminate.
    + intros [H|H]; discriminate.
  - intros u c -> ->. unfold alertTypeOf, Js.truthy.
    destruct (Qlt_le_dec c u) as [H1|H1];
      destruct (Qlt_le_dec (c - u) 0) as [H2|H2]; try (exfalso; lra).
    + repeat split; intros; try discriminate; try reflexivity.
      destruct (Qeq_bool u 0), (Qeq_bool c 0); reflexivity.
    + destruct (Qlt_le_dec u c) as [H3|H3];
        destruct (Qlt_le_dec 0 (c - u)) as [H4|H4]; try (exfalso; lra).
      * repeat split; intros; try discriminate; try reflexivity.
        destruct (Qeq_bool u 0), (Qeq_bool c 0); reflexivity.
      * repeat split; intros; try discriminate; try reflexivity.
        destruct (Qeq_bool u 0), (Qeq_bool c 0); reflexivity.
Qed.

(** Owner 7 asks 220 for hotel 3, then 210: one row, read back as 210,
    and the price of owner 8 is still the one that owner stored. *)
Lemma saveUserPrice_getUserPrice_witness :
  let t0 := [mkUserPrice 1 8 3 "2026-02-16" 250 10 10] in
  exists t1 t2,
    saveUserPrice true 100 7 3 "2026-02-16" 220 t0 = (Js.Ret tt, t1)
    /\ saveUserPrice true 200 7 3 "2026-02-16" 210 t1 = (Js.Ret tt, t2)
    /\ length t2 = 2%nat
    /\ getUserPrice true 7 3 "2026-02-16" t2 = (Js.Ret (Some 210), t2)
    /\ fst (getUserPrice true 8 3 "2026-02-16" t2) = Js.Ret (Some 250).
Proof.
  intros t0.
  destruct (saveUserPrice_getUserPrice 100 7 3 "2026-02-16" 220 t0)
    as (t1 & added1 & Hs1 & _ & Ho1 & Hid1 & Hlen1 & _).
  destruct (saveUserPrice_getUserPrice 200 7 3 "2026-02-16" 210 t1)
    as (t2 & added2 & Hs2 & Hg2 & Ho2 & Hid2 & Hlen2 & Hn2).
  exists t1, t2. split; [exact Hs1|]. split; [exact Hs2|].
  assert (Ht1 : t1 = t0 ++ [mkUserPrice 2 7 3 "2026-02-16" 220 100 100])
    by (revert Hs1; vm_compute; congruence).
  split.
  { apply (f_equal (@length Z)) in Hid2. rewrite !length_app, !length_map in Hid2.
    rewrite Hid2, Hlen2, Ht1. reflexivity. }
  split; [exact Hg2|].
  rewrite (Ho2 8%Z 3%Z "2026-02-16") by discriminate.
  rewrite (Ho1 8%Z 3%Z "2026-02-16") by discriminate.
  reflexivity.
Defined.

(** A competitor at 200 against an own price of 220: an alert would be
    raised, the dashboard says losing and shows -20; against an own price
    of 0 it says winning and shows no difference. *)
Lemma comparisonRow_agrees_with_alertTypeOf_witness :
  cr_status (comparisonRow (mkItem 3 "VOCO" "2026-02-16" (Some 200) (Some 220)))
  = losing
  /\ cr_priceDifference
       (comparisonRow (mkItem 3 "VOCO" "2026-02-16" (Some 200) (Some 220)))
     = Some (200 - 220)
  /\ cr_priceDifference
       (comparisonRow (mkItem 3 "VOCO" "2026-02-16" (Some 200) (Some 0)))
     = None.
Proof.
  destruct (comparisonRow_agrees_with_alertTypeOf
              (mkItem 3 "VOCO" "2026-02-16" (Some 200) (Some 220)))
    as [_ H1].
  destruct (H1 220 200 eq_refl eq_refl) as (Hlosing & _ & _ & Hdiff).
  destruct (comparisonRow_agrees_with_alertTypeOf
              (mkItem 3 "VOCO" "2026-02-16" (Some 200) (Some 0)))
    as [_ H2].
  destruct (H2 0 200 eq_refl eq_refl) as (_ & _ & _ & Hdiff0).
  split; [apply Hlosing; reflexivity|]. split; [exact Hdiff|exact Hdiff0].
Defined.

(** The first alert of a key on an empty table is its only active one. *)
Lemma alerts_one_active_per_key_witness :
  (length (filter (fun a => activeFor 7 3 "2026-02-16" a)
             (priceAlerts (snd (createPriceAlert true 100 7 3 "2026-02-16"
                                  220 200 emptyDb))))
   <= 1)%nat.
Proof.
  refine (proj1 (alerts_one_active_per_key 100 emptyDb _) 7%Z 3%Z
            "2026-02-16" 220 200 7%Z 3%Z "2026-02-16").
  intros u h dt. cbn. lia.
Defined.

(** The alert raised at 200 against 220 is dismissed; a competitor at 190
    then raises a second alert, the only active one. *)
Lemma dismissAlert_then_createPriceAlert_witness :
  let raised := mkAlert 1 7 3 "2026-02-16" 220 200 (200 - 220) price_lower
                        1 100 None in
  let d := mkDb [] [] [] [] [raised] in
  exists d1 d2 new,
    dismissAlert true 150 1 d = (Js.Ret tt, d1)
    /\ createPriceAlert true 200 7 3 "2026-02-16" 220 190 d1 = (Js.Ret tt, d2)
    /\ priceAlerts d2 = priceAlerts d1 ++ [new]
    /\ a_createdAt new = 200%Z.
Proof.
  intros raised d.
  destruct (dismissAlert_then_createPriceAlert 150 200 7 3 "2026-02-16"
              220 190 d raised eq_refl eq_refl)
    as (d1 & d2 & new & Hd & _ & _ & Hc & Hrows & _ & Hat & _).
  exists d1, d2, new. auto.
Defined.

End OwnerPricesAndAlerts.

(** ** Counters, average and uptime of the monitor ([sync-monitor.ts]) *)

Section TelemetryInvariants.
Import SyncMonitor.

Lemma sum_snoc (l : list Z) (x : Z) : sum (l ++ [x]) = sum l + x.
Proof. unfold sum. rewrite fold_left_app. reflexivity. Qed.

(** X20.  After any sequence of [endCycle] calls since [reset]: every
    cycle is counted once, as a success or as a failure, so
    [totalCycles = successfulCycles + failedCycles]; [failedCycles] is the
    number of calls made with [success = false]; [totalItemsProcessed] is
    the sum of the items handed in; [startTime] is still that of the
    reset; [lastSyncTime] and [lastSyncDuration] are those of the last
    call, and null when there has been none. *)
Theorem endCycles_counters (t0 : Z) (calls : list Call) :
  let m := endCycles calls (reset t0) in
  totalCycles (stats m) = successfulCycles (stats m) + failedCycles (stats m)
  /\ failedCycles (stats m)
     = Z.of_nat (length (filter (fun c => negb (arg_success c)) calls))
  /\ totalItemsProcessed (stats m) = sum (map arg_itemsProcessed calls)
  /\ startTime (stats m) = t0
  /\ lastSyncTime (stats m) = option_map at_now' (last calls)
  /\ lastSyncDuration (stats m) = option_map call_duration (last calls).
Proof.
  induction calls as [|c calls IH] using rev_ind.
  - cbn. repeat split; reflexivity.
  - cbv zeta in *. rewrite endCycles_snoc.
    destruct IH as (Htot & Hfail & Hitems & Hstart & _).
    set (m := endCycles calls (reset t0)) in *.
    unfold endCycle.
    cbn [stats totalCycles successfulCycles failedCycles totalItemsProcessed
         startTime lastSyncTime lastSyncDuration].
    rewrite last_snoc, filter_app, length_app, map_app.
    cbn [map option_map]. rewrite sum_snoc, filter_cons, filter_nil.
    rewrite Hitems, Hstart.
    split; [destruct (arg_success c); lia|].
    split.
    { rewrite Hfail.
      destruct (decide _) as [Hs|Hs]; destruct (arg_success c);
        cbn in Hs |- *; try lia; tauto. }
    repeat split; reflexivity.
Qed.

Lemma sum_between (lo hi : Z) (l : list Z) :
  (forall x, In x l -> lo <= x <= hi) ->
  lo * Z.of_nat (length l) <= sum l <= hi * Z.of_nat (length l).
Proof.
  induction l as [|x l IH] using rev_ind; intros Hl; [cbn; lia|].
  rewrite sum_snoc, length_app. cbn [length].
  assert (Hx : lo <= x <= hi) by (apply Hl, in_or_app; right; left; reflexivity).
  assert (Hrest : lo * Z.of_nat (length l) <= sum l <= hi * Z.of_nat (length l)).
  { apply IH. intros y Hy. apply Hl, in_or_app. left. exact Hy. }
  lia.
Qed.

(** X21.  The average shown lies between the shortest and the longest
    cycle: when every call since [reset] took between [lo] and [hi]
    milliseconds, so does [averageCycleDuration] after them. *)
Theorem averageCycleDuration_between (t0 lo hi : Z) (calls : list Call) :
  calls <> [] ->
  (forall c, In c calls -> lo <= call_duration c <= hi) ->
  let m := endCycles calls (reset t0) in
  (inject_Z lo <= averageCycleDuration (stats m) <= inject_Z hi)%Q.
Proof.
  intros Hne Hall m.
  destruct (endCycles_invariant t0 calls) as (_ & _ & Hwin & Havg).
  fold m in Hwin, Havg. rewrite (Havg Hne), Hwin.
  set (w := drop (length calls - 100) (map call_duration calls)).
  assert (Hw : forall x, In x w -> lo <= x <= hi).
  { intros x Hx. apply list_elem_of_In in Hx.
    apply (subseteq_drop _ _ x) in Hx. apply list_elem_of_In in Hx.
    apply in_map_iff in Hx as (c & <- & Hc). apply Hall, Hc. }
  assert (Hlen : 0 < Z.of_nat (length w)).
  { unfold w. rewrite length_drop, length_map.
    destruct calls; [contradiction|]. cbn [length]. lia. }
  destruct (sum_between lo hi w Hw) as [Hlo Hhi].
  assert (Hpos : (0 < inject_Z (Z.of_nat (length w)))%Q).
  { change 0%Q with (inject_Z 0). rewrite <- Zlt_Qlt. exact Hlen. }
  split.
  - apply Qle_shift_div_l; [exact Hpos|].
    rewrite <- inject_Z_mult, <- Zle_Qle. exact Hlo.
  - apply Qle_shift_div_r; [exact Hpos|].
    rewrite <- inject_Z_mult, <- Zle_Qle. exact Hhi.
Qed.

Lemma floor_div_const (u : Z) (c : positive) :
  Qfloor (inject_Z u / (Z.pos c # 1)) = u / Z.pos c.
Proof.
  unfold Qdiv, Qinv, Qmult, inject_Z, Qfloor. cbn [Qnum Qden].
  rewrite Z.mul_1_r, Pos.mul_1_l. reflexivity.
Qed.

Lemma trunc_div_const (u : Z) (c m : positive) :
  0 <= u ->
  trunc (inject_Z u / (Z.pos c # 1) / (Z.pos m # 1)) = u / Z.pos (c * m).
Proof.
  intros Hu. unfold trunc, Qdiv, Qinv, Qmult, inject_Z. cbn [Qnum Qden].
  rewrite !Z.mul_1_r, Pos.mul_1_l.
  apply Z.quot_div_nonneg; lia.
Qed.

(** The remainder that [getUptimeString] floors: the whole part of
    [u / c], reduced modulo [m]. *)
Lemma floor_rem_div (u : Z) (c m : positive) :
  0 <= u ->
  Js.Math_floor (rem (inject_Z u / (Z.pos c # 1)) (Z.pos m # 1))
  = (u / Z.pos c) mod Z.pos m.
Proof.
  intros Hu. unfold Js.Math_floor, rem.
  rewrite (trunc_div_const u c m Hu).
  assert (Hq : u / Z.pos (c * m) = u / Z.pos c / Z.pos m).
  { rewrite Pos2Z.inj_mul, Z.div_div by lia. reflexivity. }
  rewrite Hq.
  pose proof (Qfloor_le (inject_Z u / (Z.pos c # 1))) as Hfl.
  pose proof (Qlt_floor (inject_Z u / (Z.pos c # 1))) as Hlt.
  rewrite floor_div_const in Hfl, Hlt.
  set (a := u / Z.pos c) in *.
  set (x := (inject_Z u / (Z.pos c # 1))%Q) in *.
  rewrite (Z.mod_eq a (Z.pos m)) by lia.
  apply Qfloor_unique.
  - rewrite inject_Z_plus in Hlt. unfold Z.sub.
    rewrite inject_Z_plus, inject_Z_opp, inject_Z_mult.
    change (inject_Z (Z.pos m)) with (Z.pos m # 1)%Q.
    change (inject_Z 1) with 1%Q in Hlt. lra.
  - rewrite inject_Z_plus in Hlt. unfold Z.sub.
    rewrite inject_Z_plus, inject_Z_opp, inject_Z_mult.
    change (inject_Z (Z.pos m)) with (Z.pos m # 1)%Q.
    change (inject_Z 1) with 1%Q in Hlt. lra.
Qed.

(** X22.  For a clock that has not gone back since the start,
    [getUptimeString] prints the decomposition of the uptime into whole
    days, hours below 24 and minutes below 60 -- the seconds are dropped --
    and leaves out the days when there are none, and then also the hours
    when there are none. *)
Theorem getUptimeString_decomposition (now : Z) (m : Monitor) :
  startTime (stats m) <= now ->
  let u := now - startTime (stats m) in
  let days := u / 86400000 in
  let hours := (u / 3600000) mod 24 in
  let minutes := (u / 60000) mod 60 in
  (0 <= days /\ 0 <= hours < 24 /\ 0 <= minutes < 60)
  /\ (days * 86400000 + hours * 3600000 + minutes * 60000 <= u
      < days * 86400000 + hours * 3600000 + minutes * 60000 + 60000)
  /\ getUptimeString now m
     = if 0 <? days then
         String.append (pretty days) (String.append "d "
           (String.append (pretty hours) (String.append "h "
             (String.append (pretty minutes) "m"))))
       else if 0 <? hours then
         String.append (pretty hours) (String.append "h "
           (String.append (pretty minutes) "m"))
       else String.append (pretty minutes) "m".
Proof.
  intros Hstart u days hours minutes.
  assert (Hu : 0 <= u) by (unfold u; lia).
  split; [|split].
  - unfold days, hours, minutes.
    split; [apply Z.div_pos; lia|].
    split; apply Z.mod_pos_bound; lia.
  - unfold days, hours, minutes.
    pose proof (Z.div_mod u 60000 ltac:(lia)) as H1.
    pose proof (Z.mod_pos_bound u 60000 ltac:(lia)) as H1'.
    pose proof (Z.div_mod (u / 60000) 60 ltac:(lia)) as H2.
    pose proof (Z.div_mod (u / 3600000) 24 ltac:(lia)) as H3.
    assert (E1 : u / 3600000 = u / 60000 / 60)
      by (rewrite Z.div_div by lia; reflexivity).
    assert (E2 : u / 86400000 = u / 3600000 / 24)
      by (rewrite Z.div_div by lia; reflexivity).
    rewrite E2. rewrite E1 in *. lia.
  - unfold getUptimeString. fold u.
    change (Js.Math_floor (inject_Z u / 86400000)%Q)
      with (Qfloor (inject_Z u / (Z.pos 86400000 # 1))).
    rewrite floor_div_const.
    change (rem (inject_Z u / 3600000) 24)%Q
      with (rem (inject_Z u / (Z.pos 3600000 # 1)) (Z.pos 24 # 1)).
    change (rem (inject_Z u / 60000) 60)%Q
      with (rem (inject_Z u / (Z.pos 60000 # 1)) (Z.pos 60 # 1)).
    rewrite !floor_rem_div by exact Hu.
    reflexivity.
Qed.

(** Cycles of 100, 200 and 300 ms: the average, 200, lies between. *)
Lemma averageCycleDuration_between_witness :
  let calls := [mkCall 150 150 50 true 10; mkCall 350 350 150 true 10;
                mkCall 650 650 350 false 0] in
  (inject_Z 100
   <= averageCycleDuration (stats (endCycles calls (reset 0)))
   <= inject_Z 300)%Q.
Proof.
  intros calls.
  apply (averageCycleDuration_between 0 100 300 calls); [discriminate|].
  intros c [<-|[<-|[<-|[]]]]; unfold call_duration;
    cbn [at_now arg_startTime]; lia.
Defined.

(** Started at 0 and read after 93 784 000 ms, a monitor has been up for
    one day, two hours and three minutes. *)
Lemma getUptimeString_decomposition_witness :
  getUptimeString 93784000 (reset 0) = "1d 2h 3m".
Proof.
  destruct (getUptimeString_decomposition 93784000 (reset 0))
    as (_ & _ & Hs); [cbn; lia|].
  rewrite Hs. reflexivity.
Defined.

End TelemetryInvariants.

(** ** The check-out date of a cell ([runSync]) *)

Section CheckOut.
Import Scheduler.













End CheckOut.

(** ** What the procedures of the router show ([routers/scraper.ts]) *)

Section RouterSync.
Import Schema Scheduler ScraperRouter.

Lemma earliest_snoc (l : list SyncLogRow) (n : SyncLogRow) :
  (forall x, In x l -> sl_startedAt x <= sl_startedAt n) ->
  earliest (l ++ [n])
  = match earliest l with Some b => Some b | None => Some n end.
Proof.
  induction l as [|r rest IH]; intros Hl; [reflexivity|].
  cbn [app earliest]. rewrite IH by (intros x Hx; apply Hl; right; exact Hx).
  destruct (earliest rest) as [b|];
    [destruct (sl_startedAt b <? sl_startedAt r); reflexivity|].
  assert (Hr : sl_startedAt r <= sl_startedAt n) by (apply Hl; left; reflexivity).
  destruct (Z.ltb_spec (sl_startedAt n) (sl_startedAt r)); [lia|reflexivity].
Qed.

Lemma filter_in_bool {A} (P : A -> bool) (l : list A) (x : A) :
  In x (filter (fun a => P a) l) <-> In x l /\ P x = true.
Proof.
  rewrite <- !list_elem_of_In, list_elem_of_filter.
  destruct (P x); cbn; intuition discriminate.
Qed.

(** X24.  [getSyncStatus] shows the oldest run of the user, whatever has
    run since.  Every earlier run of the user having started before this
    one: the row shown after [runSync] is the row that was shown before
    it, unchanged, on every path of the run; only when the user had no run
    yet is the new run shown -- as soon as the run writes its row, that
    is with stored credentials, a readable password and the look-up and
    the insert answered.  What is shown for other users does not change. *)
Theorem getSyncStatus_shows_oldest_run (env : Env) (userId : Z) (d : Db) :
  (forall l, In l (syncLogs d) -> sl_userId l = userId ->
             sl_startedAt l < t_start env) ->
  exists res d',
    runSync env userId d = (res, d')
    /\ (forall shown,
          getSyncStatus true userId d = (Js.Ret (Some shown), d) ->
          getSyncStatus true userId d' = (Js.Ret (Some shown), d'))
    /\ (getDb env = true ->
        query env SelectCredentials = Js.Ret tt ->
        query env InsertSyncLog = Js.Ret tt ->
        (forall c, In c (webbedCredentials d) ->
                   exists password,
                     decryptData env (c_password c) = Js.Ret password) ->
        filter (fun c => c_userId c =? userId) (webbedCredentials d) <> [] ->
        getSyncStatus true userId d = (Js.Ret None, d) ->
        exists l, getSyncStatus true userId d' = (Js.Ret (Some l), d')
                  /\ In l (syncLogs d') /\ ~ In l (syncLogs d)
                  /\ sl_userId l = userId /\ sl_startedAt l = t_start env)
    /\ (forall other, other <> userId ->
        fst (getSyncStatus true other d') = fst (getSyncStatus true other d)).
Proof.
  intros Hclock.
  destruct (runSync_on_outcome env HOTELS_TO_TRACK DATES_TO_TRACK userId d)
    as (res & d' & rows & newlogs & f & Hrun & _ & _ & _ & _ & _ & Hl & Hnew
        & Hlen & Hone & _).
  exists res, d'. split; [exact Hrun|].
  cbv beta delta [getSyncStatus require_db Js.bind Js.get Js.ret].
  cbn beta iota zeta.
  destruct newlogs as [|n [|n' newlogs]]; [| |cbn in Hlen; lia].
  { rewrite app_nil_r in Hl. rewrite Hl.
    split; [intros shown [= Hshown]; rewrite Hshown; reflexivity|].
    split; [|reflexivity].
    intros H1 H2 H3 H4 H5. discriminate (Hone H1 H2 H3 H4 H5). }
  destruct (Hnew n ltac:(left; reflexivity)) as (Hu & _ & Hs).
  assert (Hmine : filter (fun l => sl_userId l =? userId) (syncLogs d')
                  = filter (fun l => sl_userId l =? userId) (syncLogs d) ++ [n]).
  { rewrite Hl, filter_app, filter_cons_bool, filter_nil, Hu, Z.eqb_refl.
    reflexivity. }
  assert (Hearly : earliest (filter (fun l => sl_userId l =? userId)
                               (syncLogs d'))
                   = match earliest (filter (fun l => sl_userId l =? userId)
                                       (syncLogs d)) with
                     | Some b => Some b
                     | None => Some n
                     end).
  { rewrite Hmine. apply earliest_snoc. intros x Hx.
    apply (filter_in_bool (fun l => sl_userId l =? userId)) in Hx
      as [Hin Hux].
    apply Z.eqb_eq in Hux. specialize (Hclock x Hin Hux). lia. }
  rewrite Hearly.
  split; [|split].
  - intros shown [= Hshown]. rewrite Hshown. reflexivity.
  - intros _ _ _ _ _ [= Hnone]. rewrite Hnone. exists n.
    split; [reflexivity|]. split; [rewrite Hl; apply in_or_app; right; left;
                                   reflexivity|].
    split; [|split; [exact Hu|exact Hs]].
    intros Hin. specialize (Hclock n Hin Hu). lia.
  - intros other Hne. cbn [fst]. rewrite Hl, filter_app, filter_cons_bool,
      filter_nil, Hu.
    destruct (Z.eqb_spec userId other) as [E|_]; [destruct (Hne (eq_sym E))|].
    rewrite app_nil_r. reflexivity.
Qed.

Lemma runAll_new_logs (env_of : nat -> Env) (allCreds : list CredentialRow) :
  forall (i : nat) (d : Db),
  exists res d' newlogs,
    runAll env_of i allCreds d = (res, d')
    /\ syncLogs d' = syncLogs d ++ newlogs
    /\ forall l, In l newlogs -> In (sl_userId l) (map c_userId allCreds).
Proof.
  induction allCreds as [|cred rest IH]; intros i d.
  - exists (Js.Ret tt), d, []. cbn. rewrite app_nil_r. repeat split.
    intros l [].
  - destruct (runSync_on_outcome (env_of i) HOTELS_TO_TRACK DATES_TO_TRACK
                (c_userId cred) d)
      as (res1 & d1 & rows1 & newlogs1 & f & Hrun & _ & _ & _ & _ & _ & Hl
          & Hnew & _).
    cbn [runAll].
    change (runSync (env_of i) (c_userId cred) d)
      with (runSync_on (env_of i) HOTELS_TO_TRACK DATES_TO_TRACK
                       (c_userId cred) d).
    rewrite Hrun. destruct res1 as [r|e].
    + destruct (IH (S i) d1) as (res & d2 & newlogs2 & Hrest & Hl2 & Hnew2).
      exists res, d2, (newlogs1 ++ newlogs2). split; [exact Hrest|].
      split; [rewrite Hl2, Hl, app_assoc; reflexivity|].
      intros l Hin. apply in_app_or in Hin as [Hin|Hin]; cbn [map].
      * left. symmetry. apply (Hnew l Hin).
      * right. apply Hnew2, Hin.
    + exists (Js.Throw e), d1, newlogs1. split; [reflexivity|].
      split; [exact Hl|].
      intros l Hin. cbn [map]. left. symmetry. apply (Hnew l Hin).
Qed.

(** X25.  After [deleteCredentials] the user is out of the sync: a
    [runSync] for the user writes nothing, whatever the database does, and
    answers "No credentials found" when its look-up is answered; a firing
    of the scheduler starts no run for the user; and the credentials of
    every other user are what they were. *)
Theorem deleteCredentials_stops_sync (userId : Z) (d : Db) :
  exists d1,
    deleteCredentials true userId d = (Js.Ret tt, d1)
    /\ (forall env, snd (runSync env userId d1) = d1)
    /\ (forall env, getDb env = true ->
        query env SelectCredentials = Js.Ret tt ->
        runSync env userId d1
        = (Js.Ret (mkResult false 0 0 0 0 (Some "No credentials found")), d1))
    /\ (forall other, other <> userId ->
        filter (fun c => c_userId c =? other) (webbedCredentials d1)
        = filter (fun c => c_userId c =? other) (webbedCredentials d))
    /\ (forall select env_of, exists res d2 newlogs,
          scheduledSync true select env_of d1 = (res, d2)
          /\ syncLogs d2 = syncLogs d1 ++ newlogs
          /\ forall l, In l newlogs -> sl_userId l <> userId).
Proof.
  eexists. split; [reflexivity|].
  cbn [webbedCredentials set_webbedCredentials].
  assert (Hgone : forall c,
             In c (filter (fun c => negb (c_userId c =? userId))
                          (webbedCredentials d)) ->
             c_userId c <> userId).
  { intros c Hc.
    apply (filter_in_bool (fun c => negb (c_userId c =? userId))) in Hc
      as [_ Hc].
    apply negb_true_iff, Z.eqb_neq in Hc. exact Hc. }
  assert (Hnil : filter (fun c => c_userId c =? userId)
                   (filter (fun c => negb (c_userId c =? userId))
                           (webbedCredentials d)) = []).
  { apply (filter_none (fun c => c_userId c =? userId)).
    intros c Hc. apply Z.eqb_neq, Hgone, Hc. }
  split; [|split; [|split]].
  - intros env. unfold runSync, runSync_on.
    destruct (getDb env); [|reflexivity].
    cbv beta delta [Js.try_catch runSync_try runSync_catch Js.bind Js.get
                    Js.ret on_db Js.modify await].
    cbn beta iota zeta.
    cbn [db webbedCredentials set_webbedCredentials]. rewrite Hnil.
    assert (Hsame : forall msg,
              map (fun c => if c_userId c =? userId
                            then mkCred (c_id c) (c_userId c) (c_username c)
                                   (c_password c) (c_lastSyncAt c)
                                   Schema.error (Some msg)
                            else c)
                  (filter (fun c => negb (c_userId c =? userId))
                          (webbedCredentials d))
              = filter (fun c => negb (c_userId c =? userId))
                       (webbedCredentials d)).
    { intros msg. rewrite <- (map_id (filter _ _)) at 2.
      apply map_ext_in. intros c Hc.
      apply Hgone, Z.eqb_neq in Hc. rewrite Hc. reflexivity. }
    destruct (query env SelectCredentials) as [[]|e]; cbn beta iota zeta;
      [reflexivity|].
    destruct (query env UpdateCredentialsError) as [[]|e'];
      cbn beta iota zeta; [|reflexivity].
    cbn. unfold update_credentials, set_webbedCredentials. cbn.
    rewrite Hsame. destruct d; reflexivity.
  - intros env Hdb Hq.
    unfold runSync, runSync_on. rewrite Hdb.
    cbv beta delta [Js.try_catch runSync_try Js.bind Js.get Js.ret await].
    rewrite Hq. cbn beta iota zeta.
    cbn [db webbedCredentials set_webbedCredentials]. rewrite Hnil.
    reflexivity.
  - intros other Hne. clear Hgone Hnil.
    induction (webbedCredentials d) as [|c t IH]; [reflexivity|].
    rewrite !filter_cons_bool.
    destruct (Z.eqb_spec (c_userId c) userId) as [E|E]; cbn [negb].
    + destruct (Z.eqb_spec (c_userId c) other) as [E'|_]; [congruence|].
      exact IH.
    + rewrite filter_cons_bool.
      destruct (c_userId c =? other); [f_equal|]; exact IH.
  - intros sel env_of. unfold scheduledSync.
    cbn [webbedCredentials set_webbedCredentials].
    destruct sel as [[]|e].
    + match goal with
      | |- context [runAll env_of 0 ?creds ?d1] =>
          destruct (runAll_new_logs env_of creds 0%nat d1)
            as (res & d2 & newlogs & Hrun & Hl & Hnew)
      end.
      exists res, d2, newlogs. split; [exact Hrun|]. split; [exact Hl|].
      intros l Hin. specialize (Hnew l Hin).
      apply in_map_iff in Hnew as (c & <- & Hc). apply Hgone, Hc.
    + do 2 eexists. exists []. split; [reflexivity|].
      rewrite app_nil_r. split; [reflexivity|]. intros l [].
Qed.

(** A second run for user 7, started later than the first: the first run
    is still the one shown. *)
Lemma getSyncStatus_shows_oldest_run_witness :
  let env := mkEnv true (fun _ => Js.Ret tt) (fun s => Js.Ret s) (Js.Ret tt)
               (fun _ _ => Js.Ret false) (fun _ _ _ => Js.Ret None)
               (Js.Ret tt) 1000 5000 in
  let first := mkLog 1 7 running 14 20 0 0 None 500 None None in
  let d := mkDb [] [] [mkCred 1 7 "a" "x" None idle None] [first] [] in
  exists res d',
    runSync env 7 d = (res, d')
    /\ getSyncStatus true 7 d' = (Js.Ret (Some first), d').
Proof.
  intros env first d.
  destruct (getSyncStatus_shows_oldest_run env 7 d)
    as (res & d' & Hrun & Hshown & _).
  - intros l [<-|[]] _. cbn. lia.
  - exists res, d'. split; [exact Hrun|]. apply Hshown. reflexivity.
Defined.

End RouterSync.

Section RouterSession.
Import SessionManager ScraperRouter.
Open Scope Q_scope.

Variable tn : Json -> Js.Res Js.Number.

(** [ToNumber] of a value that [JSON.parse] returned does not throw. *)
Hypothesis tn_total : forall v, exists n, tn v = Js.Ret n.






End RouterSession.


(** ** The success rate at its two ends ([getFormattedStats]) *)

Section SuccessRate.
Import SyncMonitor.

(** [toFixed] prints the number, not the fraction that denotes it. *)
Lemma toFixed2_compat (x y : Q) : (x == y)%Q -> toFixed2 x = toFixed2 y.
Proof.
  intros Hxy. unfold toFixed2.
  assert (Hn : Qfloor (Qabs x * 100 + (1 # 2)) = Qfloor (Qabs y * 100 + (1 # 2)))
    by (apply Qfloor_comp; rewrite Hxy; reflexivity).
  rewrite Hn.
  clear Hn.
  destruct (Qlt_le_dec x 0) as [Hx|Hx], (Qlt_le_dec y 0) as [Hy|Hy];
    try reflexivity; exfalso.
  - apply (Qlt_not_le _ _ Hx). rewrite Hxy. exact Hy.
  - apply (Qlt_not_le _ _ Hy). rewrite <- Hxy. exact Hx.
Qed.

Lemma filter_all {A} (P : A -> bool) (l : list A) :
  (forall x, In x l -> P x = true) -> filter (fun x => P x) l = l.
Proof.
  intros Hl. induction l as [|x l IH]; [reflexivity|].
  rewrite filter_cons_bool, (Hl x) by (left; reflexivity).
  f_equal. apply IH. intros y Hy. apply Hl. right. exact Hy.
Qed.

(** X27.  The two ends of the success rate: after one or more cycles
    since [reset], [getFormattedStats] shows "100.00%" when every cycle
    succeeded and "0.00%" when every cycle failed. *)
Theorem getFormattedStats_rate_ends (t0 : Z) (calls : list Call)
    (toLocaleString : Z -> string) (now : Z) :
  calls <> [] ->
  let shown := getFormattedStats toLocaleString now
                 (endCycles calls (reset t0)) in
  ((forall c, In c calls -> arg_success c = true) ->
   f_successRate shown = "100.00%")
  /\ ((forall c, In c calls -> arg_success c = false) ->
      f_successRate shown = "0.00%").
Proof.
  intros Hne shown.
  destruct (endCycles_invariant t0 calls) as (Htot & Hsucc & _).
  cbv zeta in Htot, Hsucc.
  assert (Hpos : 0 < Z.of_nat (length calls)).
  { destruct calls; [contradiction|]. cbn [length]. lia. }
  unfold shown, getFormattedStats. cbn [f_successRate].
  rewrite Htot, Hsucc.
  destruct (Z.ltb_spec 0 (Z.of_nat (length calls))) as [_|]; [|lia].
  split; intros Hall.
  - rewrite (filter_all arg_success calls Hall).
    assert (Hq : ~ (inject_Z (Z.of_nat (length calls)) == 0)%Q).
    { intros E. change 0%Q with (inject_Z 0) in E.
      pose proof (proj1 (inject_Z_injective _ _) E) as Hz. lia. }
    rewrite (fl64_comp (_ / _) 1) by (field; exact Hq).
    vm_compute. reflexivity.
  - rewrite (filter_none arg_success calls Hall).
    cbn [length]. change (inject_Z (Z.of_nat 0)) with 0%Q.
    rewrite (fl64_0 (0 / inject_Z (Z.of_nat (length calls))))
      by (unfold Qdiv; apply Qmult_0_l).
    vm_compute. reflexivity.
Qed.

(** One successful cycle: 100.00%. *)
Lemma getFormattedStats_rate_ends_witness :
  f_successRate (getFormattedStats (fun _ => EmptyString) 1000
                   (endCycles [mkCall 150 150 50 true 10] (reset 0)))
  = "100.00%".
Proof.
  apply (getFormattedStats_rate_ends 0 [mkCall 150 150 50 true 10]
           (fun _ => EmptyString) 1000); [discriminate|].
  intros c [<-|[]]. reflexivity.
Defined.

End SuccessRate.
